(** * unsugar-io-api: the authentication and session core

    A shallow embedding of the identity/session subsystem of the API
    (src/utils/jwt.js, src/models/User.js, src/middleware/auth.js,
    src/middleware/errorHandler.js, src/routes/auth.js and
    src/config/passport.js) together with the properties its
    specification states about it.

    Conventions.
    - Wall-clock time ([Date.now()], [Date] values) is a [Z] counting
      milliseconds since the epoch; JWT timestamps ([iat], [exp]) count
      seconds.
    - The Mongo collection of users is a [list User] in insertion order;
      documents are identified by [_id].  Documents are loaded whole
      ([select] projections are not modelled) and [save] writes the
      document back under its [_id].  The [timestamps] option of the
      schema (createdAt/updatedAt) is not modelled.
    - The libraries the code calls (jsonwebtoken, bcryptjs) are idealised
      symbolically: a token verifies under a secret exactly when it was
      signed with it, and a hash matches exactly the passwords with the
      72-byte key it was computed from (bcrypt reads no more of a
      password).  Strings are sequences of bytes.
    - Emails and names are stored and queried as given; the schema's
      [lowercase] and [trim] setters change nothing on the values
      [UserSchema.settledEmail] and [UserSchema.trimmedName] describe.
    - A JavaScript exception is the [Throw] case of [Result]. *)

From Stdlib Require Import ZArith List String Bool Lia.
Import ListNotations.

Local Open Scope string_scope.
Local Open Scope list_scope.
Local Open Scope Z_scope.

(* ------------------------------------------------------------------ *)
(** ** Errors, results and the environment                              *)
(* ------------------------------------------------------------------ *)

(** [err.code] is a string for application errors and a number for
    MongoDB server errors. *)
Inductive ErrCode : Type :=
| CodeStr (s : string)
| CodeNum (n : Z).

Definition ErrCode_eqb (a b : ErrCode) : bool :=
  match a, b with
  | CodeStr x, CodeStr y => String.eqb x y
  | CodeNum x, CodeNum y => Z.eqb x y
  | _, _ => false
  end.

Record FieldError : Type := mkFieldError {
  field : string;
  message : string
}.

(** The properties of a thrown error object that the code inspects. *)
Record JsError : Type := mkJsError {
  err_name : string;                       (* err.name *)
  err_message : string;                    (* err.message *)
  err_statusCode : option Z;               (* err.statusCode *)
  err_code : option ErrCode;               (* err.code *)
  err_errors : list FieldError;            (* err.errors *)
  err_keyValue : list (string * string);   (* err.keyValue (E11000) *)
  err_path : string;                       (* err.path (CastError) *)
  err_value : string                       (* err.value (CastError) *)
}.

(** [new Error(message)] *)
Definition Error (msg : string) : JsError :=
  mkJsError "Error" msg None None [] [] "" "".

(** An error of a library class that sets its own [name]. *)
Definition NamedError (name msg : string) : JsError :=
  mkJsError name msg None None [] [] "" "".

Inductive Result (A : Type) : Type :=
| Ok (a : A)
| Throw (e : JsError).

Arguments Ok {A} a.
Arguments Throw {A} e.

Definition bind {A B : Type} (c : Result A) (k : A -> Result B) : Result B :=
  match c with
  | Ok a => k a
  | Throw e => Throw e
  end.

Notation "'try' x '<-' c ';;' k" := (bind c (fun x => k))
  (at level 61, x name, c at next level, right associativity).

(** What is fixed when the process starts ([process.env]). *)
Record Config : Type := mkConfig {
  ACCESS_TOKEN_SECRET : string;
  REFRESH_TOKEN_SECRET : string;
  development : bool                       (* NODE_ENV === 'development' *)
}.

(** The defaults of src/utils/jwt.js, production mode. *)
Definition defaultConfig : Config :=
  mkConfig "dev-access-secret-change-in-production"
           "dev-refresh-secret-change-in-production"
           false.

(** What the surroundings decide during one request: the clock, and
    whether a call into a library or into the database fails. *)
Record Env : Type := mkEnv {
  now : Z;                (* Date.now() *)
  signThrows : bool;      (* jwt.sign throws *)
  createRejects : bool;   (* User.create is rejected by the database *)
  saveRejects : bool      (* user.save() is rejected *)
}.

(** A request served at time [t] with nothing failing. *)
Definition calm (t : Z) : Env := mkEnv t false false false.

(** The values of the schema's [role] enum. *)
Module Role.

Inductive t : Type := user | admin | moderator.

Definition name (r : t) : string :=
  match r with
  | user => "user"
  | admin => "admin"
  | moderator => "moderator"
  end.

Definition eqb (a b : t) : bool :=
  match a, b with
  | user, user | admin, admin | moderator, moderator => true
  | _, _ => false
  end.

End Role.

(* ------------------------------------------------------------------ *)
(** ** src/utils/jwt.js                                                 *)
(* ------------------------------------------------------------------ *)

Module jsonwebtoken.

(** The claims of a token. *)
Record Payload : Type := mkPayload {
  userId : nat;
  role : option Role.t;
  type : string;
  iat : Z;
  exp : Z
}.

(** A token string: either something that does not parse as a JWT, or
    claims together with the secret that produced the signature. *)
Inductive Token : Type :=
| Malformed (s : string)
| Signed (p : Payload) (secret : string).

Definition Payload_eqb (p q : Payload) : bool :=
  Nat.eqb (userId p) (userId q)
  && match role p, role q with
     | None, None => true
     | Some a, Some b => Role.eqb a b
     | _, _ => false
     end
  && String.eqb (type p) (type q)
  && Z.eqb (iat p) (iat q)
  && Z.eqb (exp p) (exp q).

(** [===] on token strings. *)
Definition Token_eqb (a b : Token) : bool :=
  match a, b with
  | Malformed x, Malformed y => String.eqb x y
  | Signed p k, Signed q k' => Payload_eqb p q && String.eqb k k'
  | _, _ => false
  end.

(** [jwt.sign(payload, secret, { expiresIn })], [expiresIn] in seconds. *)
Definition sign (env : Env) (uid : nat) (r : option Role.t) (ty : string)
           (secret : string) (expiresIn : Z) : Result Token :=
  if signThrows env then Throw (Error "jwt.sign failed")
  else
    let issued := now env / 1000 in
    Ok (Signed (mkPayload uid r ty issued (issued + expiresIn)) secret).

(** [jwt.verify(token, secret)] *)
Definition verify (env : Env) (t : Token) (secret : string) : Result Payload :=
  match t with
  | Malformed _ => Throw (NamedError "JsonWebTokenError" "jwt malformed")
  | Signed p k =>
      if negb (String.eqb k secret)
      then Throw (NamedError "JsonWebTokenError" "invalid signature")
      else if exp p <=? now env / 1000
      then Throw (NamedError "TokenExpiredError" "jwt expired")
      else Ok p
  end.

End jsonwebtoken.

Module jwt.
Import jsonwebtoken.

Definition ACCESS_TOKEN_EXPIRY : Z := 15 * 60.            (* '15m' *)
Definition REFRESH_TOKEN_EXPIRY : Z := 7 * 24 * 60 * 60.  (* '7d' *)

Definition generateAccessToken (cfg : Config) (env : Env)
           (uid : nat) (r : Role.t) : Result Token :=
  sign env uid (Some r) "access" (ACCESS_TOKEN_SECRET cfg) ACCESS_TOKEN_EXPIRY.

Definition generateRefreshToken (cfg : Config) (env : Env)
           (uid : nat) : Result Token :=
  sign env uid None "refresh" (REFRESH_TOKEN_SECRET cfg) REFRESH_TOKEN_EXPIRY.

(** The [try] block rethrows everything, the library's errors and its
    own "Invalid token type", as one plain [Error]. *)
Definition verifyAccessToken (cfg : Config) (env : Env) (t : Token)
  : Result Payload :=
  match (try decoded <- verify env t (ACCESS_TOKEN_SECRET cfg) ;;
         if negb (String.eqb (type decoded) "access")
         then Throw (Error "Invalid token type")
         else Ok decoded)
  with
  | Ok decoded => Ok decoded
  | Throw _ => Throw (Error "Invalid or expired access token")
  end.

Definition verifyRefreshToken (cfg : Config) (env : Env) (t : Token)
  : Result Payload :=
  match (try decoded <- verify env t (REFRESH_TOKEN_SECRET cfg) ;;
         if negb (String.eqb (type decoded) "refresh")
         then Throw (Error "Invalid token type")
         else Ok decoded)
  with
  | Ok decoded => Ok decoded
  | Throw _ => Throw (Error "Invalid or expired refresh token")
  end.

End jwt.

(* ------------------------------------------------------------------ *)
(** ** Plain JavaScript objects                                         *)
(* ------------------------------------------------------------------ *)

(** The plain objects handed to [res.json]. *)
#[warnings="-register-all"] Inductive JSValue : Type :=
| JUndefined
| JNull
| JBool (b : bool)
| JNum (n : Z)
| JStr (s : string)
| JToken (t : jsonwebtoken.Token)          (* a string that is a JWT *)
| JArr (items : list JSValue)
| JObj (fields : list (string * JSValue)).

Module Obj.

(** [o[k]] *)
Fixpoint get (k : string) (fields : list (string * JSValue)) : option JSValue :=
  match fields with
  | [] => None
  | (k', v) :: rest => if String.eqb k' k then Some v else get k rest
  end.

(** [delete o[k]] *)
Definition delete (k : string) (fields : list (string * JSValue))
  : list (string * JSValue) :=
  filter (fun kv => negb (String.eqb (fst kv) k)) fields.

(** [o[k] = v] : an existing key keeps its place, a new one goes last. *)
Fixpoint set (k : string) (v : JSValue) (fields : list (string * JSValue))
  : list (string * JSValue) :=
  match fields with
  | [] => [(k, v)]
  | (k', v') :: rest =>
      if String.eqb k' k then (k', v) :: rest else (k', v') :: set k v rest
  end.

Definition keys (fields : list (string * JSValue)) : list string :=
  map fst fields.

End Obj.

(* ------------------------------------------------------------------ *)
(** ** src/models/User.js                                               *)
(* ------------------------------------------------------------------ *)

Module bcrypt.

(** The bytes of the password that reach the hash: the key schedule
    reads [n] bytes from the password followed by a NUL byte, starting
    over at its end. *)
Fixpoint keyStream (n : nat) (cur whole : string) : string :=
  match n with
  | O => EmptyString
  | S n' =>
      match cur with
      | String c rest => String c (keyStream n' rest whole)
      | EmptyString =>
          match whole with
          | String c rest => String c (keyStream n' rest whole)
          | EmptyString => EmptyString
          end
      end
  end.

(** bcrypt reads 72 bytes: a password is hashed and compared through
    these alone. *)
Definition key (password : string) : string :=
  let terminated := String.append password (String Ascii.zero EmptyString) in
  keyStream 72 terminated terminated.

Arguments key : simpl never.

(** A stored hash: the work factor and, symbolically, the 72 bytes that
    were hashed (the random salt is left out). *)
Inductive Hash : Type := Hashed (rounds : nat) (hashed : string).

Definition hash (rounds : nat) (plaintext : string) : Hash :=
  Hashed rounds (key plaintext).

Definition compare (candidate : string) (h : Hash) : bool :=
  match h with
  | Hashed _ hashed => String.eqb (key candidate) hashed
  end.

(** The stored string; only its being a string matters here. *)
Definition encoded (h : Hash) : string :=
  match h with
  | Hashed _ hashed => String.append "$2a$12$" hashed
  end.

End bcrypt.

Inductive Provider : Type := google | github | apple.

Definition Provider_eqb (a b : Provider) : bool :=
  match a, b with
  | google, google | github, github | apple, apple => true
  | _, _ => false
  end.

Definition Provider_name (p : Provider) : string :=
  match p with
  | google => "google"
  | github => "github"
  | apple => "apple"
  end.

(** JavaScript truthiness of an optional string. *)
Definition truthy (s : option string) : bool :=
  match s with
  | Some v => negb (String.eqb v "")
  | None => false
  end.

(** An element of [oauthProviders]. *)
Module OAuthEntry.
Record t : Type := mk {
  provider : Provider;
  providerId : string;
  email : option string;
  displayName : option string;
  avatar : option string;
  accessToken : option string;
  refreshToken : option string;
  connectedAt : Z
}.
End OAuthEntry.

(** An element of [refreshTokens]. *)
Module RefreshEntry.
Record t : Type := mk {
  token : jsonwebtoken.Token;
  createdAt : Z;
  expiresAt : Z;
  device : option string;
  ipAddress : option string
}.
End RefreshEntry.

(** The [profile] argument of [linkOAuthProvider]. *)
Module LinkProfile.
Record t : Type := mk {
  id : string;
  email : string;
  displayName : option string;
  avatar : option string;
  emailVerified : bool
}.
End LinkProfile.

Record User : Type := mkUser {
  _id : nat;
  email : string;
  name : string;
  avatar : option string;
  password : option bcrypt.Hash;
  googleId : option string;
  githubId : option string;
  appleId : option string;
  oauthProviders : list OAuthEntry.t;
  role : Role.t;
  isVerified : bool;
  isActive : bool;
  refreshTokens : list RefreshEntry.t;
  lastLogin : option Z;
  passwordChangedAt : option Z;
  __v : Z
}.

Definition set_avatar (v : option string) (u : User) : User :=
  mkUser (_id u) (email u) (name u) v (password u) (googleId u) (githubId u)
         (appleId u) (oauthProviders u) (role u) (isVerified u) (isActive u)
         (refreshTokens u) (lastLogin u) (passwordChangedAt u) (__v u).

Definition set_googleId (v : option string) (u : User) : User :=
  mkUser (_id u) (email u) (name u) (avatar u) (password u) v (githubId u)
         (appleId u) (oauthProviders u) (role u) (isVerified u) (isActive u)
         (refreshTokens u) (lastLogin u) (passwordChangedAt u) (__v u).

Definition set_githubId (v : option string) (u : User) : User :=
  mkUser (_id u) (email u) (name u) (avatar u) (password u) (googleId u) v
         (appleId u) (oauthProviders u) (role u) (isVerified u) (isActive u)
         (refreshTokens u) (lastLogin u) (passwordChangedAt u) (__v u).

Definition set_appleId (v : option string) (u : User) : User :=
  mkUser (_id u) (email u) (name u) (avatar u) (password u) (googleId u)
         (githubId u) v (oauthProviders u) (role u) (isVerified u) (isActive u)
         (refreshTokens u) (lastLogin u) (passwordChangedAt u) (__v u).

Definition set_oauthProviders (v : list OAuthEntry.t) (u : User) : User :=
  mkUser (_id u) (email u) (name u) (avatar u) (password u) (googleId u)
         (githubId u) (appleId u) v (role u) (isVerified u) (isActive u)
         (refreshTokens u) (lastLogin u) (passwordChangedAt u) (__v u).

Definition set_isVerified (v : bool) (u : User) : User :=
  mkUser (_id u) (email u) (name u) (avatar u) (password u) (googleId u)
         (githubId u) (appleId u) (oauthProviders u) (role u) v (isActive u)
         (refreshTokens u) (lastLogin u) (passwordChangedAt u) (__v u).

Definition set_refreshTokens (v : list RefreshEntry.t) (u : User) : User :=
  mkUser (_id u) (email u) (name u) (avatar u) (password u) (googleId u)
         (githubId u) (appleId u) (oauthProviders u) (role u) (isVerified u)
         (isActive u) v (lastLogin u) (passwordChangedAt u) (__v u).

Definition set_lastLogin (v : option Z) (u : User) : User :=
  mkUser (_id u) (email u) (name u) (avatar u) (password u) (googleId u)
         (githubId u) (appleId u) (oauthProviders u) (role u) (isVerified u)
         (isActive u) (refreshTokens u) v (passwordChangedAt u) (__v u).

(** The provider-specific id field of a user. *)
Definition providerIdField (p : Provider) (u : User) : option string :=
  match p with
  | google => googleId u
  | github => githubId u
  | apple => appleId u
  end.

Definition set_providerIdField (p : Provider) (v : option string) (u : User) : User :=
  match p with
  | google => set_googleId v u
  | github => set_githubId v u
  | apple => set_appleId v u
  end.

Module UserMethods.

(** [comparePassword] *)
Definition comparePassword (candidatePassword : string) (u : User) : bool :=
  match password u with
  | None => false
  | Some h => bcrypt.compare candidatePassword h
  end.

(** [changedPasswordAfter]: [parseInt(ms / 1000, 10)] cuts the
    fraction off, towards zero. *)
Definition changedPasswordAfter (JWTTimestamp : Z) (u : User) : bool :=
  match passwordChangedAt u with
  | Some changedAt =>
      let changedTimestamp := Z.quot changedAt 1000 in
      JWTTimestamp <? changedTimestamp
  | None => false
  end.

(** Assignment through the reference returned by [Array.prototype.find]:
    the first element satisfying [p] is rewritten in place. *)
Fixpoint updateFirst {A : Type} (p : A -> bool) (f : A -> A) (l : list A) : list A :=
  match l with
  | [] => []
  | x :: rest => if p x then f x :: rest else x :: updateFirst p f rest
  end.

(** [linkOAuthProvider]; [connectedAt] of a pushed entry takes the
    schema default [Date.now]. *)
Definition linkOAuthProvider (env : Env) (provider : Provider)
           (profile : LinkProfile.t) (u : User) : User :=
  let isProvider := fun e => Provider_eqb (OAuthEntry.provider e) provider in
  let u1 :=
    match find isProvider (oauthProviders u) with
    | Some _ =>
        set_oauthProviders
          (updateFirst isProvider
             (fun e => OAuthEntry.mk (OAuthEntry.provider e)
                         (LinkProfile.id profile)
                         (Some (LinkProfile.email profile))
                         (LinkProfile.displayName profile)
                         (LinkProfile.avatar profile)
                         (OAuthEntry.accessToken e)
                         (OAuthEntry.refreshToken e)
                         (OAuthEntry.connectedAt e))
             (oauthProviders u)) u
    | None =>
        let pushed :=
          set_oauthProviders
            (oauthProviders u ++
               [OAuthEntry.mk provider
                  (LinkProfile.id profile)
                  (Some (LinkProfile.email profile))
                  (LinkProfile.displayName profile)
                  (LinkProfile.avatar profile)
                  None None (now env)]) u in
        set_providerIdField provider (Some (LinkProfile.id profile)) pushed
    end in
  let u2 :=
    if negb (truthy (avatar u1)) && truthy (LinkProfile.avatar profile)
    then set_avatar (LinkProfile.avatar profile) u1
    else u1 in
  if LinkProfile.emailVerified profile then set_isVerified true u2 else u2.

(** [unlinkOAuthProvider] *)
Definition unlinkOAuthProvider (provider : Provider) (u : User) : User :=
  let u1 :=
    set_oauthProviders
      (filter (fun e => negb (Provider_eqb (OAuthEntry.provider e) provider))
              (oauthProviders u)) u in
  set_providerIdField provider None u1.

(** [arr.slice(-n)]: the last [n] elements. *)
Definition sliceLast {A : Type} (n : nat) (l : list A) : list A :=
  skipn (List.length l - n)%nat l.

(** [addRefreshToken]; [createdAt] takes the schema default [Date.now]. *)
Definition addRefreshToken (env : Env) (token : jsonwebtoken.Token)
           (expiresIn : Z) (device ipAddress : option string) (u : User) : User :=
  let expiresAt := now env + expiresIn * 1000 in
  let pushed :=
    refreshTokens u ++ [RefreshEntry.mk token (now env) expiresAt device ipAddress] in
  if (5 <? List.length pushed)%nat
  then set_refreshTokens (sliceLast 5 pushed) u
  else set_refreshTokens pushed u.

(** [removeRefreshToken] *)
Definition removeRefreshToken (token : jsonwebtoken.Token) (u : User) : User :=
  set_refreshTokens
    (filter (fun rt => negb (jsonwebtoken.Token_eqb (RefreshEntry.token rt) token))
            (refreshTokens u)) u.

(** [cleanupExpiredTokens] *)
Definition cleanupExpiredTokens (env : Env) (u : User) : User :=
  set_refreshTokens
    (filter (fun rt => now env <? RefreshEntry.expiresAt rt) (refreshTokens u)) u.

End UserMethods.

(** The schema's rule for the [password] path (the [required] function
    and what it asks of a document), and the values its [lowercase] and
    [trim] setters leave as they are. *)
Module UserSchema.

Definition passwordRequired (u : User) : bool :=
  negb (truthy (googleId u)) && negb (truthy (githubId u))
  && negb (truthy (appleId u)).

(** A document meets the rule when it has a password or the rule does
    not ask for one. *)
Definition meetsPasswordRule (u : User) : bool :=
  match password u with
  | Some _ => true
  | None => negb (passwordRequired u)
  end.

(** White space that [trim] strips, among the ASCII bytes. *)
Definition isSpace (c : Ascii.ascii) : bool :=
  let n := Ascii.nat_of_ascii c in
  ((9 <=? n)%nat && (n <=? 13)%nat) || (n =? 32)%nat.

(** An ASCII byte that is neither white space nor a capital letter. *)
Definition settledByte (c : Ascii.ascii) : bool :=
  let n := Ascii.nat_of_ascii c in
  (n <? 128)%nat && negb (isSpace c) && negb ((65 <=? n)%nat && (n <=? 90)%nat).

(** An email that [lowercase: true, trim: true] stores and queries as it
    is given: ASCII only, no capital letter, no white space. *)
Fixpoint settledEmail (s : string) : bool :=
  match s with
  | EmptyString => true
  | String c rest => settledByte c && settledEmail rest
  end.

Fixpoint lastByte (c : Ascii.ascii) (s : string) : Ascii.ascii :=
  match s with
  | EmptyString => c
  | String d rest => lastByte d rest
  end.

Definition plainEnd (c : Ascii.ascii) : bool :=
  (Ascii.nat_of_ascii c <? 128)%nat && negb (isSpace c).

(** A name that [trim: true] stores as it is given: it starts and ends
    with an ASCII byte that is not white space (or is empty or absent). *)
Definition trimmedName (name : option string) : bool :=
  match name with
  | Some (String c rest) => plainEnd c && plainEnd (lastByte c rest)
  | _ => true
  end.

End UserSchema.

(** *** Serialisation: [toObject] and [toJSON] *)

Module Serialise.

(** A path that is [undefined] on the document is left out. *)
Definition optional {A : Type} (k : string) (f : A -> JSValue) (v : option A)
  : list (string * JSValue) :=
  match v with
  | Some x => [(k, f x)]
  | None => []
  end.

Definition nullable (v : option string) : JSValue :=
  match v with
  | Some x => JStr x
  | None => JNull
  end.

Definition entryToObject (e : OAuthEntry.t) : JSValue :=
  JObj ([("provider", JStr (Provider_name (OAuthEntry.provider e)));
         ("providerId", JStr (OAuthEntry.providerId e))]
        ++ optional "email" JStr (OAuthEntry.email e)
        ++ optional "displayName" JStr (OAuthEntry.displayName e)
        ++ optional "avatar" JStr (OAuthEntry.avatar e)
        ++ optional "accessToken" JStr (OAuthEntry.accessToken e)
        ++ optional "refreshToken" JStr (OAuthEntry.refreshToken e)
        ++ [("connectedAt", JNum (OAuthEntry.connectedAt e))]).

Definition refreshToObject (rt : RefreshEntry.t) : JSValue :=
  JObj ([("token", JToken (RefreshEntry.token rt));
         ("createdAt", JNum (RefreshEntry.createdAt rt));
         ("expiresAt", JNum (RefreshEntry.expiresAt rt))]
        ++ optional "device" JStr (RefreshEntry.device rt)
        ++ optional "ipAddress" JStr (RefreshEntry.ipAddress rt)).

(** [this.toObject()] *)
Definition toObject (u : User) : list (string * JSValue) :=
  [("_id", JNum (Z.of_nat (_id u)));
   ("email", JStr (email u));
   ("name", JStr (name u));
   ("avatar", nullable (avatar u))]
  ++ optional "password" (fun h => JStr (bcrypt.encoded h)) (password u)
  ++ optional "googleId" JStr (googleId u)
  ++ optional "githubId" JStr (githubId u)
  ++ optional "appleId" JStr (appleId u)
  ++ [("oauthProviders", JArr (map entryToObject (oauthProviders u)));
      ("role", JStr (Role.name (role u)));
      ("isVerified", JBool (isVerified u));
      ("isActive", JBool (isActive u));
      ("refreshTokens", JArr (map refreshToObject (refreshTokens u)))]
  ++ optional "lastLogin" JNum (lastLogin u)
  ++ optional "passwordChangedAt" JNum (passwordChangedAt u)
  ++ [("__v", JNum (__v u))].

(** [v.k] *)
Definition prop (k : string) (v : JSValue) : JSValue :=
  match v with
  | JObj fields =>
      match Obj.get k fields with
      | Some x => x
      | None => JUndefined
      end
  | _ => JUndefined
  end.

(** The arrow function mapped over [oauthProviders] in [toJSON]. *)
Definition cleanProvider (provider : JSValue) : JSValue :=
  JObj [("provider", prop "provider" provider);
        ("connectedAt", prop "connectedAt" provider)].

(** [toJSON] *)
Definition toJSON (u : User) : list (string * JSValue) :=
  let o := toObject u in
  let o := Obj.delete "password" o in
  let o := Obj.delete "refreshTokens" o in
  let o := Obj.delete "__v" o in
  match Obj.get "oauthProviders" o with
  | Some (JArr items) => Obj.set "oauthProviders" (JArr (map cleanProvider items)) o
  | _ => o
  end.

End Serialise.

(* ------------------------------------------------------------------ *)
(** ** The users collection                                             *)
(* ------------------------------------------------------------------ *)

Module Mongo.

Definition Collection : Type := list User.

(** A computation that reads and writes the collection and may throw;
    what was written before a throw stays written. *)
Definition DB (A : Type) : Type := Collection -> Result A * Collection.

Definition ret {A : Type} (a : A) : DB A := fun db => (Ok a, db).

Definition throw {A : Type} (e : JsError) : DB A := fun db => (Throw e, db).

Definition lift {A : Type} (r : Result A) : DB A := fun db => (r, db).

Definition bindDB {A B : Type} (c : DB A) (k : A -> DB B) : DB B :=
  fun db =>
    match c db with
    | (Ok a, db') => k a db'
    | (Throw e, db') => (Throw e, db')
    end.

(** [try { c } catch (error) { h error }] *)
Definition catch {A : Type} (c : DB A) (h : JsError -> DB A) : DB A :=
  fun db =>
    match c db with
    | (Ok a, db') => (Ok a, db')
    | (Throw e, db') => h e db'
    end.

Definition findOne (p : User -> bool) : DB (option User) :=
  fun db => (Ok (find p db), db).

Definition findById (id : nat) : DB (option User) :=
  findOne (fun u => Nat.eqb (_id u) id).

Definition databaseError : JsError :=
  NamedError "MongoNetworkError" "connection closed".

(** [user.save()] on a loaded document. *)
Definition save (env : Env) (u : User) : DB unit :=
  fun db =>
    if saveRejects env then (Throw databaseError, db)
    else (Ok tt, map (fun d => if Nat.eqb (_id d) (_id u) then u else d) db).

(** The object handed to [User.create]. *)
Record NewUser : Type := mkNewUser {
  new_email : string;
  new_name : option string;
  new_password : option string;
  new_googleId : option string;
  new_githubId : option string;
  new_appleId : option string;
  new_avatar : option string;
  new_isVerified : bool;
  new_oauthProviders : list OAuthEntry.t
}.

Definition validationError (path msg : string) : JsError :=
  mkJsError "ValidationError"
            (String.append "User validation failed: "
               (String.append path (String.append ": " msg)))
            None None [mkFieldError path msg] [] "" "".

Definition duplicateKeyError (path value : string) : JsError :=
  mkJsError "MongoServerError" "E11000 duplicate key error" None
            (Some (CodeNum 11000)) [] [(path, value)] "" "".

(** The schema's validators: required [email] and [name], [password]
    required unless a provider id is set, and at least 8 characters. *)
Definition validate (n : NewUser) : option JsError :=
  if String.eqb (new_email n) "" then Some (validationError "email" "Path `email` is required.")
  else if negb (truthy (new_name n)) then Some (validationError "name" "Path `name` is required.")
  else
    match new_password n with
    | None =>
        match new_googleId n, new_githubId n, new_appleId n with
        | None, None, None => Some (validationError "password" "Path `password` is required.")
        | _, _, _ => None
        end
    | Some pw =>
        if (String.length pw <? 8)%nat
        then Some (validationError "password" "Path `password` is shorter than the minimum allowed length (8).")
        else None
    end.

Definition sameId (a b : option string) : bool :=
  match a, b with
  | Some x, Some y => String.eqb x y
  | _, _ => false
  end.

(** The unique indexes: [email], and the sparse ones on the provider ids. *)
Definition duplicate (n : NewUser) (db : Collection) : option JsError :=
  if existsb (fun d => String.eqb (email d) (new_email n)) db
  then Some (duplicateKeyError "email" (new_email n))
  else if existsb (fun d => sameId (googleId d) (new_googleId n)) db
  then Some (duplicateKeyError "googleId" "")
  else if existsb (fun d => sameId (githubId d) (new_githubId n)) db
  then Some (duplicateKeyError "githubId" "")
  else if existsb (fun d => sameId (appleId d) (new_appleId n)) db
  then Some (duplicateKeyError "appleId" "")
  else None.

Definition freshId (db : Collection) : nat :=
  S (fold_right Nat.max 0%nat (map _id db)).

Definition unwrap (s : option string) : string :=
  match s with
  | Some v => v
  | None => ""
  end.

(** The document [User.create] builds: schema defaults, and the
    pre-save hook hashing the password with 12 salt rounds.  The email
    and the name are stored as given: the schema's [lowercase] and
    [trim] setters are the identity on [UserSchema.settledEmail] and
    [UserSchema.trimmedName] values, and the validation chain of
    [POST /register] has normalised the email and trimmed the name
    before the handler reads them. *)
Definition newDocument (id : nat) (n : NewUser) : User :=
  mkUser id (new_email n) (unwrap (new_name n)) (new_avatar n)
         (option_map (bcrypt.hash 12) (new_password n))
         (new_googleId n) (new_githubId n) (new_appleId n)
         (new_oauthProviders n) Role.user (new_isVerified n) true [] None None 0.

(** [User.create(n)] *)
Definition create (env : Env) (n : NewUser) : DB User :=
  fun db =>
    match validate n with
    | Some e => (Throw e, db)
    | None =>
        if createRejects env then (Throw databaseError, db)
        else
          match duplicate n db with
          | Some e => (Throw e, db)
          | None =>
              let doc := newDocument (freshId db) n in
              (Ok doc, db ++ [doc])
          end
    end.

End Mongo.

Notation "'await' x '<-' c ';;' k" := (Mongo.bindDB c (fun x => k))
  (at level 61, x name, c at next level, right associativity).
Notation "c ';;;' k" := (Mongo.bindDB c (fun _ => k))
  (at level 61, right associativity).

(* ------------------------------------------------------------------ *)
(** ** src/middleware/errorHandler.js                                   *)
(* ------------------------------------------------------------------ *)

(** The JSON bodies the routes and the error handler send. *)
Inductive Body : Type :=
| ErrorBody (error : string) (code : ErrCode) (errors : list FieldError)
    (* { success: false, error, code, errors } *)
| Failure (message : string)
    (* { success: false, message } *)
| ValidationFailure (errors : list string)
    (* { success: false, errors } *)
| Session (user : list (string * JSValue))
          (accessToken refreshToken : jsonwebtoken.Token) (expiresIn : Z)
    (* { success: true, user, accessToken, refreshToken, expiresIn } *)
| Access (accessToken : jsonwebtoken.Token) (expiresIn : Z)
    (* { success: true, accessToken, expiresIn } *)
| Profile (user : list (string * JSValue))
    (* { success: true, user } *)
| Success (message : string).
    (* { success: true, message } *)

Record Response : Type := mkResponse {
  status : Z;
  body : Body
}.

Module errorHandler.

Definition AppError (message : string) (statusCode : Z) (code : string) : JsError :=
  mkJsError "Error" message (Some statusCode) (Some (CodeStr code)) [] [] "" "".

Definition ValidationError (message : string) (errors : list FieldError) : JsError :=
  mkJsError "Error" message (Some 400) (Some (CodeStr "VALIDATION_ERROR"))
            errors [] "" "".

Definition AuthenticationError (message : string) : JsError :=
  AppError message 401 "AUTHENTICATION_ERROR".

Definition AuthorizationError (message : string) : JsError :=
  AppError message 403 "AUTHORIZATION_ERROR".

Definition NotFoundError (message : string) : JsError :=
  AppError message 404 "NOT_FOUND".

Definition ConflictError (message : string) : JsError :=
  AppError message 409 "CONFLICT_ERROR".

(** [err_errors] and [err_keyValue] are the entries of [err.errors] and
    [err.keyValue] in the order of [Object.values] and [Object.keys];
    the empty list is the empty object.  An error named ValidationError
    without [errors], or with code 11000 without [keyValue], makes the
    two handlers below throw a TypeError: such errors are outside this
    record. *)
Definition handleMongooseValidationError (err : JsError) : JsError :=
  ValidationError "Validation failed" (err_errors err).

Definition handleDuplicateKeyError (err : JsError) : JsError :=
  let field := hd "undefined" (map fst (err_keyValue err)) in
  ConflictError (String.append field " already exists").

Definition handleCastError (err : JsError) : JsError :=
  ValidationError
    (String.append "Invalid "
       (String.append (err_path err) (String.append ": " (err_value err)))) [].

Definition handleJWTError : JsError := AuthenticationError "Invalid token".
Definition handleJWTExpiredError : JsError := AuthenticationError "Token expired".

Definition codeIs11000 (c : option ErrCode) : bool :=
  match c with
  | Some (CodeNum n) => n =? 11000
  | _ => false
  end.

(** [x || fallback] for the three response fields. *)
Definition statusOr (s : option Z) (fallback : Z) : Z :=
  match s with
  | Some n => if n =? 0 then fallback else n
  | None => fallback
  end.

Definition messageOr (m fallback : string) : string :=
  if String.eqb m "" then fallback else m.

Definition codeOr (c : option ErrCode) (fallback : ErrCode) : ErrCode :=
  match c with
  | Some (CodeStr s) => if String.eqb s "" then fallback else CodeStr s
  | Some (CodeNum n) => if n =? 0 then fallback else CodeNum n
  | None => fallback
  end.

(** The global error-handling middleware (the development-only stack
    trace is left out of the body). *)
Definition errorHandler (err : JsError) : Response :=
  let error := err in
  let error := if String.eqb (err_name err) "ValidationError"
               then handleMongooseValidationError err else error in
  let error := if codeIs11000 (err_code err)
               then handleDuplicateKeyError err else error in
  let error := if String.eqb (err_name err) "CastError"
               then handleCastError err else error in
  let error := if String.eqb (err_name err) "JsonWebTokenError"
               then handleJWTError else error in
  let error := if String.eqb (err_name err) "TokenExpiredError"
               then handleJWTExpiredError else error in
  let statusCode := statusOr (err_statusCode error) 500 in
  let message := messageOr (err_message error) "Internal Server Error" in
  let code := codeOr (err_code error) (CodeStr "INTERNAL_ERROR") in
  mkResponse statusCode (ErrorBody message code (err_errors error)).

End errorHandler.

(* ------------------------------------------------------------------ *)
(** ** src/middleware/auth.js                                           *)
(* ------------------------------------------------------------------ *)

(** The [Authorization] header: [Bearer t] stands for a header that
    starts with 'Bearer ' and whose second space-separated part is [t]. *)
Inductive AuthHeader : Type :=
| Bearer (token : jsonwebtoken.Token)
| NotBearer (raw : string).

Module middleware.
Import Mongo errorHandler.

(** [authenticate]: [Ok user] is [req.user = user; next()], and
    [Throw e] is [next(e)]. *)
Definition authenticate (cfg : Config) (env : Env)
           (authHeader : option AuthHeader) : DB User :=
  match authHeader with
  | Some (Bearer token) =>
      await decoded <- lift (jwt.verifyAccessToken cfg env token) ;;
      await found <- findById (jsonwebtoken.userId decoded) ;;
      match found with
      | None => throw (AuthenticationError "User not found or inactive")
      | Some u =>
          if negb (isActive u)
          then throw (AuthenticationError "User not found or inactive")
          else if UserMethods.changedPasswordAfter (jsonwebtoken.iat decoded) u
          then throw (AuthenticationError "Password recently changed. Please login again.")
          else ret u
      end
  | _ => throw (AuthenticationError "No token provided")
  end.

(** A route behind [authenticate]: an error passed to [next] is
    answered by the error handler, otherwise the route runs. *)
Definition guarded (cfg : Config) (env : Env) (authHeader : option AuthHeader)
           (route : User -> DB Response) : DB Response :=
  fun db =>
    match authenticate cfg env authHeader db with
    | (Ok u, db') => route u db'
    | (Throw e, db') => (Ok (errorHandler e), db')
    end.

End middleware.

(* ------------------------------------------------------------------ *)
(** ** src/routes/auth.js                                               *)
(* ------------------------------------------------------------------ *)

(** What the handlers read from a request.  [validationErrors] is what
    [validationResult(req)] holds after the route's validation chain
    ran; the body fields are read only when it is empty. *)
Record Request : Type := mkRequest {
  authorization : option AuthHeader;       (* req.headers.authorization *)
  userAgent : option string;               (* req.headers['user-agent'] *)
  ip : option string;                      (* req.ip *)
  validationErrors : list string;
  body_email : string;
  body_password : string;
  body_name : string;
  body_refreshToken : option jsonwebtoken.Token
}.

Module routes.
Import Mongo.

Definition isEmpty {A : Type} (l : list A) : bool :=
  match l with
  | [] => true
  | _ => false
  end.

(** Truthiness of [req.body.refreshToken]: absent or the empty string
    is falsy. *)
Definition given (t : option jsonwebtoken.Token) : option jsonwebtoken.Token :=
  match t with
  | Some (jsonwebtoken.Malformed s) =>
      if String.eqb s "" then None else t
  | _ => t
  end.

Definition set_password (v : option bcrypt.Hash) (u : User) : User :=
  mkUser (_id u) (email u) (name u) (avatar u) v (googleId u) (githubId u)
         (appleId u) (oauthProviders u) (role u) (isVerified u) (isActive u)
         (refreshTokens u) (lastLogin u) (passwordChangedAt u) (__v u).

(** The message of the 500 answers: the error's own text in
    development only. *)
Definition failed (cfg : Config) (error : JsError) (generic : string) : Response :=
  mkResponse 500
    (Failure (if development cfg then err_message error else generic)).

(** POST /register *)
Definition register (cfg : Config) (env : Env) (req : Request) : DB Response :=
  catch
    (if negb (isEmpty (validationErrors req))
     then ret (mkResponse 400 (ValidationFailure (validationErrors req)))
     else
       await existingUser <-
         findOne (fun d => String.eqb (email d) (body_email req)) ;;
       match existingUser with
       | Some _ =>
           ret (mkResponse 400 (Failure "User already exists with this email"))
       | None =>
           await created <-
             create env (mkNewUser (body_email req) (Some (body_name req))
                                   (Some (body_password req))
                                   None None None None false []) ;;
           await accessToken <-
             lift (jwt.generateAccessToken cfg env (_id created) (role created)) ;;
           await refreshToken <-
             lift (jwt.generateRefreshToken cfg env (_id created)) ;;
           let saved :=
             UserMethods.addRefreshToken env refreshToken (7 * 24 * 60 * 60)
               (userAgent req) (ip req) created in
           save env saved ;;;
           ret (mkResponse 201
                  (Session (Serialise.toJSON saved) accessToken refreshToken 900))
       end)
    (fun error => ret (failed cfg error "Registration failed")).

(** POST /login *)
Definition login (cfg : Config) (env : Env) (req : Request) : DB Response :=
  catch
    (if negb (isEmpty (validationErrors req))
     then ret (mkResponse 400 (ValidationFailure (validationErrors req)))
     else
       await found <-
         findOne (fun d => String.eqb (email d) (body_email req)) ;;
       match found with
       | None => ret (mkResponse 401 (Failure "Invalid email or password"))
       | Some u =>
           if negb (UserMethods.comparePassword (body_password req) u)
           then ret (mkResponse 401 (Failure "Invalid email or password"))
           else if negb (isActive u)
           then ret (mkResponse 401
                       (Failure "Account is inactive. Please contact support."))
           else
             await accessToken <-
               lift (jwt.generateAccessToken cfg env (_id u) (role u)) ;;
             await refreshToken <-
               lift (jwt.generateRefreshToken cfg env (_id u)) ;;
             let u1 :=
               UserMethods.addRefreshToken env refreshToken (7 * 24 * 60 * 60)
                 (userAgent req) (ip req) u in
             let u2 := set_lastLogin (Some (now env)) u1 in
             let u3 := UserMethods.cleanupExpiredTokens env u2 in
             save env u3 ;;;
             let u4 := set_password None u3 in
             ret (mkResponse 200
                    (Session (Serialise.toJSON u4) accessToken refreshToken 900))
       end)
    (fun error => ret (failed cfg error "Login failed")).

(** POST /refresh *)
Definition refresh (cfg : Config) (env : Env) (req : Request) : DB Response :=
  catch
    (match given (body_refreshToken req) with
     | None => ret (mkResponse 400 (Failure "Refresh token required"))
     | Some refreshToken =>
         await decoded <- lift (jwt.verifyRefreshToken cfg env refreshToken) ;;
         await found <- findById (jsonwebtoken.userId decoded) ;;
         match found with
         | None => ret (mkResponse 401 (Failure "User not found or inactive"))
         | Some u =>
             if negb (isActive u)
             then ret (mkResponse 401 (Failure "User not found or inactive"))
             else
               let tokenExists :=
                 existsb (fun rt => jsonwebtoken.Token_eqb
                                      (RefreshEntry.token rt) refreshToken)
                         (refreshTokens u) in
               if negb tokenExists
               then ret (mkResponse 401 (Failure "Invalid refresh token"))
               else
                 let u1 := UserMethods.cleanupExpiredTokens env u in
                 save env u1 ;;;
                 await accessToken <-
                   lift (jwt.generateAccessToken cfg env (_id u1) (role u1)) ;;
                 ret (mkResponse 200 (Access accessToken 900))
         end
     end)
    (fun _ => ret (mkResponse 401 (Failure "Invalid or expired refresh token"))).

(** POST /logout, behind [authenticate] *)
Definition logout (cfg : Config) (env : Env) (req : Request) : DB Response :=
  middleware.guarded cfg env (authorization req) (fun reqUser =>
    catch
      (match given (body_refreshToken req) with
       | Some refreshToken =>
           catch
             (save env (UserMethods.removeRefreshToken refreshToken reqUser))
             (fun _removeError => ret tt)
       | None => ret tt
       end ;;;
       ret (mkResponse 200 (Success "Logged out successfully")))
      (fun _ => ret (mkResponse 200 (Success "Logged out successfully")))).

(** GET /me, behind [authenticate] *)
Definition me (cfg : Config) (env : Env) (req : Request) : DB Response :=
  middleware.guarded cfg env (authorization req) (fun reqUser =>
    ret (mkResponse 200 (Profile (Serialise.toJSON reqUser)))).

End routes.

(* ------------------------------------------------------------------ *)
(** ** src/config/passport.js                                           *)
(* ------------------------------------------------------------------ *)

Module passport.
Import Mongo.

Record EmailEntry : Type := mkEmailEntry {
  value : string;
  verified : bool
}.

(** The profile an OAuth strategy hands to its verify callback. *)
Record OAuthProfile : Type := mkOAuthProfile {
  id : string;
  displayName : option string;
  username : option string;
  emails : option (list EmailEntry);
  photos : option (list string)
}.

(** [profile.photos[0]?.value]: a [TypeError] when [photos] is missing. *)
Definition firstPhoto (profile : OAuthProfile) : Result (option string) :=
  match photos profile with
  | None => Throw (NamedError "TypeError" "Cannot read properties of undefined (reading '0')")
  | Some l => Ok (hd_error l)
  end.

(** [a || b] on optional strings. *)
Definition orElse (a b : option string) : option string :=
  if truthy a then a else b.

(** The verify callback of the GitHub strategy: [Ok user] is
    [done(null, user)] and [Throw e] is [done(e, null)].  The email
    goes into the query and into [User.create] as the provider gave it,
    which is how mongoose uses a [UserSchema.settledEmail] one. *)
Definition githubVerify (env : Env) (profile : OAuthProfile) : DB User :=
  let first :=
    match emails profile with
    | Some (e :: _) => Some (value e)
    | _ => None
    end in
  match (if truthy first then first else None) with
  | None => throw (Error "Email not provided by GitHub")
  | Some mail =>
      await byId <- findOne (fun d => sameId (githubId d) (Some (id profile))) ;;
      await resolved <-
        match byId with
        | Some u => ret u
        | None =>
            await byEmail <- findOne (fun d => String.eqb (email d) mail) ;;
            match byEmail with
            | Some u =>
                await photo <- lift (firstPhoto profile) ;;
                let linked :=
                  UserMethods.linkOAuthProvider env github
                    (LinkProfile.mk (id profile) mail (displayName profile)
                                    photo true) u in
                save env linked ;;;
                ret linked
            | None =>
                await photo <- lift (firstPhoto profile) ;;
                let shown := orElse (displayName profile) (username profile) in
                create env
                  (mkNewUser mail shown None None (Some (id profile)) None
                     photo true
                     [OAuthEntry.mk github (id profile) (Some mail) shown
                                    photo None None (now env)])
            end
        end ;;
      let logged := set_lastLogin (Some (now env)) resolved in
      save env logged ;;;
      ret logged
  end.

End passport.

(* ------------------------------------------------------------------ *)
(** ** src/middleware/auth.js: optional authentication and roles        *)
(* ------------------------------------------------------------------ *)

Module authorization.
Import Mongo errorHandler.

(** [authenticateOptional]: the value is what ends up in [req.user];
    every path, the [catch] included, goes on with [next()]. *)
Definition authenticateOptional (cfg : Config) (env : Env)
           (authHeader : option AuthHeader) : DB (option User) :=
  catch
    (match authHeader with
     | Some (Bearer token) =>
         await decoded <- lift (jwt.verifyAccessToken cfg env token) ;;
         await found <- findById (jsonwebtoken.userId decoded) ;;
         match found with
         | Some u =>
             if isActive u
                && negb (UserMethods.changedPasswordAfter (jsonwebtoken.iat decoded) u)
             then ret (Some u)
             else ret None
         | None => ret None
         end
     | _ => ret None
     end)
    (fun _ => ret None).

(** [authorize(...roles)] applied to [req.user]: [Ok tt] is [next()],
    [Throw e] is [next(e)]. *)
Definition authorize (roles : list string) (reqUser : option User) : Result unit :=
  match reqUser with
  | None => Throw (AuthenticationError "Not authenticated")
  | Some u =>
      if negb (existsb (fun r => String.eqb r (Role.name (role u))) roles)
      then Throw (AuthorizationError "Insufficient permissions")
      else Ok tt
  end.

(** A route behind [authenticate] and then [authorize(...roles)]. *)
Definition restricted (cfg : Config) (env : Env) (authHeader : option AuthHeader)
           (roles : list string) (route : User -> DB Response) : DB Response :=
  middleware.guarded cfg env authHeader (fun reqUser =>
    match authorize roles (Some reqUser) with
    | Ok _ => route reqUser
    | Throw e => ret (errorHandler e)
    end).

(** [notFound], answered by the error handler. *)
Definition notFound (originalUrl : string) : Response :=
  errorHandler
    (NotFoundError (String.append "Route " (String.append originalUrl " not found"))).

End authorization.

(* ------------------------------------------------------------------ *)
(** ** src/routes/auth.js: profile and OAuth callbacks                  *)
(* ------------------------------------------------------------------ *)

Definition set_name (v : string) (u : User) : User :=
  mkUser (_id u) (email u) v (avatar u) (password u) (googleId u) (githubId u)
         (appleId u) (oauthProviders u) (role u) (isVerified u) (isActive u)
         (refreshTokens u) (lastLogin u) (passwordChangedAt u) (__v u).

Module profileRoute.
Import Mongo.

(** PATCH /profile, behind [authenticate]; an absent [name] is the
    empty [body_name]. *)
Definition updateProfile (cfg : Config) (env : Env) (req : Request) : DB Response :=
  middleware.guarded cfg env (authorization req) (fun reqUser =>
    catch
      (if negb (routes.isEmpty (validationErrors req))
       then ret (mkResponse 400 (ValidationFailure (validationErrors req)))
       else
         let updated :=
           if negb (String.eqb (body_name req) "")
           then set_name (body_name req) reqUser
           else reqUser in
         save env updated ;;;
         ret (mkResponse 200 (Profile (Serialise.toJSON updated))))
      (fun _ => ret (mkResponse 500 (Failure "Profile update failed")))).

End profileRoute.

(** src/config/features.js *)
Module features.

(** The [features] object. *)
Definition features : list (string * bool) :=
  [("enableGoogleSSO", false);
   ("enableGitHubSSO", false);
   ("enableAppleSSO", false);
   ("enableEmailAuth", true);
   ("enableBlogTracking", true);
   ("enableProfileEditing", true)].

Fixpoint flag (fs : list (string * bool)) (feature : string) : option bool :=
  match fs with
  | [] => None
  | (k, v) :: rest => if String.eqb k feature then Some v else flag rest feature
  end.

(** [features[feature] === true], for a given state of the object. *)
Definition isEnabledIn (fs : list (string * bool)) (feature : string) : bool :=
  match flag fs feature with
  | Some true => true
  | _ => false
  end.

Definition isFeatureEnabled (feature : string) : bool :=
  isEnabledIn features feature.

Definition isAnySSOEnabledIn (fs : list (string * bool)) : bool :=
  isEnabledIn fs "enableGoogleSSO" || isEnabledIn fs "enableGitHubSSO"
  || isEnabledIn fs "enableAppleSSO".

Definition isAnySSOEnabled : bool := isAnySSOEnabledIn features.

End features.

Module passportGoogle.
Import Mongo passport.

(** The verify callback of the Google strategy.  [profile.emails[0].value]
    is a [TypeError] when [emails] is missing or empty.  As in the
    GitHub strategy the email is used as the provider gave it. *)
Definition googleVerify (env : Env) (profile : OAuthProfile) : DB User :=
  match emails profile with
  | Some (first :: _) =>
      let mail := value first in
      await byId <- findOne (fun d => sameId (googleId d) (Some (id profile))) ;;
      await resolved <-
        match byId with
        | Some u => ret u
        | None =>
            await byEmail <- findOne (fun d => String.eqb (email d) mail) ;;
            match byEmail with
            | Some u =>
                await photo <- lift (firstPhoto profile) ;;
                let linked :=
                  UserMethods.linkOAuthProvider env google
                    (LinkProfile.mk (id profile) mail (displayName profile)
                                    photo (verified first)) u in
                save env linked ;;;
                ret linked
            | None =>
                await photo <- lift (firstPhoto profile) ;;
                create env
                  (mkNewUser mail (displayName profile) None (Some (id profile))
                     None None photo (verified first)
                     [OAuthEntry.mk google (id profile) (Some mail)
                                    (displayName profile) photo None None (now env)])
            end
        end ;;
      let logged := set_lastLogin (Some (now env)) resolved in
      save env logged ;;;
      ret logged
  | _ => throw (NamedError "TypeError" "Cannot read properties of undefined")
  end.

End passportGoogle.

(** What an OAuth callback route sends: a JSON answer, or a redirect to
    the frontend carrying the tokens or an error message. *)
Inductive Reply : Type :=
| Json (response : Response)
| RedirectWithTokens (frontendURL : string)
                     (accessToken refreshToken : jsonwebtoken.Token)
| RedirectWithError (frontendURL : string) (message : string).

Module oauthRoutes.
Import Mongo.

(** The handler after [passport.authenticate]: [req.user] is the user
    the verify callback gave. *)
Definition issueAndRedirect (cfg : Config) (env : Env) (frontendURL : string)
           (req : Request) (reqUser : User) : DB Reply :=
  catch
    (await accessToken <-
       lift (jwt.generateAccessToken cfg env (_id reqUser) (role reqUser)) ;;
     await refreshToken <-
       lift (jwt.generateRefreshToken cfg env (_id reqUser)) ;;
     save env (UserMethods.addRefreshToken env refreshToken (7 * 24 * 60 * 60)
                 (userAgent req) (ip req) reqUser) ;;;
     ret (RedirectWithTokens frontendURL accessToken refreshToken))
    (fun error => ret (RedirectWithError frontendURL (err_message error))).

(** An OAuth callback route: the feature gate, the strategy's verify
    callback on the profile obtained from the provider (an error it
    reports goes to the error handler), then the handler. *)
Definition callback (fs : list (string * bool)) (feature disabled : string)
           (verify : Env -> passport.OAuthProfile -> DB User)
           (cfg : Config) (env : Env) (frontendURL : string)
           (req : Request) (profile : passport.OAuthProfile) : DB Reply :=
  if negb (features.isEnabledIn fs feature)
  then ret (Json (mkResponse 403 (Failure disabled)))
  else
    fun db =>
      match verify env profile db with
      | (Ok reqUser, db') => issueAndRedirect cfg env frontendURL req reqUser db'
      | (Throw e, db') => (Ok (Json (errorHandler.errorHandler e)), db')
      end.

(** GET /github/callback *)
Definition githubCallback (fs : list (string * bool)) :=
  callback fs "enableGitHubSSO" "GitHub SSO is currently disabled"
           passport.githubVerify.

(** GET /google/callback *)
Definition googleCallback (fs : list (string * bool)) :=
  callback fs "enableGoogleSSO" "Google SSO is currently disabled"
           passportGoogle.googleVerify.

End oauthRoutes.

(* ------------------------------------------------------------------ *)
(** ** Vocabulary of the properties                                     *)
(* ------------------------------------------------------------------ *)

(** The three ways a token can be bad for a verifier that holds
    [secret], runs in [env] and expects the type claim [ty]. *)
Definition signatureInvalid (secret : string) (t : jsonwebtoken.Token) : Prop :=
  match t with
  | jsonwebtoken.Malformed _ => True
  | jsonwebtoken.Signed _ k => k <> secret
  end.

Definition expired (env : Env) (t : jsonwebtoken.Token) : Prop :=
  match t with
  | jsonwebtoken.Malformed _ => False
  | jsonwebtoken.Signed p _ => jsonwebtoken.exp p <= now env / 1000
  end.

Definition typeIsNot (ty : string) (t : jsonwebtoken.Token) : Prop :=
  match t with
  | jsonwebtoken.Malformed _ => False
  | jsonwebtoken.Signed p _ => jsonwebtoken.type p <> ty
  end.

(** The ways the code changes [refreshTokens]. *)
Inductive Mutation : Type :=
| AddRefreshToken (env : Env) (token : jsonwebtoken.Token) (expiresIn : Z)
                  (device ipAddress : option string)
| RemoveRefreshToken (token : jsonwebtoken.Token)
| CleanupExpiredTokens (env : Env).

Definition mutate (u : User) (m : Mutation) : User :=
  match m with
  | AddRefreshToken env token expiresIn device ipAddress =>
      UserMethods.addRefreshToken env token expiresIn device ipAddress u
  | RemoveRefreshToken token => UserMethods.removeRefreshToken token u
  | CleanupExpiredTokens env => UserMethods.cleanupExpiredTokens env u
  end.

(** The tokens held in [refreshTokens], oldest first. *)
Definition heldTokens (u : User) : list jsonwebtoken.Token :=
  map RefreshEntry.token (refreshTokens u).

(** What [toJSON] is to leave of an [oauthProviders] entry. *)
Definition safeProvider (e : OAuthEntry.t) : JSValue :=
  JObj [("provider", JStr (Provider_name (OAuthEntry.provider e)));
        ("connectedAt", JNum (OAuthEntry.connectedAt e))].

(** Sample data: the password account of the specification's scenarios,
    and the same account after a password change at 100.5 s. *)
Definition alice : User :=
  mkUser 1 "alice@example.com" "Alice" None (Some (bcrypt.hash 12 "Secret123!"))
         None None None [] Role.user false true [] None None 0.


(** An access token for user 1 issued at second 100, good until second 1000. *)
Definition tokenAt100 : jsonwebtoken.Token :=
  jsonwebtoken.Signed (jsonwebtoken.mkPayload 1 (Some Role.user) "access" 100 1000)
                      (ACCESS_TOKEN_SECRET defaultConfig).

(** Sample requests of the specification's end-to-end scenarios. *)
Definition registerAlice : Request :=
  mkRequest None (Some "jest") (Some "127.0.0.1") []
            "alice@example.com" "Secret123!" "Alice" None.

Definition loginAlice (pw : string) : Request :=
  mkRequest None (Some "jest") (Some "127.0.0.1") []
            "alice@example.com" pw "" None.

(** The tokens [POST /register] issues to user 1 at time 0. *)
Definition aliceAccessToken : jsonwebtoken.Token :=
  jsonwebtoken.Signed (jsonwebtoken.mkPayload 1 (Some Role.user) "access" 0 900)
                      (ACCESS_TOKEN_SECRET defaultConfig).

Definition aliceRefreshToken : jsonwebtoken.Token :=
  jsonwebtoken.Signed (jsonwebtoken.mkPayload 1 None "refresh" 0 604800)
                      (REFRESH_TOKEN_SECRET defaultConfig).

(** The collection after Alice registered at time 0 into an empty one. *)
Definition registered : Mongo.Collection :=
  snd (routes.register defaultConfig (calm 0) registerAlice []).

(** Requests served one after the other, each in its own environment. *)
Fixpoint serve (route : Env -> Request -> Mongo.DB Response)
         (requests : list (Env * Request)) (db : Mongo.Collection)
  : list (Result Response) * Mongo.Collection :=
  match requests with
  | [] => ([], db)
  | (env, req) :: rest =>
      let (answer, db1) := route env req db in
      let (answers, db2) := serve route rest db1 in
      (answer :: answers, db2)
  end.

(** Alice with a GitHub identity linked earlier under subject id 41. *)
Definition aliceWithGithub41 : User :=
  mkUser 1 "alice@example.com" "Alice" None (Some (bcrypt.hash 12 "Secret123!"))
         None (Some "41") None
         [OAuthEntry.mk github "41" (Some "alice@example.com") (Some "Alice") None
                        None None 0]
         Role.user false true [] None None 0.

(** The GitHub assertion of the specification's scenario: subject id 42,
    email alice@example.com. *)
Definition github42 : passport.OAuthProfile :=
  passport.mkOAuthProfile "42" (Some "Alice") (Some "alice")
    (Some [passport.mkEmailEntry "alice@example.com" true]) (Some []).

(** An account that has no password and GitHub as its only identity. *)
Definition githubOnly : User :=
  mkUser 2 "bob@example.com" "Bob" None None
         None (Some "42") None
         [OAuthEntry.mk github "42" (Some "bob@example.com") (Some "Bob") None
                        None None 0]
         Role.user true true [] None None 0.

(** Alice logs out with the tokens of her registration, and the same
    refresh token is presented to [POST /refresh]. *)
Definition logoutAlice : Request :=
  mkRequest (Some (Bearer aliceAccessToken)) None None [] "" "" ""
            (Some aliceRefreshToken).

Definition refreshAlice : Request :=
  mkRequest None None None [] "" "" "" (Some aliceRefreshToken).

(** The user of the model's unit test: five refresh tokens, token1 the
    oldest. *)
Definition browserToken (s : string) : Mutation :=
  AddRefreshToken (calm 0) (jsonwebtoken.Malformed s) 604800
                  (Some "Browser") (Some "127.0.0.1").

Definition fiveTokens : User :=
  fold_left mutate
            (map browserToken ["token1"; "token2"; "token3"; "token4"; "token5"])
            alice.

(** The uniqueness the collection is to keep: one document per [_id]
    and per [email]. *)
Definition wellKeyed (db : Mongo.Collection) : Prop :=
  NoDup (map _id db) /\ NoDup (map email db).

(** At most one [oauthProviders] entry per provider. *)
Definition oneEntryPerProvider (u : User) : Prop :=
  NoDup (map OAuthEntry.provider (oauthProviders u)).

(** The entries of the providers other than [p]. *)
Definition otherProviders (p : Provider) (u : User) : list OAuthEntry.t :=
  filter (fun e => negb (Provider_eqb (OAuthEntry.provider e) p)) (oauthProviders u).

(** What [linkOAuthProvider] and [unlinkOAuthProvider] are to leave
    alone: the identity, the credentials and the account status. *)
Definition sameAccount (u u' : User) : Prop :=
  _id u' = _id u /\ email u' = email u /\ name u' = name u
  /\ password u' = password u /\ role u' = role u /\ isActive u' = isActive u
  /\ refreshTokens u' = refreshTokens u /\ lastLogin u' = lastLogin u
  /\ passwordChangedAt u' = passwordChangedAt u.

(** The collection after [u] has been saved. *)
Definition written (u : User) (db : Mongo.Collection) : Mongo.Collection :=
  map (fun d => if Nat.eqb (_id d) (_id u) then u else d) db.

(** The writes that respect the keys: none, saving over a stored
    document with the same [_id] and [email], inserting a document whose
    [_id] and [email] are new, and sequences of these. *)
Inductive KeyedWrite : Mongo.Collection -> Mongo.Collection -> Prop :=
| NoWrite (db : Mongo.Collection) : KeyedWrite db db
| SaveOver (db : Mongo.Collection) (stored u : User) :
    In stored db -> _id u = _id stored -> email u = email stored ->
    KeyedWrite db (written u db)
| Insert (db : Mongo.Collection) (doc : User) :
    ~ In (_id doc) (map _id db) -> ~ In (email doc) (map email db) ->
    KeyedWrite db (db ++ [doc])
| Then (db db1 db2 : Mongo.Collection) :
    KeyedWrite db db1 -> KeyedWrite db1 db2 -> KeyedWrite db db2.

(** Bob's GitHub-only account after it was deactivated, and the profile
    GitHub reports for him. *)
Definition inactiveBob : User :=
  mkUser 2 "bob@example.com" "Bob" None None
         None (Some "42") None
         [OAuthEntry.mk github "42" (Some "bob@example.com") (Some "Bob") None
                        None None 0]
         Role.user true false [] None None 0.

Definition bobOnGithub : passport.OAuthProfile :=
  passport.mkOAuthProfile "42" (Some "Bob") (Some "bob")
    (Some [passport.mkEmailEntry "bob@example.com" true]) (Some []).

(** A Google profile for Alice whose email Google has not verified. *)
Definition aliceOnGoogle : passport.OAuthProfile :=
  passport.mkOAuthProfile "g-7" (Some "Alice") None
    (Some [passport.mkEmailEntry "alice@example.com" false]) (Some []).

(** A password without a NUL byte. *)
Fixpoint hasNul (s : string) : bool :=
  match s with
  | EmptyString => false
  | String c rest => Ascii.eqb c Ascii.zero || hasNul rest
  end.

(** A password all of which reaches the hash: fewer than 72 bytes, none
    of them NUL. *)
Definition wholeKey (password : string) : Prop :=
  (String.length password < 72)%nat /\ hasNul password = false.

(** Running a handler: the plumbing of the [DB] computations is
    unfolded, the calls into the collection stay folded. *)
Ltac run_db :=
  unfold Mongo.catch, Mongo.bindDB, Mongo.lift, Mongo.ret, Mongo.throw.

(* ------------------------------------------------------------------ *)
(** ** Properties                                                       *)
(* ------------------------------------------------------------------ *)

(** *** Tokens *)

Lemma verify_rejects (env : Env) (secret : string) (t : jsonwebtoken.Token) :
  signatureInvalid secret t \/ expired env t ->
  exists e, jsonwebtoken.verify env t secret = Throw e.
Proof.
  destruct t as [s | p k]; simpl.
  - intros _. eexists. reflexivity.
  - intros [Hsig | Hexp].
    + apply String.eqb_neq in Hsig. rewrite Hsig. simpl. eexists. reflexivity.
    + destruct (String.eqb k secret); simpl.
      * apply Z.leb_le in Hexp. rewrite Hexp. eexists. reflexivity.
      * eexists. reflexivity.
Qed.

Lemma verify_returns_payload (env : Env) (secret : string)
      (t : jsonwebtoken.Token) (p : jsonwebtoken.Payload) :
  jsonwebtoken.verify env t secret = Ok p ->
  t = jsonwebtoken.Signed p secret /\ now env / 1000 < jsonwebtoken.exp p.
Proof.
  destruct t as [s | q k]; simpl; [discriminate |].
  destruct (String.eqb k secret) eqn:Hk; simpl; [| discriminate].
  destruct (jsonwebtoken.exp q <=? now env / 1000) eqn:Hexp; [discriminate |].
  intros H. injection H as ->. apply String.eqb_eq in Hk. subst k.
  apply Z.leb_gt in Hexp. split; [reflexivity | exact Hexp].
Qed.

Lemma verifyAccessToken_rejects (cfg : Config) (env : Env) (t : jsonwebtoken.Token) :
  signatureInvalid (ACCESS_TOKEN_SECRET cfg) t \/ expired env t \/ typeIsNot "access" t ->
  jwt.verifyAccessToken cfg env t = Throw (Error "Invalid or expired access token").
Proof.
  intros H. unfold jwt.verifyAccessToken.
  destruct (jsonwebtoken.verify env t (ACCESS_TOKEN_SECRET cfg)) as [p | e] eqn:Hv;
    simpl; [| reflexivity].
  apply verify_returns_payload in Hv. destruct Hv as [-> Hfresh].
  destruct H as [Hsig | [Hexp | Hty]]; simpl in *.
  - congruence.
  - lia.
  - apply String.eqb_neq in Hty. rewrite Hty. reflexivity.
Qed.

Lemma verifyRefreshToken_rejects (cfg : Config) (env : Env) (t : jsonwebtoken.Token) :
  signatureInvalid (REFRESH_TOKEN_SECRET cfg) t \/ expired env t \/ typeIsNot "refresh" t ->
  jwt.verifyRefreshToken cfg env t = Throw (Error "Invalid or expired refresh token").
Proof.
  intros H. unfold jwt.verifyRefreshToken.
  destruct (jsonwebtoken.verify env t (REFRESH_TOKEN_SECRET cfg)) as [p | e] eqn:Hv;
    simpl; [| reflexivity].
  apply verify_returns_payload in Hv. destruct Hv as [-> Hfresh].
  destruct H as [Hsig | [Hexp | Hty]]; simpl in *.
  - congruence.
  - lia.
  - apply String.eqb_neq in Hty. rewrite Hty. reflexivity.
Qed.

(** A token that is well signed, unexpired and of the right type is
    accepted, and its claims are returned. *)
Lemma verifyAccessToken_accepts (cfg : Config) (env : Env) (p : jsonwebtoken.Payload) :
  now env / 1000 < jsonwebtoken.exp p ->
  jsonwebtoken.type p = "access" ->
  jwt.verifyAccessToken cfg env (jsonwebtoken.Signed p (ACCESS_TOKEN_SECRET cfg)) = Ok p.
Proof.
  intros Hfresh Hty. unfold jwt.verifyAccessToken. simpl.
  rewrite String.eqb_refl. simpl.
  apply Z.leb_gt in Hfresh. rewrite Hfresh. simpl.
  rewrite Hty. reflexivity.
Qed.

Lemma verifyRefreshToken_accepts (cfg : Config) (env : Env) (p : jsonwebtoken.Payload) :
  now env / 1000 < jsonwebtoken.exp p ->
  jsonwebtoken.type p = "refresh" ->
  jwt.verifyRefreshToken cfg env (jsonwebtoken.Signed p (REFRESH_TOKEN_SECRET cfg)) = Ok p.
Proof.
  intros Hfresh Hty. unfold jwt.verifyRefreshToken. simpl.
  rewrite String.eqb_refl. simpl.
  apply Z.leb_gt in Hfresh. rewrite Hfresh. simpl.
  rewrite Hty. reflexivity.
Qed.

Lemma generateAccessToken_type (cfg : Config) (env : Env) (uid : nat) (r : Role.t)
      (t : jsonwebtoken.Token) :
  jwt.generateAccessToken cfg env uid r = Ok t -> typeIsNot "refresh" t.
Proof.
  unfold jwt.generateAccessToken, jsonwebtoken.sign.
  destruct (signThrows env); [discriminate |].
  intros H. injection H as <-. simpl. discriminate.
Qed.

Lemma generateRefreshToken_type (cfg : Config) (env : Env) (uid : nat)
      (t : jsonwebtoken.Token) :
  jwt.generateRefreshToken cfg env uid = Ok t -> typeIsNot "access" t.
Proof.
  unfold jwt.generateRefreshToken, jsonwebtoken.sign.
  destruct (signThrows env); [discriminate |].
  intros H. injection H as <-. simpl. discriminate.
Qed.

(** An access token is good for 15 minutes: until then it verifies and
    gives back the claims it was issued with. *)
Lemma access_token_good_for_15_minutes (cfg : Config) (issue check : Env)
      (uid : nat) (r : Role.t) (t : jsonwebtoken.Token) :
  jwt.generateAccessToken cfg issue uid r = Ok t ->
  now check / 1000 < now issue / 1000 + 900 ->
  jwt.verifyAccessToken cfg check t
  = Ok (jsonwebtoken.mkPayload uid (Some r) "access"
                               (now issue / 1000) (now issue / 1000 + 900)).
Proof.
  unfold jwt.generateAccessToken, jsonwebtoken.sign.
  destruct (signThrows issue); [discriminate |].
  intros H Hfresh. injection H as <-.
  apply verifyAccessToken_accepts; [exact Hfresh | reflexivity].
Qed.

(** A refresh token is good for 7 days. *)
Lemma refresh_token_good_for_7_days (cfg : Config) (issue check : Env)
      (uid : nat) (t : jsonwebtoken.Token) :
  jwt.generateRefreshToken cfg issue uid = Ok t ->
  now check / 1000 < now issue / 1000 + 604800 ->
  jwt.verifyRefreshToken cfg check t
  = Ok (jsonwebtoken.mkPayload uid None "refresh"
                               (now issue / 1000) (now issue / 1000 + 604800)).
Proof.
  unfold jwt.generateRefreshToken, jsonwebtoken.sign.
  destruct (signThrows issue); [discriminate |].
  intros H Hfresh. injection H as <-.
  apply verifyRefreshToken_accepts; [exact Hfresh | reflexivity].
Qed.

(** C5 (token type isolation).  Every access token that
    [generateAccessToken] produces is refused by [verifyRefreshToken],
    and every refresh token that [generateRefreshToken] produces is
    refused by [verifyAccessToken], whenever and under whatever secrets
    they are checked.  [verifyAccessToken] throws its one uniform error
    whenever the signature is invalid, the token is expired or the type
    claim is not 'access'; [verifyRefreshToken] does the same for
    'refresh'. *)
Theorem token_type_isolation
        (cfg : Config) (issue check : Env) (uid : nat) (r : Role.t)
        (access refresh : jsonwebtoken.Token) :
  jwt.generateAccessToken cfg issue uid r = Ok access ->
  jwt.generateRefreshToken cfg issue uid = Ok refresh ->
  jwt.verifyRefreshToken cfg check access
    = Throw (Error "Invalid or expired refresh token")
  /\ jwt.verifyAccessToken cfg check refresh
     = Throw (Error "Invalid or expired access token")
  /\ (forall t,
        signatureInvalid (ACCESS_TOKEN_SECRET cfg) t \/ expired check t
        \/ typeIsNot "access" t ->
        jwt.verifyAccessToken cfg check t
          = Throw (Error "Invalid or expired access token"))
  /\ (forall t,
        signatureInvalid (REFRESH_TOKEN_SECRET cfg) t \/ expired check t
        \/ typeIsNot "refresh" t ->
        jwt.verifyRefreshToken cfg check t
          = Throw (Error "Invalid or expired refresh token")).
Proof.
  intros Ha Hr. repeat split.
  - apply verifyRefreshToken_rejects. right. right.
    exact (generateAccessToken_type _ _ _ _ _ Ha).
  - apply verifyAccessToken_rejects. right. right.
    exact (generateRefreshToken_type _ _ _ _ Hr).
  - apply verifyAccessToken_rejects.
  - apply verifyRefreshToken_rejects.
Qed.

(** Tokens are generated at time 0 for user 1 under the default secrets
    and checked one second later. *)
Lemma token_type_isolation_witness :
  exists access refresh,
    jwt.generateAccessToken defaultConfig (calm 0) 1%nat Role.user = Ok access
    /\ jwt.generateRefreshToken defaultConfig (calm 0) 1%nat = Ok refresh
    /\ jwt.verifyRefreshToken defaultConfig (calm 1000) access
       = Throw (Error "Invalid or expired refresh token")
    /\ jwt.verifyAccessToken defaultConfig (calm 1000) refresh
       = Throw (Error "Invalid or expired access token").
Proof.
  eexists. eexists.
  split; [reflexivity |]. split; [reflexivity |].
  pose proof (token_type_isolation defaultConfig (calm 0) (calm 1000) 1%nat Role.user
                _ _ eq_refl eq_refl) as H.
  split; [exact (proj1 H) | exact (proj1 (proj2 H))].
Defined.

(** *** The cap on refresh tokens *)

Lemma sliceLast_length {A : Type} (n : nat) (l : list A) :
  (List.length (UserMethods.sliceLast n l) <= n)%nat.
Proof.
  unfold UserMethods.sliceLast. rewrite length_skipn. lia.
Qed.

Lemma addRefreshToken_capped (env : Env) (token : jsonwebtoken.Token)
      (expiresIn : Z) (device ipAddress : option string) (u : User) :
  (List.length
     (refreshTokens (UserMethods.addRefreshToken env token expiresIn device ipAddress u))
   <= 5)%nat.
Proof.
  unfold UserMethods.addRefreshToken.
  destruct (5 <? _)%nat eqn:Hlen; simpl.
  - apply sliceLast_length.
  - apply Nat.ltb_ge in Hlen. exact Hlen.
Qed.

Lemma filter_capped {A : Type} (p : A -> bool) (l : list A) (n : nat) :
  (List.length l <= n)%nat -> (List.length (filter p l) <= n)%nat.
Proof.
  intros H. pose proof (filter_length_le p l). lia.
Qed.

Lemma mutate_capped (u : User) (m : Mutation) :
  (List.length (refreshTokens u) <= 5)%nat ->
  (List.length (refreshTokens (mutate u m)) <= 5)%nat.
Proof.
  intros H. destruct m; simpl.
  - apply addRefreshToken_capped.
  - apply filter_capped. exact H.
  - apply filter_capped. exact H.
Qed.

Lemma mutations_capped (ms : list Mutation) (u : User) :
  (List.length (refreshTokens u) <= 5)%nat ->
  (List.length (refreshTokens (fold_left mutate ms u)) <= 5)%nat.
Proof.
  revert u. induction ms as [| m ms IH]; intros u H; simpl.
  - exact H.
  - apply IH. apply mutate_capped. exact H.
Qed.

Lemma addRefreshToken_sixth (env : Env) (token : jsonwebtoken.Token)
      (expiresIn : Z) (device ipAddress : option string) (u : User)
      (oldest : RefreshEntry.t) (rest : list RefreshEntry.t) :
  refreshTokens u = oldest :: rest ->
  List.length rest = 4%nat ->
  refreshTokens (UserMethods.addRefreshToken env token expiresIn device ipAddress u)
  = rest ++ [RefreshEntry.mk token (now env) (now env + expiresIn * 1000)
                             device ipAddress].
Proof.
  intros Hu Hlen. unfold UserMethods.addRefreshToken. rewrite Hu.
  assert (Hsix : List.length ((oldest :: rest) ++
                   [RefreshEntry.mk token (now env) (now env + expiresIn * 1000)
                                    device ipAddress]) = 6%nat).
  { rewrite length_app. simpl. lia. }
  unfold UserMethods.sliceLast. rewrite Hsix. reflexivity.
Qed.

(** C4 (refresh cap).  A user document starts with no refresh tokens,
    and whatever sequence of [addRefreshToken], [removeRefreshToken] and
    [cleanupExpiredTokens] is applied to it, [refreshTokens] never holds
    more than 5 entries.  Adding a token to a user that holds 5 leaves
    exactly 5: the four younger entries in their order followed by the
    new one, so the new token is present and last, and the oldest entry
    is gone (its token is absent unless a younger entry or the new one
    carries the same token string). *)
Theorem refresh_cap :
  (forall (id : nat) (n : Mongo.NewUser) (ms : list Mutation),
      (List.length (refreshTokens (fold_left mutate ms (Mongo.newDocument id n)))
       <= 5)%nat)
  /\ (forall env token expiresIn device ipAddress u oldest rest,
        refreshTokens u = oldest :: rest ->
        List.length rest = 4%nat ->
        let u' := UserMethods.addRefreshToken env token expiresIn device ipAddress u in
        refreshTokens u'
        = rest ++ [RefreshEntry.mk token (now env) (now env + expiresIn * 1000)
                                   device ipAddress]
        /\ List.length (refreshTokens u') = 5%nat
        /\ heldTokens u' = map RefreshEntry.token rest ++ [token]
        /\ In token (heldTokens u')
        /\ (~ In (RefreshEntry.token oldest) (map RefreshEntry.token rest) ->
            RefreshEntry.token oldest <> token ->
            ~ In (RefreshEntry.token oldest) (heldTokens u'))).
Proof.
  split.
  - intros id n ms. apply mutations_capped. simpl. lia.
  - intros env token expiresIn device ipAddress u oldest rest Hu Hlen u'.
    assert (Hnew := addRefreshToken_sixth env token expiresIn device ipAddress
                      u oldest rest Hu Hlen).
    fold u' in Hnew.
    assert (Hheld : heldTokens u' = map RefreshEntry.token rest ++ [token]).
    { unfold heldTokens. rewrite Hnew, map_app. reflexivity. }
    split; [exact Hnew |].
    split; [rewrite Hnew, length_app; simpl; lia |].
    split; [exact Hheld |].
    split.
    + rewrite Hheld. apply in_or_app. right. left. reflexivity.
    + intros Hrest Hneq Hin. rewrite Hheld in Hin.
      apply in_app_or in Hin. destruct Hin as [Hin | [Hin | []]].
      * exact (Hrest Hin).
      * exact (Hneq (eq_sym Hin)).
Qed.

(** The sixth token of the model's unit test. *)
Lemma refresh_cap_witness :
  heldTokens (mutate fiveTokens (browserToken "token6"))
  = map jsonwebtoken.Malformed ["token2"; "token3"; "token4"; "token5"; "token6"]
  /\ ~ In (jsonwebtoken.Malformed "token1")
          (heldTokens (mutate fiveTokens (browserToken "token6"))).
Proof.
  pose proof (proj2 refresh_cap (calm 0) (jsonwebtoken.Malformed "token6") 604800
                (Some "Browser") (Some "127.0.0.1") fiveTokens
                (hd (RefreshEntry.mk (jsonwebtoken.Malformed "") 0 0 None None)
                    (refreshTokens fiveTokens))
                (tl (refreshTokens fiveTokens)) eq_refl eq_refl)
    as (_ & _ & Hheld & _ & Hgone).
  split; [exact Hheld |].
  apply Hgone.
  - simpl. intros [H | [H | [H | [H | []]]]]; discriminate H.
  - discriminate.
Defined.

(** *** The serialised user *)

Lemma cleanProvider_entry (e : OAuthEntry.t) :
  Serialise.cleanProvider (Serialise.entryToObject e) = safeProvider e.
Proof.
  destruct e as [p pid em dn av at_ rt ca].
  destruct em, dn, av, at_, rt; reflexivity.
Qed.

Lemma cleanProvider_entries (l : list OAuthEntry.t) :
  map Serialise.cleanProvider (map Serialise.entryToObject l) = map safeProvider l.
Proof.
  rewrite map_map. apply map_ext. exact cleanProvider_entry.
Qed.

(** C10 (safe user view).  The object [toJSON] returns has no
    [password] key and no [refreshTokens] key, and its [oauthProviders]
    is the stored list with every entry reduced to exactly its provider
    name and its [connectedAt]: the stored [accessToken], [refreshToken],
    [email], [displayName] and [avatar] of an entry (and its
    [providerId]) do not appear. *)
Theorem toJSON_hides_secrets (u : User) :
  Obj.get "password" (Serialise.toJSON u) = None
  /\ Obj.get "refreshTokens" (Serialise.toJSON u) = None
  /\ ~ In "password" (Obj.keys (Serialise.toJSON u))
  /\ ~ In "refreshTokens" (Obj.keys (Serialise.toJSON u))
  /\ Obj.get "oauthProviders" (Serialise.toJSON u)
     = Some (JArr (map safeProvider (oauthProviders u)))
  /\ (forall e,
        Obj.keys (match safeProvider e with JObj f => f | _ => [] end)
        = ["provider"; "connectedAt"]).
Proof.
  destruct u as [id em nm av pw gid ghid aid provs rl ver act rts ll pca v].
  unfold Serialise.toJSON, Serialise.toObject.
  destruct pw, gid, ghid, aid, ll, pca; cbn;
    rewrite cleanProvider_entries;
    (repeat split; try reflexivity;
     try (intros H; repeat (destruct H as [H | H]; [discriminate H |]); exact H)).
Qed.

(** *** Authenticating a request *)

Lemma authenticate_bad_token (cfg : Config) (env : Env) (t : jsonwebtoken.Token)
      (db : Mongo.Collection) :
  signatureInvalid (ACCESS_TOKEN_SECRET cfg) t \/ expired env t \/ typeIsNot "access" t ->
  middleware.authenticate cfg env (Some (Bearer t)) db
  = (Throw (Error "Invalid or expired access token"), db).
Proof.
  intros H. unfold middleware.authenticate. run_db.
  rewrite (verifyAccessToken_rejects cfg env t H). reflexivity.
Qed.

(** C3.  A request whose bearer token is invalid or expired (bad
    signature, malformed, expired, wrong type claim) leaves
    [authenticate] with the plain [Error] that [verifyAccessToken]
    throws, which the error handler answers with status 500 and code
    INTERNAL_ERROR; a request without a header is answered with 401 and
    AUTHENTICATION_ERROR. *)
Theorem invalid_token_answered_as_internal_error
        (cfg : Config) (env : Env) (t : jsonwebtoken.Token)
        (route : User -> Mongo.DB Response) (db : Mongo.Collection) :
  signatureInvalid (ACCESS_TOKEN_SECRET cfg) t \/ expired env t \/ typeIsNot "access" t ->
  middleware.guarded cfg env (Some (Bearer t)) route db
  = (Ok (mkResponse 500 (ErrorBody "Invalid or expired access token"
                                   (CodeStr "INTERNAL_ERROR") [])), db)
  /\ middleware.guarded cfg env None route db
     = (Ok (mkResponse 401 (ErrorBody "No token provided"
                                      (CodeStr "AUTHENTICATION_ERROR") [])), db).
Proof.
  intros H. split.
  - unfold middleware.guarded. rewrite (authenticate_bad_token cfg env t db H).
    reflexivity.
  - reflexivity.
Qed.

(** The request of the integration test: [Bearer invalid.token.here]. *)
Lemma invalid_token_answered_as_internal_error_witness :
  middleware.guarded defaultConfig (calm 0)
    (Some (Bearer (jsonwebtoken.Malformed "invalid.token.here")))
    (fun reqUser => Mongo.ret (mkResponse 200 (Profile (Serialise.toJSON reqUser))))
    [alice]
  = (Ok (mkResponse 500 (ErrorBody "Invalid or expired access token"
                                   (CodeStr "INTERNAL_ERROR") [])), [alice]).
Proof.
  apply (invalid_token_answered_as_internal_error defaultConfig (calm 0)
           (jsonwebtoken.Malformed "invalid.token.here")).
  left. exact I.
Defined.





(** *** Logout, then refresh *)

Lemma Payload_eqb_refl (p : jsonwebtoken.Payload) : jsonwebtoken.Payload_eqb p p = true.
Proof.
  destruct p as [uid r ty i e]. unfold jsonwebtoken.Payload_eqb. simpl.
  rewrite Nat.eqb_refl, String.eqb_refl, !Z.eqb_refl.
  destruct r as [[| |] |]; reflexivity.
Qed.

Lemma Token_eqb_refl (t : jsonwebtoken.Token) : jsonwebtoken.Token_eqb t t = true.
Proof.
  destruct t as [s | p k]; simpl.
  - apply String.eqb_refl.
  - rewrite Payload_eqb_refl, String.eqb_refl. reflexivity.
Qed.

Lemma removed_token_not_found (t : jsonwebtoken.Token) (u : User) :
  existsb (fun rt => jsonwebtoken.Token_eqb (RefreshEntry.token rt) t)
          (refreshTokens (UserMethods.removeRefreshToken t u)) = false.
Proof.
  unfold UserMethods.removeRefreshToken. simpl.
  induction (refreshTokens u) as [| rt l IH]; simpl.
  - reflexivity.
  - destruct (jsonwebtoken.Token_eqb (RefreshEntry.token rt) t) eqn:Heq; simpl.
    + exact IH.
    + rewrite Heq. exact IH.
Qed.

Lemma removed_token_not_held (t : jsonwebtoken.Token) (u : User) :
  ~ In t (heldTokens (UserMethods.removeRefreshToken t u)).
Proof.
  unfold heldTokens. intros Hin. apply in_map_iff in Hin.
  destruct Hin as [rt [Htok Hin]].
  pose proof (removed_token_not_found t u) as Hnone.
  assert (Hex : existsb (fun rt => jsonwebtoken.Token_eqb (RefreshEntry.token rt) t)
                        (refreshTokens (UserMethods.removeRefreshToken t u)) = true).
  { apply existsb_exists. exists rt. split; [exact Hin |].
    rewrite Htok. apply Token_eqb_refl. }
  congruence.
Qed.

(** After [save], looking the document up by its [_id] finds what was
    saved, provided the document was in the collection. *)
Lemma findById_after_save (env : Env) (u0 u : User) (db : Mongo.Collection) :
  saveRejects env = false ->
  Mongo.findById (_id u) db = (Ok (Some u0), db) ->
  exists db',
    Mongo.save env u db = (Ok tt, db')
    /\ Mongo.findById (_id u) db' = (Ok (Some u), db').
Proof.
  intros Hsave Hfind. unfold Mongo.save. rewrite Hsave.
  eexists. split; [reflexivity |].
  unfold Mongo.findById, Mongo.findOne in *.
  injection Hfind as Hfind. f_equal. f_equal.
  induction db as [| d db IH]; simpl in *; [discriminate |].
  destruct (Nat.eqb (_id d) (_id u)) eqn:Hd; simpl.
  - rewrite Nat.eqb_refl. reflexivity.
  - rewrite Hd. apply IH. exact Hfind.
Qed.

(** What a successful [authenticate] has established. *)
Lemma authenticate_ok (cfg : Config) (env : Env) (h : option AuthHeader)
      (u : User) (db db' : Mongo.Collection) :
  middleware.authenticate cfg env h db = (Ok u, db') ->
  db' = db
  /\ Mongo.findById (_id u) db = (Ok (Some u), db)
  /\ isActive u = true.
Proof.
  unfold middleware.authenticate.
  destruct h as [[t | raw] |]; try discriminate.
  unfold Mongo.bindDB, Mongo.lift.
  destruct (jwt.verifyAccessToken cfg env t) as [p | e]; [| discriminate].
  unfold Mongo.findById, Mongo.findOne.
  destruct (find (fun u0 => Nat.eqb (_id u0) (jsonwebtoken.userId p)) db)
    as [found |] eqn:Hfind; [| discriminate].
  destruct (isActive found) eqn:Hactive; simpl; [| discriminate].
  destruct (UserMethods.changedPasswordAfter (jsonwebtoken.iat p) found);
    [discriminate |].
  unfold Mongo.ret. intros H. injection H as <- <-.
  split; [reflexivity |]. split; [| exact Hactive].
  pose proof (find_some _ _ Hfind) as [_ Hid].
  apply Nat.eqb_eq in Hid. rewrite Hid. rewrite Hfind. reflexivity.
Qed.

Lemma refresh_unverified (cfg : Config) (env : Env) (req : Request)
      (t : jsonwebtoken.Token) (e : JsError) (db : Mongo.Collection) :
  routes.given (body_refreshToken req) = Some t ->
  jwt.verifyRefreshToken cfg env t = Throw e ->
  routes.refresh cfg env req db
  = (Ok (mkResponse 401 (Failure "Invalid or expired refresh token")), db).
Proof.
  intros Hgiven Hv. unfold routes.refresh. run_db.
  rewrite Hgiven, Hv. reflexivity.
Qed.

(** [POST /refresh] refuses a verified token that the user does not hold. *)
Lemma refresh_absent_token (cfg : Config) (env : Env) (req : Request)
      (t : jsonwebtoken.Token) (p : jsonwebtoken.Payload) (u : User)
      (db : Mongo.Collection) :
  routes.given (body_refreshToken req) = Some t ->
  jwt.verifyRefreshToken cfg env t = Ok p ->
  Mongo.findById (jsonwebtoken.userId p) db = (Ok (Some u), db) ->
  isActive u = true ->
  existsb (fun rt => jsonwebtoken.Token_eqb (RefreshEntry.token rt) t)
          (refreshTokens u) = false ->
  routes.refresh cfg env req db
  = (Ok (mkResponse 401 (Failure "Invalid refresh token")), db).
Proof.
  intros Hgiven Hv Hfind Hactive Habsent.
  unfold routes.refresh. run_db.
  rewrite Hgiven, Hv, Hfind, Hactive, Habsent. reflexivity.
Qed.

(** C6 (revoked refresh token).  When an authenticated caller logs out
    with a refresh token and the removal is saved, [POST /logout]
    answers 200, the stored user no longer holds that token string, and
    every later [POST /refresh] that presents the same string for this
    user is answered 401 and changes nothing: "Invalid refresh token"
    when the token still verifies, and the verifier's "Invalid or
    expired refresh token" when it does not. *)
Theorem logged_out_token_refused
        (cfg : Config) (env later : Env) (req req' : Request) (u : User)
        (t : jsonwebtoken.Token) (db : Mongo.Collection) :
  middleware.authenticate cfg env (authorization req) db = (Ok u, db) ->
  routes.given (body_refreshToken req) = Some t ->
  saveRejects env = false ->
  routes.given (body_refreshToken req') = Some t ->
  (forall p, jwt.verifyRefreshToken cfg later t = Ok p -> jsonwebtoken.userId p = _id u) ->
  exists db',
    routes.logout cfg env req db
    = (Ok (mkResponse 200 (Success "Logged out successfully")), db')
    /\ Mongo.findById (_id u) db'
       = (Ok (Some (UserMethods.removeRefreshToken t u)), db')
    /\ ~ In t (heldTokens (UserMethods.removeRefreshToken t u))
    /\ routes.refresh cfg later req' db'
       = (Ok (mkResponse 401
                (Failure match jwt.verifyRefreshToken cfg later t with
                         | Ok _ => "Invalid refresh token"
                         | Throw _ => "Invalid or expired refresh token"
                         end)), db').
Proof.
  intros Hauth Hgiven Hsave Hgiven' Hown.
  destruct (authenticate_ok _ _ _ _ _ _ Hauth) as (_ & Hfind & Hactive).
  destruct (findById_after_save env u (UserMethods.removeRefreshToken t u) db
              Hsave Hfind) as (db' & Hsaved & Hfound).
  exists db'. split; [| split; [exact Hfound | split]].
  - unfold routes.logout, middleware.guarded. rewrite Hauth.
    unfold Mongo.catch, Mongo.bindDB. rewrite Hgiven, Hsaved. reflexivity.
  - apply removed_token_not_held.
  - destruct (jwt.verifyRefreshToken cfg later t) as [p | e] eqn:Hv.
    + apply (refresh_absent_token cfg later req' t p
               (UserMethods.removeRefreshToken t u) db' Hgiven' Hv).
      * rewrite (Hown p eq_refl). exact Hfound.
      * exact Hactive.
      * apply removed_token_not_found.
    + apply (refresh_unverified cfg later req' t e db' Hgiven' Hv).
Qed.

(** Before any logout the same presentation is answered with a new
    access token. *)
Example refresh_before_logout :
  routes.refresh defaultConfig (calm 2000) refreshAlice registered
  = (Ok (mkResponse 200
           (Access (jsonwebtoken.Signed
                      (jsonwebtoken.mkPayload 1 (Some Role.user) "access" 2 902)
                      (ACCESS_TOKEN_SECRET defaultConfig)) 900)),
     registered).
Proof. reflexivity. Qed.

(** Alice registers at time 0, logs out one second later with her
    refresh token, and presents it again another second later. *)
Lemma logged_out_token_refused_witness :
  exists db',
    routes.logout defaultConfig (calm 1000) logoutAlice registered
    = (Ok (mkResponse 200 (Success "Logged out successfully")), db')
    /\ routes.refresh defaultConfig (calm 2000) refreshAlice db'
       = (Ok (mkResponse 401 (Failure "Invalid refresh token")), db').
Proof.
  destruct (logged_out_token_refused defaultConfig (calm 1000) (calm 2000)
              logoutAlice refreshAlice
              (UserMethods.addRefreshToken (calm 0) aliceRefreshToken 604800
                 (Some "jest") (Some "127.0.0.1") alice)
              aliceRefreshToken registered)
    as (db' & Hlogout & _ & _ & Hrefresh).
  - reflexivity.
  - reflexivity.
  - reflexivity.
  - reflexivity.
  - intros p H. vm_compute in H. injection H as <-. reflexivity.
  - exists db'. split; [exact Hlogout | exact Hrefresh].
Defined.

(** *** Login attempts *)

Example register_alice :
  routes.register defaultConfig (calm 0) registerAlice []
  = (Ok (mkResponse 201
           (Session (Serialise.toJSON
                       (UserMethods.addRefreshToken (calm 0) aliceRefreshToken 604800
                          (Some "jest") (Some "127.0.0.1") alice))
                    aliceAccessToken aliceRefreshToken 900)),
     [UserMethods.addRefreshToken (calm 0) aliceRefreshToken 604800
        (Some "jest") (Some "127.0.0.1") alice]).
Proof. reflexivity. Qed.

(** A login with a known email and a wrong password is answered 401 and
    writes nothing: the handler keeps no count of failures. *)
Lemma login_wrong_password (cfg : Config) (env : Env) (req : Request) (u : User)
      (db : Mongo.Collection) :
  validationErrors req = [] ->
  find (fun d => String.eqb (email d) (body_email req)) db = Some u ->
  UserMethods.comparePassword (body_password req) u = false ->
  routes.login cfg env req db
  = (Ok (mkResponse 401 (Failure "Invalid email or password")), db).
Proof.
  intros Hvalid Hfind Hpw.
  unfold routes.login, Mongo.catch, Mongo.bindDB, Mongo.findOne.
  rewrite Hvalid. simpl. rewrite Hfind, Hpw. reflexivity.
Qed.

Lemma failed_logins_change_nothing (cfg : Config) (u : User) (db : Mongo.Collection)
      (requests : list (Env * Request)) :
  Forall (fun er =>
            validationErrors (snd er) = []
            /\ find (fun d => String.eqb (email d) (body_email (snd er))) db = Some u
            /\ UserMethods.comparePassword (body_password (snd er)) u = false)
         requests ->
  serve (routes.login cfg) requests db
  = (map (fun _ => Ok (mkResponse 401 (Failure "Invalid email or password"))) requests,
     db).
Proof.
  induction 1 as [| [env req] rest (Hvalid & Hfind & Hpw) _ IH]; simpl.
  - reflexivity.
  - simpl in *. rewrite (login_wrong_password cfg env req u db Hvalid Hfind Hpw).
    rewrite IH. reflexivity.
Qed.

(** C1 on the code.  Alice registers; five logins with her email and a
    wrong password follow, one per second, and a sixth with the right
    password.  Each of the five is answered 401 "Invalid email or
    password" (the fifth included), the collection is as it was before
    them, and the sixth is answered 200 with a session: nothing is ever
    locked. *)
Theorem five_failed_logins_do_not_lock :
  serve (routes.login defaultConfig)
        [(calm 1000, loginAlice "WrongPassword!");
         (calm 2000, loginAlice "WrongPassword!");
         (calm 3000, loginAlice "WrongPassword!");
         (calm 4000, loginAlice "WrongPassword!");
         (calm 5000, loginAlice "WrongPassword!")]
        registered
  = (repeat (Ok (mkResponse 401 (Failure "Invalid email or password"))) 5,
     registered)
  /\ exists session db',
       routes.login defaultConfig (calm 6000) (loginAlice "Secret123!") registered
       = (Ok (mkResponse 200 session), db')
       /\ match session with
          | Session _ _ _ 900 => True
          | _ => False
          end.
Proof.
  split.
  - reflexivity.
  - eexists. eexists. split; [reflexivity | exact I].
Qed.

(** *** Registration *)

Lemma no_provider_id_clashes (f : User -> option string) (db : Mongo.Collection) :
  existsb (fun d => Mongo.sameId (f d) None) db = false.
Proof.
  induction db as [| d db IH]; simpl; [reflexivity |].
  rewrite IH. destruct (f d); reflexivity.
Qed.

Lemma find_none_existsb {A : Type} (p : A -> bool) (l : list A) :
  find p l = None -> existsb p l = false.
Proof.
  induction l as [| x l IH]; simpl; [reflexivity |].
  destruct (p x); [discriminate | exact IH].
Qed.

(** C2 as the code has it.  When the user document has been created and
    a later step fails (the token cannot be signed, or the save of the
    refresh token is rejected), [POST /register] answers 500, and the
    created user stays in the collection, without any refresh token:
    nothing is rolled back. *)
Theorem register_failure_keeps_user
        (cfg : Config) (env : Env) (req : Request) (db : Mongo.Collection) :
  let n := Mongo.mkNewUser (body_email req) (Some (body_name req))
                           (Some (body_password req)) None None None None false [] in
  validationErrors req = [] ->
  find (fun d => String.eqb (email d) (body_email req)) db = None ->
  Mongo.validate n = None ->
  createRejects env = false ->
  signThrows env = true \/ saveRejects env = true ->
  exists msg,
    routes.register cfg env req db
    = (Ok (mkResponse 500 (Failure msg)), db ++ [Mongo.newDocument (Mongo.freshId db) n])
    /\ (development cfg = false -> msg = "Registration failed")
    /\ refreshTokens (Mongo.newDocument (Mongo.freshId db) n) = [].
Proof.
  intros n Hvalid Hfind Hschema Hcreate Hfail.
  assert (Hcreated : Mongo.create env n db
                     = (Ok (Mongo.newDocument (Mongo.freshId db) n),
                        db ++ [Mongo.newDocument (Mongo.freshId db) n])).
  { unfold Mongo.create. rewrite Hschema, Hcreate.
    unfold Mongo.duplicate. subst n. simpl.
    rewrite (find_none_existsb _ _ Hfind).
    rewrite !no_provider_id_clashes. reflexivity. }
  unfold routes.register, Mongo.catch, Mongo.bindDB, Mongo.findOne.
  rewrite Hvalid. simpl. rewrite Hfind. fold n. rewrite Hcreated.
  unfold Mongo.lift, jwt.generateAccessToken, jwt.generateRefreshToken,
    jsonwebtoken.sign, Mongo.save, Mongo.ret, routes.failed.
  destruct (signThrows env) eqn:Hsign.
  - eexists. split; [reflexivity |]. split; [| reflexivity].
    intros Hdev. rewrite Hdev. reflexivity.
  - destruct Hfail as [Hfail | Hfail]; [discriminate |].
    rewrite Hfail. eexists. split; [reflexivity |]. split; [| reflexivity].
    intros Hdev. rewrite Hdev. reflexivity.
Qed.

(** Alice registers while the database rejects the second write. *)
Lemma register_failure_keeps_user_witness :
  exists msg,
    routes.register defaultConfig (mkEnv 0 false false true) registerAlice []
    = (Ok (mkResponse 500 (Failure msg)), [alice])
    /\ (development defaultConfig = false -> msg = "Registration failed")
    /\ refreshTokens alice = [].
Proof.
  refine (register_failure_keeps_user defaultConfig (mkEnv 0 false false true)
            registerAlice [] _ _ _ _ _).
  - reflexivity.
  - reflexivity.
  - reflexivity.
  - reflexivity.
  - right. reflexivity.
Defined.

(** C2 as stated fails: the second write is rejected, registration
    reports failure, and Alice's record is in the collection. *)
Lemma register_failure_leaves_user_behind :
  routes.register defaultConfig (mkEnv 0 false false true) registerAlice []
  = (Ok (mkResponse 500 (Failure "Registration failed")), [alice]).
Proof. reflexivity. Qed.

(** *** Linking and unlinking identities *)

(** Scenario 4 of the specification: Alice has a password account, the
    GitHub assertion for subject 42 carries her email; her record gains
    the identity and no second user appears. *)
Example github_links_into_password_account :
  passport.githubVerify (calm 5000) github42 [alice]
  = (let linked :=
       mkUser 1 "alice@example.com" "Alice" None (Some (bcrypt.hash 12 "Secret123!"))
              None (Some "42") None
              [OAuthEntry.mk github "42" (Some "alice@example.com") (Some "Alice")
                             None None None 5000]
              Role.user true true [] (Some 5000) None 0 in
     (Ok linked, [linked])).
Proof. reflexivity. Qed.

Lemma save_twice_length (env : Env) (u v : User) (db : Mongo.Collection) :
  saveRejects env = false ->
  exists db',
    (Mongo.bindDB (Mongo.save env u)
       (fun _ => Mongo.bindDB (Mongo.save env v) (fun _ => Mongo.ret v))) db
    = (Ok v, db')
    /\ List.length db' = List.length db.
Proof.
  intros Hsave. unfold Mongo.bindDB, Mongo.save, Mongo.ret. rewrite Hsave.
  eexists. split; [reflexivity |]. rewrite !length_map. reflexivity.
Qed.

(** [linkOAuthProvider] on a user that has no entry for the provider:
    the identity is appended, the provider's id field is set, and the
    user is marked verified when the provider verified the email. *)
Lemma link_new_provider (env : Env) (provider : Provider)
      (profile : LinkProfile.t) (u : User) :
  find (fun e => Provider_eqb (OAuthEntry.provider e) provider) (oauthProviders u)
  = None ->
  let u' := UserMethods.linkOAuthProvider env provider profile u in
  _id u' = _id u
  /\ oauthProviders u'
     = oauthProviders u ++
         [OAuthEntry.mk provider (LinkProfile.id profile)
                        (Some (LinkProfile.email profile))
                        (LinkProfile.displayName profile)
                        (LinkProfile.avatar profile) None None (now env)]
  /\ providerIdField provider u' = Some (LinkProfile.id profile)
  /\ isVerified u' = (LinkProfile.emailVerified profile || isVerified u)%bool.
Proof.
  intros Hnone. unfold UserMethods.linkOAuthProvider. rewrite Hnone.
  destruct provider, u as [i em nm av pw gid ghid aid provs rl ver act rts ll pca v],
    profile as [pid pem pdn pav pver]; simpl;
    destruct (negb (truthy av) && truthy pav), pver; simpl; repeat split.
Qed.


(** C8 on the code.  Alice already carries a GitHub entry for subject 41
    and [githubId] 41.  The assertion for the unknown subject 42 with her
    email is linked into her record, not into a second user, and the
    entry is rewritten for 42, but [githubId] keeps the old 41: the
    provider-specific id field is only set when the entry is new. *)
Theorem github_relink_keeps_old_id :
  let u' :=
    mkUser 1 "alice@example.com" "Alice" None (Some (bcrypt.hash 12 "Secret123!"))
           None (Some "41") None
           [OAuthEntry.mk github "42" (Some "alice@example.com") (Some "Alice")
                          None None None 0]
           Role.user true true [] (Some 5000) None 0 in
  Mongo.findOne (fun d => Mongo.sameId (githubId d) (Some "42")) [aliceWithGithub41]
  = (Ok None, [aliceWithGithub41])
  /\ passport.githubVerify (calm 5000) github42 [aliceWithGithub41] = (Ok u', [u'])
  /\ map OAuthEntry.providerId (oauthProviders u') = ["42"]
  /\ githubId u' = Some "41"
  /\ Mongo.findOne (fun d => Mongo.sameId (githubId d) (Some "42")) [u']
     = (Ok None, [u']).
Proof.
  repeat split.
Qed.

(** C9 on the code.  [unlinkOAuthProvider] has no failure case and no
    guard.  For a user without a password whose only sign-in is the one
    linked identity, it removes that identity and clears the provider's
    id field: no provider id is left, so the schema's own rule for
    [password] (required unless a provider id is set) now asks for the
    password the user does not have.  The user is not left unchanged
    and no LastCredentialRemoval failure is raised. *)
Theorem unlink_last_identity_breaks_password_rule
        (p : Provider) (u : User) (e : OAuthEntry.t) :
  password u = None ->
  oauthProviders u = [e] ->
  OAuthEntry.provider e = p ->
  (forall q, q <> p -> providerIdField q u = None) ->
  let u' := UserMethods.unlinkOAuthProvider p u in
  u' = set_providerIdField p None (set_oauthProviders [] u)
  /\ oauthProviders u' = []
  /\ (forall q, providerIdField q u' = None)
  /\ password u' = None
  /\ UserSchema.passwordRequired u' = true
  /\ UserSchema.meetsPasswordRule u' = false
  /\ (truthy (providerIdField p u) = true ->
      UserSchema.meetsPasswordRule u = true /\ u' <> u).
Proof.
  intros Hpw Hone Hprov Hothers u'.
  assert (Hu' : u' = set_providerIdField p None (set_oauthProviders [] u)).
  { subst u'. unfold UserMethods.unlinkOAuthProvider.
    rewrite Hone. simpl. rewrite Hprov.
    assert (Hself : Provider_eqb p p = true) by (destruct p; reflexivity).
    rewrite Hself. reflexivity. }
  assert (Hids : forall q, providerIdField q u' = None).
  { intros q. rewrite Hu'.
    destruct p, q; simpl; try reflexivity;
      match goal with
      | |- ?f u = None =>
          first [ exact (Hothers google ltac:(discriminate))
                | exact (Hothers github ltac:(discriminate))
                | exact (Hothers apple ltac:(discriminate)) ]
      end. }
  assert (Hpw' : password u' = None).
  { rewrite Hu'. destruct p; simpl; exact Hpw. }
  assert (Hreq : UserSchema.passwordRequired u' = true).
  { unfold UserSchema.passwordRequired.
    pose proof (Hids google) as Hg. pose proof (Hids github) as Hh.
    pose proof (Hids apple) as Ha. simpl in Hg, Hh, Ha.
    rewrite Hg, Hh, Ha. reflexivity. }
  split; [exact Hu' |].
  split; [rewrite Hu'; destruct p; reflexivity |].
  split; [exact Hids |].
  split; [exact Hpw' |].
  split; [exact Hreq |].
  split; [unfold UserSchema.meetsPasswordRule; rewrite Hpw', Hreq; reflexivity |].
  intros Hid. split.
  - unfold UserSchema.meetsPasswordRule, UserSchema.passwordRequired.
    rewrite Hpw. destruct p; simpl in Hid; rewrite Hid; simpl;
      rewrite ?andb_false_r; reflexivity.
  - intros Heq. pose proof (Hids p) as Hnone. rewrite Heq in Hnone.
    rewrite Hnone in Hid. discriminate Hid.
Qed.

(** Bob signs in with GitHub only and meets the schema's rule; after
    unlinking GitHub he has no password, no identity and no provider id,
    and the rule is broken. *)
Lemma unlink_last_identity_breaks_password_rule_witness :
  UserSchema.meetsPasswordRule githubOnly = true
  /\ UserMethods.unlinkOAuthProvider github githubOnly <> githubOnly
  /\ oauthProviders (UserMethods.unlinkOAuthProvider github githubOnly) = []
  /\ password (UserMethods.unlinkOAuthProvider github githubOnly) = None
  /\ UserSchema.meetsPasswordRule (UserMethods.unlinkOAuthProvider github githubOnly)
     = false.
Proof.
  pose proof (unlink_last_identity_breaks_password_rule github githubOnly
                (OAuthEntry.mk github "42" (Some "bob@example.com") (Some "Bob")
                               None None None 0)
                eq_refl eq_refl eq_refl) as H.
  destruct H as (_ & Hprovs & _ & Hpw & _ & Hrule & Hbefore).
  - intros q Hq. destruct q; [reflexivity | contradiction Hq; reflexivity | reflexivity].
  - destruct (Hbefore eq_refl) as [Hmeets Hchanged].
    repeat split; assumption.
Defined.

(* ------------------------------------------------------------------ *)
(** ** Further properties of the code                                   *)
(* ------------------------------------------------------------------ *)

(** *** Tokens, continued *)

Lemma verifyAccessToken_inversion (cfg : Config) (env : Env)
      (t : jsonwebtoken.Token) (p : jsonwebtoken.Payload) :
  jwt.verifyAccessToken cfg env t = Ok p ->
  t = jsonwebtoken.Signed p (ACCESS_TOKEN_SECRET cfg)
  /\ jsonwebtoken.type p = "access"
  /\ now env / 1000 < jsonwebtoken.exp p.
Proof.
  unfold jwt.verifyAccessToken.
  destruct (jsonwebtoken.verify env t (ACCESS_TOKEN_SECRET cfg)) as [q | e] eqn:Hq;
    simpl; [| discriminate].
  destruct (String.eqb (jsonwebtoken.type q) "access") eqn:Hty; simpl;
    [| discriminate].
  intros H. injection H as ->.
  apply verify_returns_payload in Hq. apply String.eqb_eq in Hty.
  destruct Hq as [Ht Hfresh]. repeat split; assumption.
Qed.

Lemma verifyRefreshToken_inversion (cfg : Config) (env : Env)
      (t : jsonwebtoken.Token) (p : jsonwebtoken.Payload) :
  jwt.verifyRefreshToken cfg env t = Ok p ->
  t = jsonwebtoken.Signed p (REFRESH_TOKEN_SECRET cfg)
  /\ jsonwebtoken.type p = "refresh"
  /\ now env / 1000 < jsonwebtoken.exp p.
Proof.
  unfold jwt.verifyRefreshToken.
  destruct (jsonwebtoken.verify env t (REFRESH_TOKEN_SECRET cfg)) as [q | e] eqn:Hq;
    simpl; [| discriminate].
  destruct (String.eqb (jsonwebtoken.type q) "refresh") eqn:Hty; simpl;
    [| discriminate].
  intros H. injection H as ->.
  apply verify_returns_payload in Hq. apply String.eqb_eq in Hty.
  destruct Hq as [Ht Hfresh]. repeat split; assumption.
Qed.

(** X1.  The verifiers accept exactly the tokens signed with their own
    secret, carrying their own type claim, whose [exp] second has not
    been reached, and give back the claims unchanged. *)
Theorem verifiers_accept_exactly
        (cfg : Config) (env : Env) (t : jsonwebtoken.Token)
        (p : jsonwebtoken.Payload) :
  (jwt.verifyAccessToken cfg env t = Ok p
   <-> t = jsonwebtoken.Signed p (ACCESS_TOKEN_SECRET cfg)
       /\ jsonwebtoken.type p = "access"
       /\ now env / 1000 < jsonwebtoken.exp p)
  /\ (jwt.verifyRefreshToken cfg env t = Ok p
      <-> t = jsonwebtoken.Signed p (REFRESH_TOKEN_SECRET cfg)
          /\ jsonwebtoken.type p = "refresh"
          /\ now env / 1000 < jsonwebtoken.exp p).
Proof.
  split; split.
  - apply verifyAccessToken_inversion.
  - intros (-> & Hty & Hfresh). apply verifyAccessToken_accepts; assumption.
  - apply verifyRefreshToken_inversion.
  - intros (-> & Hty & Hfresh). apply verifyRefreshToken_accepts; assumption.
Qed.

(** The token of second 100 checked at time 0. *)
Lemma verifiers_accept_exactly_witness :
  jwt.verifyAccessToken defaultConfig (calm 0) tokenAt100
  = Ok (jsonwebtoken.mkPayload 1 (Some Role.user) "access" 100 1000).
Proof.
  apply (proj2 (proj1 (verifiers_accept_exactly defaultConfig (calm 0) tokenAt100
                         (jsonwebtoken.mkPayload 1 (Some Role.user) "access"
                                                 100 1000)))).
  split; [reflexivity |]. split; [reflexivity |]. vm_compute. reflexivity.
Defined.

(** X2.  Lifetimes.  An access token issued in second [s] verifies, with
    the user id and role it was issued for, in every second before
    [s + 900] and in none from [s + 900] on; a refresh token likewise
    with [s + 604800]. *)
Theorem token_lifetimes
        (cfg : Config) (issue check : Env) (uid : nat) (r : Role.t)
        (access refresh : jsonwebtoken.Token) :
  jwt.generateAccessToken cfg issue uid r = Ok access ->
  jwt.generateRefreshToken cfg issue uid = Ok refresh ->
  let s := now issue / 1000 in
  jwt.verifyAccessToken cfg check access
  = (if now check / 1000 <? s + 900
     then Ok (jsonwebtoken.mkPayload uid (Some r) "access" s (s + 900))
     else Throw (Error "Invalid or expired access token"))
  /\ jwt.verifyRefreshToken cfg check refresh
     = (if now check / 1000 <? s + 604800
        then Ok (jsonwebtoken.mkPayload uid None "refresh" s (s + 604800))
        else Throw (Error "Invalid or expired refresh token")).
Proof.
  unfold jwt.generateAccessToken, jwt.generateRefreshToken, jsonwebtoken.sign.
  destruct (signThrows issue); [discriminate |].
  intros Ha Hr. injection Ha as <-. injection Hr as <-.
  split.
  - destruct (now check / 1000 <? now issue / 1000 + 900) eqn:Hc.
    + apply Z.ltb_lt in Hc. apply verifyAccessToken_accepts; [exact Hc | reflexivity].
    + apply Z.ltb_ge in Hc. apply verifyAccessToken_rejects.
      right. left. simpl. unfold jwt.ACCESS_TOKEN_EXPIRY. lia.
  - destruct (now check / 1000 <? now issue / 1000 + 604800) eqn:Hc.
    + apply Z.ltb_lt in Hc. apply verifyRefreshToken_accepts; [exact Hc | reflexivity].
    + apply Z.ltb_ge in Hc. apply verifyRefreshToken_rejects.
      right. left. simpl. unfold jwt.REFRESH_TOKEN_EXPIRY. lia.
Qed.

(** Tokens issued at time 0, checked at 899.999 s. *)
Lemma token_lifetimes_witness :
  jwt.verifyAccessToken defaultConfig (calm 899999) aliceAccessToken
  = Ok (jsonwebtoken.mkPayload 1 (Some Role.user) "access" 0 900)
  /\ jwt.verifyRefreshToken defaultConfig (calm 899999) aliceRefreshToken
     = Ok (jsonwebtoken.mkPayload 1 None "refresh" 0 604800).
Proof.
  exact (token_lifetimes defaultConfig (calm 0) (calm 899999) 1%nat Role.user
           aliceAccessToken aliceRefreshToken eq_refl eq_refl).
Defined.

(** *** Optional authentication and roles *)

(** X3.  [authenticateOptional] never fails and never writes: it leaves
    in [req.user] exactly the user [authenticate] would accept, and
    nothing when [authenticate] would refuse the request. *)
Theorem authenticateOptional_agrees
        (cfg : Config) (env : Env) (h : option AuthHeader) (db : Mongo.Collection) :
  authorization.authenticateOptional cfg env h db
  = (Ok match middleware.authenticate cfg env h db with
        | (Ok u, _) => Some u
        | (Throw _, _) => None
        end, db).
Proof.
  unfold authorization.authenticateOptional, middleware.authenticate.
  destruct h as [[t | raw] |]; try reflexivity.
  run_db. destruct (jwt.verifyAccessToken cfg env t) as [p | e]; [| reflexivity].
  unfold Mongo.findById, Mongo.findOne.
  destruct (find (fun u => Nat.eqb (_id u) (jsonwebtoken.userId p)) db) as [u |];
    [| reflexivity].
  destruct (isActive u); simpl; [| reflexivity].
  destruct (UserMethods.changedPasswordAfter (jsonwebtoken.iat p) u); reflexivity.
Qed.

Lemma role_listed (roles : list string) (u : User) :
  existsb (fun r => String.eqb r (Role.name (role u))) roles = true
  <-> In (Role.name (role u)) roles.
Proof.
  rewrite existsb_exists. split.
  - intros (r & Hin & Heq). apply String.eqb_eq in Heq. subst r. exact Hin.
  - intros Hin. exists (Role.name (role u)). split; [exact Hin |].
    apply String.eqb_refl.
Qed.

(** X4.  Behind [authenticate] and [authorize(...roles)], the route runs
    exactly for an authenticated user whose role is among [roles];
    any other authenticated user is answered 403 AUTHORIZATION_ERROR and
    nothing is written; without [req.user], [authorize] reports the 401
    AuthenticationError. *)
Theorem authorize_by_role
        (cfg : Config) (env : Env) (h : option AuthHeader) (roles : list string)
        (route : User -> Mongo.DB Response) (u : User) (db : Mongo.Collection) :
  middleware.authenticate cfg env h db = (Ok u, db) ->
  (In (Role.name (role u)) roles ->
   authorization.restricted cfg env h roles route db = route u db)
  /\ (~ In (Role.name (role u)) roles ->
      authorization.restricted cfg env h roles route db
      = (Ok (mkResponse 403 (ErrorBody "Insufficient permissions"
                                       (CodeStr "AUTHORIZATION_ERROR") [])), db))
  /\ authorization.authorize roles None
     = Throw (errorHandler.AuthenticationError "Not authenticated").
Proof.
  intros Hauth. unfold authorization.restricted, middleware.guarded.
  rewrite Hauth. unfold authorization.authorize.
  split; [| split; [| reflexivity]].
  - intros Hin. apply role_listed in Hin. rewrite Hin. reflexivity.
  - intros Hout.
    destruct (existsb (fun r => String.eqb r (Role.name (role u))) roles) eqn:Hex.
    + apply role_listed in Hex. contradiction.
    + reflexivity.
Qed.

(** Alice, whose role is 'user', at a route for admins and moderators. *)
Lemma authorize_by_role_witness :
  authorization.restricted defaultConfig (calm 1000)
    (Some (Bearer aliceAccessToken)) ["admin"; "moderator"]
    (fun reqUser => Mongo.ret (mkResponse 200 (Profile (Serialise.toJSON reqUser))))
    [alice]
  = (Ok (mkResponse 403 (ErrorBody "Insufficient permissions"
                                   (CodeStr "AUTHORIZATION_ERROR") [])), [alice]).
Proof.
  refine (proj1 (proj2 (authorize_by_role defaultConfig (calm 1000)
                          (Some (Bearer aliceAccessToken)) ["admin"; "moderator"]
                          _ alice [alice] _)) _).
  - reflexivity.
  - simpl. intros [H | [H | []]]; discriminate H.
Defined.

(** *** The error handler *)

(** X5.  An error named JsonWebTokenError whose code is not 11000 is
    answered 401 AUTHENTICATION_ERROR "Invalid token", and one named
    TokenExpiredError whose code is not 11000 is answered 401
    AUTHENTICATION_ERROR "Token expired", whatever message and status
    the error carries: the library's own message is never sent. *)
Theorem jwt_errors_answered_401 (err : JsError) :
  err_code err <> Some (CodeNum 11000) ->
  (err_name err = "JsonWebTokenError" ->
   errorHandler.errorHandler err
   = mkResponse 401 (ErrorBody "Invalid token" (CodeStr "AUTHENTICATION_ERROR") []))
  /\ (err_name err = "TokenExpiredError" ->
      errorHandler.errorHandler err
      = mkResponse 401 (ErrorBody "Token expired" (CodeStr "AUTHENTICATION_ERROR") [])).
Proof.
  intros Hcode.
  assert (Hnot : errorHandler.codeIs11000 (err_code err) = false).
  { unfold errorHandler.codeIs11000.
    destruct (err_code err) as [[c | n] |]; try reflexivity.
    destruct (n =? 11000) eqn:Hn; [| reflexivity].
    apply Z.eqb_eq in Hn. subst n. contradiction Hcode. reflexivity. }
  unfold errorHandler.errorHandler. rewrite Hnot.
  split; intros Hname; rewrite Hname; reflexivity.
Qed.

Lemma jwt_errors_answered_401_witness :
  errorHandler.errorHandler (NamedError "TokenExpiredError" "jwt expired")
  = mkResponse 401 (ErrorBody "Token expired" (CodeStr "AUTHENTICATION_ERROR") []).
Proof.
  refine (proj2 (jwt_errors_answered_401 (NamedError "TokenExpiredError" "jwt expired")
                   _) eq_refl).
  discriminate.
Defined.

(** X6.  A MongoDB duplicate-key error (code 11000) that carries a
    [keyValue] with at least one key and is not named like a validation,
    cast or token error is answered 409 CONFLICT_ERROR with the message
    "<field> already exists" for the first key of [keyValue]. *)
Theorem duplicate_key_answered_409
        (err : JsError) (field value : string) (rest : list (string * string)) :
  err_code err = Some (CodeNum 11000) ->
  err_keyValue err = (field, value) :: rest ->
  err_name err <> "ValidationError" ->
  err_name err <> "CastError" ->
  err_name err <> "JsonWebTokenError" ->
  err_name err <> "TokenExpiredError" ->
  errorHandler.errorHandler err
  = mkResponse 409
      (ErrorBody (String.append field " already exists")
                 (CodeStr "CONFLICT_ERROR") []).
Proof.
  intros Hcode Hkeys Hval Hcast Hjwt Hexp. unfold errorHandler.errorHandler.
  rewrite Hcode. simpl.
  apply String.eqb_neq in Hcast, Hjwt, Hexp. rewrite Hcast, Hjwt, Hexp.
  unfold errorHandler.handleDuplicateKeyError, errorHandler.ConflictError,
    errorHandler.AppError. rewrite Hkeys. simpl.
  unfold errorHandler.messageOr.
  destruct field; reflexivity.
Qed.

Lemma duplicate_key_answered_409_witness :
  errorHandler.errorHandler (Mongo.duplicateKeyError "email" "alice@example.com")
  = mkResponse 409 (ErrorBody "email already exists" (CodeStr "CONFLICT_ERROR") []).
Proof.
  refine (duplicate_key_answered_409
            (Mongo.duplicateKeyError "email" "alice@example.com")
            "email" "alice@example.com" [] _ _ _ _ _ _).
  - reflexivity.
  - reflexivity.
  - discriminate.
  - discriminate.
  - discriminate.
  - discriminate.
Defined.

(** *** Linking and unlinking, continued *)

Lemma Provider_eqb_eq (a b : Provider) : Provider_eqb a b = true <-> a = b.
Proof. destruct a, b; simpl; split; intros H; try reflexivity; discriminate H. Qed.



Lemma updateFirst_length {A : Type} (p : A -> bool) (f : A -> A) (l : list A) :
  List.length (UserMethods.updateFirst p f l) = List.length l.
Proof.
  induction l as [| y l IH]; simpl; [reflexivity |].
  destruct (p y); simpl; [reflexivity | rewrite IH; reflexivity].
Qed.


Lemma updateFirst_others {A : Type} (p : A -> bool) (f : A -> A) (l : list A) :
  (forall x, p x = true -> p (f x) = true) ->
  filter (fun x => negb (p x)) (UserMethods.updateFirst p f l)
  = filter (fun x => negb (p x)) l.
Proof.
  intros Hkeep. induction l as [| y l IH]; simpl; [reflexivity |].
  destruct (p y) eqn:Hy; simpl.
  - rewrite (Hkeep y Hy). simpl. reflexivity.
  - rewrite Hy. simpl. rewrite IH. reflexivity.
Qed.

Lemma updateFirst_map {A B : Type} (p : A -> bool) (f : A -> A) (g : A -> B)
      (l : list A) :
  (forall x, g (f x) = g x) ->
  map g (UserMethods.updateFirst p f l) = map g l.
Proof.
  intros Hg. induction l as [| y l IH]; simpl; [reflexivity |].
  destruct (p y); simpl; [rewrite Hg | rewrite IH]; reflexivity.
Qed.

Lemma provider_not_listed (p : Provider) (l : list OAuthEntry.t) :
  find (fun e => Provider_eqb (OAuthEntry.provider e) p) l = None ->
  ~ In p (map OAuthEntry.provider l).
Proof.
  intros Hnone Hin. apply in_map_iff in Hin. destruct Hin as (e & Hp & Hin).
  apply (find_none _ _ Hnone) in Hin. subst p.
  assert (H : Provider_eqb (OAuthEntry.provider e) (OAuthEntry.provider e) = true)
    by (apply Provider_eqb_eq; reflexivity).
  congruence.
Qed.

Lemma others_of_absent (p : Provider) (l : list OAuthEntry.t) :
  find (fun e => Provider_eqb (OAuthEntry.provider e) p) l = None ->
  filter (fun e => negb (Provider_eqb (OAuthEntry.provider e) p)) l = l.
Proof.
  induction l as [| y l IH]; simpl; [reflexivity |].
  destruct (Provider_eqb (OAuthEntry.provider y) p); simpl; [discriminate |].
  intros H. rewrite (IH H). reflexivity.
Qed.

(** The list of entries [linkOAuthProvider] leaves. *)
Lemma linked_providers (env : Env) (provider : Provider)
      (profile : LinkProfile.t) (u : User) :
  oauthProviders (UserMethods.linkOAuthProvider env provider profile u)
  = match find (fun e => Provider_eqb (OAuthEntry.provider e) provider)
               (oauthProviders u) with
    | Some _ =>
        UserMethods.updateFirst
          (fun e => Provider_eqb (OAuthEntry.provider e) provider)
          (fun e => OAuthEntry.mk (OAuthEntry.provider e)
                      (LinkProfile.id profile) (Some (LinkProfile.email profile))
                      (LinkProfile.displayName profile) (LinkProfile.avatar profile)
                      (OAuthEntry.accessToken e) (OAuthEntry.refreshToken e)
                      (OAuthEntry.connectedAt e))
          (oauthProviders u)
    | None =>
        oauthProviders u ++
          [OAuthEntry.mk provider (LinkProfile.id profile)
                         (Some (LinkProfile.email profile))
                         (LinkProfile.displayName profile)
                         (LinkProfile.avatar profile) None None (now env)]
    end.
Proof.
  unfold UserMethods.linkOAuthProvider.
  destruct (find _ (oauthProviders u)); destruct provider;
    destruct (negb (truthy _) && truthy _), (LinkProfile.emailVerified profile);
    reflexivity.
Qed.

Lemma link_same_account (env : Env) (provider : Provider)
      (profile : LinkProfile.t) (u : User) :
  sameAccount u (UserMethods.linkOAuthProvider env provider profile u).
Proof.
  unfold UserMethods.linkOAuthProvider, sameAccount.
  destruct (find _ (oauthProviders u)); destruct provider;
    destruct (negb (truthy _) && truthy _), (LinkProfile.emailVerified profile);
    simpl; repeat split.
Qed.

(** X8.  Linking a provider touches that provider only: the entries of
    the other providers and their id fields are as before, the user's
    identity, credentials and status are as before, the list grows by at
    most one entry, and a user with at most one entry per provider stays
    so. *)
Theorem link_touches_one_provider
        (env : Env) (provider : Provider) (profile : LinkProfile.t) (u : User) :
  let u' := UserMethods.linkOAuthProvider env provider profile u in
  sameAccount u u'
  /\ otherProviders provider u' = otherProviders provider u
  /\ (forall q, q <> provider -> providerIdField q u' = providerIdField q u)
  /\ (List.length (oauthProviders u') <= S (List.length (oauthProviders u)))%nat
  /\ (oneEntryPerProvider u -> oneEntryPerProvider u').
Proof.
  intros u'. subst u'.
  split; [apply link_same_account |].
  split; [| split; [| split]].
  - unfold otherProviders. rewrite linked_providers.
    destruct (find _ (oauthProviders u)) eqn:Hfind.
    + apply updateFirst_others. intros x Hx. exact Hx.
    + rewrite filter_app. simpl.
      assert (Hself : Provider_eqb provider provider = true)
        by (apply Provider_eqb_eq; reflexivity).
      rewrite Hself. simpl. apply app_nil_r.
  - intros q Hq. unfold UserMethods.linkOAuthProvider.
    destruct (find _ (oauthProviders u)); destruct provider, q;
      try (exfalso; apply Hq; reflexivity);
      destruct (negb (truthy _) && truthy _), (LinkProfile.emailVerified profile);
      reflexivity.
  - rewrite linked_providers. destruct (find _ (oauthProviders u)).
    + rewrite updateFirst_length. lia.
    + rewrite length_app. simpl. lia.
  - unfold oneEntryPerProvider. rewrite linked_providers.
    destruct (find _ (oauthProviders u)) eqn:Hfind; intros Hone.
    + rewrite updateFirst_map; [exact Hone | reflexivity].
    + rewrite map_app. simpl.
      apply NoDup_app; [exact Hone | repeat constructor; intros [] |].
      intros q Hq [Heq | []]. subst q.
      exact (provider_not_listed provider _ Hfind Hq).
Qed.

(** Alice, linked to GitHub, links Google. *)
Lemma link_touches_one_provider_witness :
  oneEntryPerProvider
    (UserMethods.linkOAuthProvider (calm 5000) google
       (LinkProfile.mk "g-7" "alice@example.com" (Some "Alice") None false)
       aliceWithGithub41).
Proof.
  refine (proj2 (proj2 (proj2 (proj2
            (link_touches_one_provider (calm 5000) google
               (LinkProfile.mk "g-7" "alice@example.com" (Some "Alice") None false)
               aliceWithGithub41)))) _).
  unfold oneEntryPerProvider. simpl.
  apply NoDup_cons; [intros [] | apply NoDup_nil].
Defined.

(** X9.  Unlinking removes every entry of the provider and clears its id
    field, and nothing else: the other providers' entries and id fields,
    the avatar, the verification flag and the rest of the account are as
    before; unlinking twice is unlinking once. *)
Theorem unlink_removes_one_provider (provider : Provider) (u : User) :
  let u' := UserMethods.unlinkOAuthProvider provider u in
  oauthProviders u' = otherProviders provider u
  /\ (forall e, In e (oauthProviders u') -> OAuthEntry.provider e <> provider)
  /\ providerIdField provider u' = None
  /\ (forall q, q <> provider -> providerIdField q u' = providerIdField q u)
  /\ sameAccount u u'
  /\ avatar u' = avatar u
  /\ isVerified u' = isVerified u
  /\ UserMethods.unlinkOAuthProvider provider u' = u'.
Proof.
  intros u'. subst u'. unfold UserMethods.unlinkOAuthProvider, otherProviders.
  split; [destruct provider; reflexivity |].
  split.
  { intros e Hin Heq.
    assert (Hin' : In e (filter (fun e => negb (Provider_eqb (OAuthEntry.provider e)
                                                             provider))
                                (oauthProviders u)))
      by (destruct provider; exact Hin).
    apply filter_In in Hin'. destruct Hin' as [_ Hneg].
    apply Provider_eqb_eq in Heq. rewrite Heq in Hneg. discriminate. }
  split; [destruct provider; reflexivity |].
  split.
  { intros q Hq. destruct provider, q; try reflexivity; exfalso; apply Hq; reflexivity. }
  split; [unfold sameAccount; destruct provider; simpl; repeat split |].
  split; [destruct provider; reflexivity |].
  split; [destruct provider; reflexivity |].
  destruct u as [i em nm av pw gid ghid aid provs rl ver act rts ll pca v].
  assert (Hff : forall l : list OAuthEntry.t,
             filter (fun e => negb (Provider_eqb (OAuthEntry.provider e) provider))
               (filter (fun e => negb (Provider_eqb (OAuthEntry.provider e) provider)) l)
             = filter (fun e => negb (Provider_eqb (OAuthEntry.provider e) provider)) l).
  { induction l as [| y l IH]; simpl; [reflexivity |].
    destruct (Provider_eqb (OAuthEntry.provider y) provider) eqn:Hy; simpl.
    - exact IH.
    - rewrite Hy. simpl. rewrite IH. reflexivity. }
  destruct provider; simpl; rewrite Hff; reflexivity.
Qed.

(** Bob unlinks GitHub: his (empty) Google id field is as before. *)
Lemma unlink_removes_one_provider_witness :
  providerIdField google (UserMethods.unlinkOAuthProvider github githubOnly)
  = providerIdField google githubOnly.
Proof.
  refine (proj1 (proj2 (proj2 (proj2
            (unlink_removes_one_provider github githubOnly)))) google _).
  discriminate.
Defined.

(** X10.  Linking a provider the user had no entry for and unlinking it
    again gives back the list of identities and an empty id field, but
    not the verification: once the provider vouched for the email the
    user stays verified. *)
Theorem unlink_after_link
        (env : Env) (provider : Provider) (profile : LinkProfile.t) (u : User) :
  find (fun e => Provider_eqb (OAuthEntry.provider e) provider) (oauthProviders u)
  = None ->
  let u' := UserMethods.unlinkOAuthProvider provider
              (UserMethods.linkOAuthProvider env provider profile u) in
  oauthProviders u' = oauthProviders u
  /\ providerIdField provider u' = None
  /\ isVerified u' = (LinkProfile.emailVerified profile || isVerified u)%bool
  /\ sameAccount u u'.
Proof.
  intros Hnone u'. subst u'.
  pose proof (link_new_provider env provider profile u Hnone) as (_ & Hprovs & _ & Hver).
  pose proof (link_same_account env provider profile u) as Hsame.
  assert (Hself : Provider_eqb provider provider = true)
    by (apply Provider_eqb_eq; reflexivity).
  assert (Hlist : oauthProviders
                    (UserMethods.unlinkOAuthProvider provider
                       (UserMethods.linkOAuthProvider env provider profile u))
                  = oauthProviders u).
  { unfold UserMethods.unlinkOAuthProvider.
    transitivity (filter (fun e => negb (Provider_eqb (OAuthEntry.provider e) provider))
                    (oauthProviders
                       (UserMethods.linkOAuthProvider env provider profile u)));
      [destruct provider; reflexivity |].
    rewrite Hprovs, filter_app. simpl. rewrite Hself. simpl.
    rewrite app_nil_r. apply others_of_absent. exact Hnone. }
  split; [exact Hlist |].
  split; [unfold UserMethods.unlinkOAuthProvider; destruct provider; reflexivity |].
  split.
  - rewrite <- Hver. unfold UserMethods.unlinkOAuthProvider.
    destruct provider; reflexivity.
  - unfold sameAccount in *. unfold UserMethods.unlinkOAuthProvider.
    destruct provider; simpl; exact Hsame.
Qed.

(** Alice links GitHub subject 42 and unlinks GitHub again. *)
Lemma unlink_after_link_witness :
  let u' := UserMethods.unlinkOAuthProvider github
              (UserMethods.linkOAuthProvider (calm 5000) github
                 (LinkProfile.mk "42" "alice@example.com" (Some "Alice") None true)
                 alice) in
  oauthProviders u' = [] /\ githubId u' = None /\ isVerified u' = true.
Proof.
  pose proof (unlink_after_link (calm 5000) github
                (LinkProfile.mk "42" "alice@example.com" (Some "Alice") None true)
                alice eq_refl) as (H1 & H2 & H3 & _).
  split; [exact H1 | split; [exact H2 | exact H3]].
Defined.

(** *** Refresh tokens, continued *)

(** X11.  Whatever the user holds, even more than five entries,
    [addRefreshToken] leaves the (at most) four youngest entries in
    their order followed by the new one, and touches no other field of
    the user. *)
Theorem addRefreshToken_keeps_youngest
        (env : Env) (token : jsonwebtoken.Token) (expiresIn : Z)
        (device ipAddress : option string) (u : User) :
  let u' := UserMethods.addRefreshToken env token expiresIn device ipAddress u in
  refreshTokens u'
  = UserMethods.sliceLast 4 (refreshTokens u)
      ++ [RefreshEntry.mk token (now env) (now env + expiresIn * 1000) device ipAddress]
  /\ List.length (refreshTokens u')
     = Nat.min (S (List.length (refreshTokens u))) 5
  /\ In token (heldTokens u')
  /\ u' = set_refreshTokens (refreshTokens u') u.
Proof.
  intros u'. subst u'.
  set (new := RefreshEntry.mk token (now env) (now env + expiresIn * 1000)
                              device ipAddress).
  assert (Hlist : refreshTokens
                    (UserMethods.addRefreshToken env token expiresIn device ipAddress u)
                  = UserMethods.sliceLast 4 (refreshTokens u) ++ [new]).
  { unfold UserMethods.addRefreshToken, UserMethods.sliceLast. fold new.
    rewrite length_app. simpl.
    destruct (5 <? List.length (refreshTokens u) + 1)%nat eqn:Hlen; simpl.
    - apply Nat.ltb_lt in Hlen.
      rewrite skipn_app.
      replace (List.length (refreshTokens u) + 1 - 5)%nat
        with (List.length (refreshTokens u) - 4)%nat by lia.
      replace (List.length (refreshTokens u) - 4 - List.length (refreshTokens u))%nat
        with 0%nat by lia.
      reflexivity.
    - apply Nat.ltb_ge in Hlen.
      replace (List.length (refreshTokens u) - 4)%nat with 0%nat by lia.
      reflexivity. }
  split; [exact Hlist |]. split; [| split].
  - rewrite Hlist, length_app. unfold UserMethods.sliceLast.
    rewrite length_skipn. simpl. lia.
  - unfold heldTokens. rewrite Hlist, map_app. apply in_or_app. right. left.
    reflexivity.
  - unfold UserMethods.addRefreshToken.
    destruct (5 <? _)%nat; reflexivity.
Qed.

(** *** The collection under the routes *)

Lemma same_key_same_document (db : Mongo.Collection) (a b : User) :
  NoDup (map _id db) -> In a db -> In b db -> _id a = _id b -> a = b.
Proof.
  induction db as [| d db IH]; simpl; intros Hnd Ha Hb Hid; [contradiction |].
  inversion Hnd as [| x l Hnotin Hnd']; subst.
  destruct Ha as [-> | Ha], Hb as [-> | Hb].
  - reflexivity.
  - exfalso. apply Hnotin. rewrite Hid. apply in_map. exact Hb.
  - exfalso. apply Hnotin. rewrite <- Hid. apply in_map. exact Ha.
  - apply IH; assumption.
Qed.

Lemma written_ids (u : User) (db : Mongo.Collection) :
  map _id (written u db) = map _id db.
Proof.
  unfold written. rewrite map_map. apply map_ext. intros d.
  destruct (Nat.eqb (_id d) (_id u)) eqn:Hd; [| reflexivity].
  apply Nat.eqb_eq in Hd. symmetry. exact Hd.
Qed.

Lemma written_emails (u stored : User) (db : Mongo.Collection) :
  NoDup (map _id db) -> In stored db ->
  _id u = _id stored -> email u = email stored ->
  map email (written u db) = map email db.
Proof.
  intros Hnd Hin Hid Hmail. unfold written. rewrite map_map.
  apply map_ext_in. intros d Hd.
  destruct (Nat.eqb (_id d) (_id u)) eqn:Heq; [| reflexivity].
  apply Nat.eqb_eq in Heq.
  assert (d = stored) by (apply (same_key_same_document db); congruence).
  subst d. exact Hmail.
Qed.

Lemma keyed_write_keeps_keys (db db' : Mongo.Collection) :
  KeyedWrite db db' -> wellKeyed db -> wellKeyed db'.
Proof.
  induction 1 as [db | db stored u Hin Hid Hmail | db doc Hid Hmail
                  | db db1 db2 _ IH1 _ IH2]; intros [Hids Hmails].
  - split; assumption.
  - split.
    + rewrite written_ids. exact Hids.
    + rewrite (written_emails u stored db Hids Hin Hid Hmail). exact Hmails.
  - split; rewrite map_app; simpl.
    + apply NoDup_app; [exact Hids | repeat constructor; intros [] |].
      intros x Hx [Heq | []]. subst x. exact (Hid Hx).
    + apply NoDup_app; [exact Hmails | repeat constructor; intros [] |].
      intros x Hx [Heq | []]. subst x. exact (Hmail Hx).
  - apply IH2, IH1. split; assumption.
Qed.

Lemma freshId_above (db : Mongo.Collection) (d : User) :
  In d db -> (_id d < Mongo.freshId db)%nat.
Proof.
  unfold Mongo.freshId. induction db as [| x db IH]; simpl; [contradiction |].
  intros [-> | Hin].
  - lia.
  - specialize (IH Hin). lia.
Qed.

Lemma freshId_is_new (db : Mongo.Collection) :
  ~ In (Mongo.freshId db) (map _id db).
Proof.
  intros Hin. apply in_map_iff in Hin. destruct Hin as (d & Hid & Hin).
  pose proof (freshId_above db d Hin). lia.
Qed.

Lemma email_not_stored (m : string) (db : Mongo.Collection) :
  find (fun d => String.eqb (email d) m) db = None -> ~ In m (map email db).
Proof.
  intros Hnone Hin. apply in_map_iff in Hin. destruct Hin as (d & Hm & Hin).
  apply (find_none _ _ Hnone) in Hin. subst m. rewrite String.eqb_refl in Hin.
  discriminate.
Qed.

(** A successful [User.create] is an insertion under a new [_id] and a
    new [email]. *)
Lemma create_inserts (env : Env) (n : Mongo.NewUser) (doc : User)
      (db db' : Mongo.Collection) :
  Mongo.create env n db = (Ok doc, db') ->
  doc = Mongo.newDocument (Mongo.freshId db) n
  /\ db' = db ++ [doc]
  /\ Mongo.validate n = None
  /\ createRejects env = false
  /\ ~ In (_id doc) (map _id db)
  /\ ~ In (email doc) (map email db).
Proof.
  unfold Mongo.create.
  destruct (Mongo.validate n); [discriminate |].
  destruct (createRejects env); [discriminate |].
  unfold Mongo.duplicate.
  destruct (existsb (fun d => String.eqb (email d) (Mongo.new_email n)) db) eqn:Hmail;
    [discriminate |].
  destruct (existsb (fun d => Mongo.sameId (googleId d) _) db); [discriminate |].
  destruct (existsb (fun d => Mongo.sameId (githubId d) _) db); [discriminate |].
  destruct (existsb (fun d => Mongo.sameId (appleId d) _) db); [discriminate |].
  cbv beta iota zeta. intros H. injection H as <- <-.
  repeat split; try reflexivity.
  - simpl. apply freshId_is_new.
  - simpl. intros Hin. apply in_map_iff in Hin. destruct Hin as (d & Hm & Hin).
    assert (Hex : existsb (fun d => String.eqb (email d) (Mongo.new_email n)) db = true).
    { apply existsb_exists. exists d. split; [exact Hin |].
      rewrite Hm. apply String.eqb_refl. }
    congruence.
Qed.

Lemma create_failure_writes_nothing (env : Env) (n : Mongo.NewUser) (e : JsError)
      (db db' : Mongo.Collection) :
  Mongo.create env n db = (Throw e, db') -> db' = db.
Proof.
  unfold Mongo.create.
  destruct (Mongo.validate n); [intros H; injection H as _ <-; reflexivity |].
  destruct (createRejects env); [intros H; injection H as _ <-; reflexivity |].
  destruct (Mongo.duplicate n db); [intros H; injection H as _ <-; reflexivity |].
  discriminate.
Qed.

(** [save] either is rejected and writes nothing, or writes [u]. *)
Lemma save_cases (env : Env) (u : User) (db : Mongo.Collection) :
  Mongo.save env u db = (Throw Mongo.databaseError, db) /\ saveRejects env = true
  \/ Mongo.save env u db = (Ok tt, written u db) /\ saveRejects env = false.
Proof.
  unfold Mongo.save, written. destruct (saveRejects env); [left | right];
    split; reflexivity.
Qed.

Lemma find_by_id_in (id : nat) (u : User) (db : Mongo.Collection) :
  find (fun d => Nat.eqb (_id d) id) db = Some u -> In u db /\ _id u = id.
Proof.
  intros H. apply find_some in H. destruct H as [Hin Hid].
  apply Nat.eqb_eq in Hid. split; assumption.
Qed.

Lemma save_is_keyed (env : Env) (stored u : User) (db db' : Mongo.Collection)
      (r : Result unit) :
  In stored db -> _id u = _id stored -> email u = email stored ->
  Mongo.save env u db = (r, db') -> KeyedWrite db db'.
Proof.
  intros Hin Hid Hmail. unfold Mongo.save.
  destruct (saveRejects env); intros H; injection H as _ <-.
  - apply NoWrite.
  - apply (SaveOver db stored u Hin Hid Hmail).
Qed.

Lemma addRefreshToken_fields (env : Env) (token : jsonwebtoken.Token) (expiresIn : Z)
      (device ipAddress : option string) (u : User) :
  let u' := UserMethods.addRefreshToken env token expiresIn device ipAddress u in
  _id u' = _id u /\ email u' = email u /\ role u' = role u
  /\ isActive u' = isActive u /\ password u' = password u
  /\ passwordChangedAt u' = passwordChangedAt u.
Proof.
  unfold UserMethods.addRefreshToken. destruct (5 <? _)%nat; simpl; repeat split.
Qed.

Lemma register_keyed (cfg : Config) (env : Env) (req : Request) (db : Mongo.Collection) :
  KeyedWrite db (snd (routes.register cfg env req db)).
Proof.
  unfold routes.register, Mongo.catch.
  destruct (negb (routes.isEmpty (validationErrors req))); [apply NoWrite |].
  unfold Mongo.bindDB at 1. unfold Mongo.findOne.
  destruct (find _ db); [apply NoWrite |].
  unfold Mongo.bindDB at 1.
  destruct (Mongo.create env _ db) as [[doc | e] db1] eqn:Hcreate.
  - apply create_inserts in Hcreate.
    destruct Hcreate as (_ & -> & _ & _ & Hid & Hmail).
    assert (Hins : KeyedWrite db (db ++ [doc])) by (apply Insert; assumption).
    unfold Mongo.bindDB, Mongo.lift, jwt.generateAccessToken,
      jwt.generateRefreshToken, jsonwebtoken.sign.
    destruct (signThrows env); [exact Hins |].
    match goal with
    | |- context [Mongo.save env ?u ?d] =>
        destruct (Mongo.save env u d) as [[[] | e] db2] eqn:Hsave;
        apply (save_is_keyed env doc) in Hsave;
        try (apply in_or_app; right; left; reflexivity);
        try apply addRefreshToken_fields
    end; simpl; exact (Then _ _ _ Hins Hsave).
  - apply create_failure_writes_nothing in Hcreate. subst db1. apply NoWrite.
Qed.

Lemma login_keyed (cfg : Config) (env : Env) (req : Request) (db : Mongo.Collection) :
  KeyedWrite db (snd (routes.login cfg env req db)).
Proof.
  unfold routes.login, Mongo.catch.
  destruct (negb (routes.isEmpty (validationErrors req))); [apply NoWrite |].
  unfold Mongo.bindDB at 1. unfold Mongo.findOne.
  destruct (find _ db) as [u |] eqn:Hfind; [| apply NoWrite].
  apply find_some in Hfind. destruct Hfind as [Hin _].
  destruct (negb (UserMethods.comparePassword (body_password req) u));
    [apply NoWrite |].
  destruct (negb (isActive u)); [apply NoWrite |].
  unfold Mongo.bindDB, Mongo.lift, jwt.generateAccessToken,
    jwt.generateRefreshToken, jsonwebtoken.sign.
  destruct (signThrows env); [apply NoWrite |].
  match goal with
  | |- context [Mongo.save env ?v ?d] =>
      destruct (Mongo.save env v d) as [[[] | e] db2] eqn:Hsave;
      apply (save_is_keyed env u) in Hsave;
      try exact Hin;
      try (simpl; apply addRefreshToken_fields)
  end; simpl; exact Hsave.
Qed.

Lemma refresh_keyed (cfg : Config) (env : Env) (req : Request) (db : Mongo.Collection) :
  KeyedWrite db (snd (routes.refresh cfg env req db)).
Proof.
  unfold routes.refresh, Mongo.catch.
  destruct (routes.given (body_refreshToken req)) as [t |]; [| apply NoWrite].
  unfold Mongo.bindDB at 1. unfold Mongo.lift.
  destruct (jwt.verifyRefreshToken cfg env t) as [p | e]; [| apply NoWrite].
  unfold Mongo.bindDB at 1. unfold Mongo.findById, Mongo.findOne.
  destruct (find _ db) as [u |] eqn:Hfind; [| apply NoWrite].
  apply find_some in Hfind. destruct Hfind as [Hin _].
  destruct (negb (isActive u)); [apply NoWrite |].
  destruct (negb (existsb _ (refreshTokens u))); [apply NoWrite |].
  unfold Mongo.bindDB at 1.
  destruct (Mongo.save env (UserMethods.cleanupExpiredTokens env u) db)
    as [[[] | e] db2] eqn:Hsave;
    apply (save_is_keyed env u) in Hsave; try exact Hin; try reflexivity.
  - unfold Mongo.bindDB, Mongo.lift, jwt.generateAccessToken, jsonwebtoken.sign.
    destruct (signThrows env); exact Hsave.
  - exact Hsave.
Qed.

Lemma authenticate_reads_only (cfg : Config) (env : Env) (h : option AuthHeader)
      (db : Mongo.Collection) :
  snd (middleware.authenticate cfg env h db) = db
  /\ forall u, fst (middleware.authenticate cfg env h db) = Ok u -> In u db.
Proof.
  unfold middleware.authenticate.
  destruct h as [[t | raw] |]; try (split; [reflexivity | discriminate]).
  run_db. destruct (jwt.verifyAccessToken cfg env t) as [p | e];
    [| split; [reflexivity | discriminate]].
  unfold Mongo.findById, Mongo.findOne.
  destruct (find _ db) as [u |] eqn:Hfind; [| split; [reflexivity | discriminate]].
  apply find_some in Hfind. destruct Hfind as [Hin _].
  destruct (isActive u); simpl; [| split; [reflexivity | discriminate]].
  destruct (UserMethods.changedPasswordAfter _ u); simpl;
    split; try reflexivity; try discriminate.
  intros v Hv. injection Hv as <-. exact Hin.
Qed.

Lemma logout_keyed (cfg : Config) (env : Env) (req : Request) (db : Mongo.Collection) :
  KeyedWrite db (snd (routes.logout cfg env req db)).
Proof.
  unfold routes.logout, middleware.guarded.
  pose proof (authenticate_reads_only cfg env (authorization req) db) as [Hdb Hin].
  destruct (middleware.authenticate cfg env (authorization req) db) as [[u | e] db1];
    simpl in Hdb; subst db1; [| apply NoWrite].
  specialize (Hin u eq_refl).
  unfold Mongo.catch, Mongo.bindDB.
  destruct (routes.given (body_refreshToken req)) as [t |]; [| apply NoWrite].
  destruct (Mongo.save env (UserMethods.removeRefreshToken t u) db)
    as [[[] | e] db2] eqn:Hsave;
    apply (save_is_keyed env u) in Hsave; try exact Hin; try reflexivity;
    exact Hsave.
Qed.

Lemma updateProfile_keyed (cfg : Config) (env : Env) (req : Request)
      (db : Mongo.Collection) :
  KeyedWrite db (snd (profileRoute.updateProfile cfg env req db)).
Proof.
  unfold profileRoute.updateProfile, middleware.guarded.
  pose proof (authenticate_reads_only cfg env (authorization req) db) as [Hdb Hin].
  destruct (middleware.authenticate cfg env (authorization req) db) as [[u | e] db1];
    simpl in Hdb; subst db1; [| apply NoWrite].
  specialize (Hin u eq_refl).
  unfold Mongo.catch.
  destruct (negb (routes.isEmpty (validationErrors req))); [apply NoWrite |].
  unfold Mongo.bindDB.
  match goal with
  | |- context [Mongo.save env ?v ?d] =>
      destruct (Mongo.save env v d) as [[[] | e] db2] eqn:Hsave;
      apply (save_is_keyed env u) in Hsave;
      try exact Hin;
      try (destruct (negb (String.eqb (body_name req) "")); reflexivity)
  end; exact Hsave.
Qed.

(** X12.  The routes keep the collection's keys: starting from a
    collection with one document per [_id] and per [email], whatever
    [register], [login], [refresh], [logout] and the profile update are
    asked, and whatever fails on the way, the collection they leave has
    one document per [_id] and per [email] again. *)
Theorem routes_keep_keys_unique
        (cfg : Config) (env : Env) (req : Request) (db : Mongo.Collection) :
  wellKeyed db ->
  wellKeyed (snd (routes.register cfg env req db))
  /\ wellKeyed (snd (routes.login cfg env req db))
  /\ wellKeyed (snd (routes.refresh cfg env req db))
  /\ wellKeyed (snd (routes.logout cfg env req db))
  /\ wellKeyed (snd (profileRoute.updateProfile cfg env req db)).
Proof.
  intros Hkeys. repeat split.
  - exact (proj1 (keyed_write_keeps_keys _ _ (register_keyed cfg env req db) Hkeys)).
  - exact (proj2 (keyed_write_keeps_keys _ _ (register_keyed cfg env req db) Hkeys)).
  - exact (proj1 (keyed_write_keeps_keys _ _ (login_keyed cfg env req db) Hkeys)).
  - exact (proj2 (keyed_write_keeps_keys _ _ (login_keyed cfg env req db) Hkeys)).
  - exact (proj1 (keyed_write_keeps_keys _ _ (refresh_keyed cfg env req db) Hkeys)).
  - exact (proj2 (keyed_write_keeps_keys _ _ (refresh_keyed cfg env req db) Hkeys)).
  - exact (proj1 (keyed_write_keeps_keys _ _ (logout_keyed cfg env req db) Hkeys)).
  - exact (proj2 (keyed_write_keeps_keys _ _ (logout_keyed cfg env req db) Hkeys)).
  - exact (proj1 (keyed_write_keeps_keys _ _ (updateProfile_keyed cfg env req db) Hkeys)).
  - exact (proj2 (keyed_write_keeps_keys _ _ (updateProfile_keyed cfg env req db) Hkeys)).
Qed.

(** Alice's collection after her registration, and her login. *)
Lemma routes_keep_keys_unique_witness :
  wellKeyed (snd (routes.login defaultConfig (calm 6000) (loginAlice "Secret123!")
                    registered)).
Proof.
  refine (proj1 (proj2 (routes_keep_keys_unique defaultConfig (calm 6000)
                          (loginAlice "Secret123!") registered _))).
  split; simpl; (apply NoDup_cons; [intros [] | apply NoDup_nil]).
Defined.

(** *** Registration, continued *)

Lemma find_appended {A : Type} (p : A -> bool) (l : list A) (x : A) :
  find p l = None -> find p (l ++ [x]) = if p x then Some x else None.
Proof.
  intros Hnone. induction l as [| y l IH]; simpl in *; [reflexivity |].
  destruct (p y); [discriminate | exact (IH Hnone)].
Qed.

Lemma find_by_new_id (db : Mongo.Collection) (id : nat) :
  ~ In id (map _id db) -> find (fun d => Nat.eqb (_id d) id) db = None.
Proof.
  intros Hnew. destruct (find _ db) as [d |] eqn:Hfind; [| reflexivity].
  apply find_by_id_in in Hfind. destruct Hfind as [Hin Hid].
  exfalso. apply Hnew. rewrite <- Hid. apply in_map. exact Hin.
Qed.

Lemma written_appended (db : Mongo.Collection) (doc saved : User) :
  ~ In (_id doc) (map _id db) -> _id saved = _id doc ->
  written saved (db ++ [doc]) = db ++ [saved].
Proof.
  intros Hnew Hid. unfold written. rewrite map_app. simpl.
  rewrite Hid, Nat.eqb_refl. f_equal.
  rewrite <- (map_id db) at 2. apply map_ext_in. intros d Hin.
  destruct (Nat.eqb (_id d) (_id doc)) eqn:Hd; [| reflexivity].
  apply Nat.eqb_eq in Hd. exfalso. apply Hnew. rewrite <- Hd. apply in_map. exact Hin.
Qed.

(** What [POST /register] does when nothing stands in its way. *)
Lemma register_succeeds (cfg : Config) (env : Env) (req : Request)
      (db : Mongo.Collection) :
  validationErrors req = [] ->
  find (fun d => String.eqb (email d) (body_email req)) db = None ->
  Mongo.validate (Mongo.mkNewUser (body_email req) (Some (body_name req))
                    (Some (body_password req)) None None None None false []) = None ->
  createRejects env = false -> signThrows env = false -> saveRejects env = false ->
  let access :=
    jsonwebtoken.Signed
      (jsonwebtoken.mkPayload (Mongo.freshId db) (Some Role.user) "access"
         (now env / 1000) (now env / 1000 + 900)) (ACCESS_TOKEN_SECRET cfg) in
  let refresh :=
    jsonwebtoken.Signed
      (jsonwebtoken.mkPayload (Mongo.freshId db) None "refresh"
         (now env / 1000) (now env / 1000 + 604800)) (REFRESH_TOKEN_SECRET cfg) in
  let saved :=
    mkUser (Mongo.freshId db) (body_email req) (body_name req) None
           (Some (bcrypt.hash 12 (body_password req))) None None None []
           Role.user false true
           [RefreshEntry.mk refresh (now env) (now env + 604800 * 1000)
                            (userAgent req) (ip req)]
           None None 0 in
  routes.register cfg env req db
  = (Ok (mkResponse 201 (Session (Serialise.toJSON saved) access refresh 900)),
     db ++ [saved]).
Proof.
  intros Hvalid Hfind Hschema Hcreate Hsign Hsave access refresh saved.
  set (n := Mongo.mkNewUser (body_email req) (Some (body_name req))
                            (Some (body_password req)) None None None None false []) in *.
  assert (Hcreated : Mongo.create env n db
                     = (Ok (Mongo.newDocument (Mongo.freshId db) n),
                        db ++ [Mongo.newDocument (Mongo.freshId db) n])).
  { unfold Mongo.create. rewrite Hschema, Hcreate.
    unfold Mongo.duplicate. subst n. simpl.
    rewrite (find_none_existsb _ _ Hfind).
    rewrite !no_provider_id_clashes. reflexivity. }
  unfold routes.register, Mongo.catch, Mongo.bindDB, Mongo.findOne.
  rewrite Hvalid. simpl. rewrite Hfind. fold n. rewrite Hcreated.
  unfold Mongo.lift, jwt.generateAccessToken, jwt.generateRefreshToken,
    jsonwebtoken.sign, Mongo.save, Mongo.ret.
  rewrite Hsign, Hsave.
  change (map _ (db ++ [Mongo.newDocument (Mongo.freshId db) n]))
    with (written saved (db ++ [Mongo.newDocument (Mongo.freshId db) n])).
  rewrite (written_appended db (Mongo.newDocument (Mongo.freshId db) n) saved
             (freshId_is_new db) eq_refl).
  reflexivity.
Qed.

(** X13.  A registration that passes validation for an email not yet
    stored, with nothing failing, answers 201 and appends exactly one
    user: role 'user', active, not verified, the password stored as a
    12-round hash, holding the issued refresh token and nothing else.
    The access token of the answer is accepted on [GET /me] in every
    second before its expiry, and [GET /me] shows the same user view as
    the answer did. *)
Theorem register_creates_usable_account
        (cfg : Config) (env later : Env) (req req' : Request) (db : Mongo.Collection) :
  validationErrors req = [] ->
  find (fun d => String.eqb (email d) (body_email req)) db = None ->
  Mongo.validate (Mongo.mkNewUser (body_email req) (Some (body_name req))
                    (Some (body_password req)) None None None None false []) = None ->
  createRejects env = false -> signThrows env = false -> saveRejects env = false ->
  let access :=
    jsonwebtoken.Signed
      (jsonwebtoken.mkPayload (Mongo.freshId db) (Some Role.user) "access"
         (now env / 1000) (now env / 1000 + 900)) (ACCESS_TOKEN_SECRET cfg) in
  let refresh :=
    jsonwebtoken.Signed
      (jsonwebtoken.mkPayload (Mongo.freshId db) None "refresh"
         (now env / 1000) (now env / 1000 + 604800)) (REFRESH_TOKEN_SECRET cfg) in
  let saved :=
    mkUser (Mongo.freshId db) (body_email req) (body_name req) None
           (Some (bcrypt.hash 12 (body_password req))) None None None []
           Role.user false true
           [RefreshEntry.mk refresh (now env) (now env + 604800 * 1000)
                            (userAgent req) (ip req)]
           None None 0 in
  routes.register cfg env req db
  = (Ok (mkResponse 201 (Session (Serialise.toJSON saved) access refresh 900)),
     db ++ [saved])
  /\ (authorization req' = Some (Bearer access) ->
      now later / 1000 < now env / 1000 + 900 ->
      routes.me cfg later req' (db ++ [saved])
      = (Ok (mkResponse 200 (Profile (Serialise.toJSON saved))), db ++ [saved])).
Proof.
  intros Hvalid Hfind Hschema Hcreate Hsign Hsave access refresh saved.
  split.
  - exact (register_succeeds cfg env req db Hvalid Hfind Hschema Hcreate Hsign Hsave).
  - intros Hheader Hfresh.
    unfold routes.me, middleware.guarded, middleware.authenticate. rewrite Hheader.
    run_db. unfold access.
    rewrite verifyAccessToken_accepts; [| exact Hfresh | reflexivity].
    unfold Mongo.findById, Mongo.findOne. simpl.
    rewrite (find_appended _ db _ (find_by_new_id db _ (freshId_is_new db))).
    simpl. rewrite Nat.eqb_refl. reflexivity.
Qed.

(** Alice registers into an empty collection and asks for [/me] in the
    last second of her access token. *)
Lemma register_creates_usable_account_witness :
  routes.me defaultConfig (calm 899999) logoutAlice registered
  = (Ok (mkResponse 200
           (Profile (Serialise.toJSON
                       (UserMethods.addRefreshToken (calm 0) aliceRefreshToken 604800
                          (Some "jest") (Some "127.0.0.1") alice)))),
     registered).
Proof.
  refine (proj2 (register_creates_usable_account defaultConfig (calm 0) (calm 899999)
                   registerAlice logoutAlice [] eq_refl eq_refl eq_refl eq_refl
                   eq_refl eq_refl) _ _).
  - reflexivity.
  - reflexivity.
Defined.

Lemma keyStream_prefix (a b whole : string) (n : nat) :
  (String.length a <= n)%nat ->
  bcrypt.keyStream n (String.append a b) whole
  = String.append a (bcrypt.keyStream (n - String.length a) b whole).
Proof.
  revert n. induction a as [| c a IH]; intros n Hlen; simpl in *.
  - rewrite Nat.sub_0_r. reflexivity.
  - destruct n as [| n]; [lia |]. simpl. rewrite IH by lia. reflexivity.
Qed.

Lemma terminated_prefix_injective (s t x y : string) :
  hasNul s = false -> hasNul t = false ->
  String.append s (String Ascii.zero x) = String.append t (String Ascii.zero y) ->
  s = t.
Proof.
  revert t. induction s as [| c s IH]; intros [| d t] Hs Ht Heq; simpl in *.
  - reflexivity.
  - injection Heq as Hc _. subst d. rewrite Ascii.eqb_refl in Ht. discriminate.
  - injection Heq as Hc _. subst c. rewrite Ascii.eqb_refl in Hs. discriminate.
  - injection Heq as Hc Heq. subst d.
    apply orb_false_elim in Hs. apply orb_false_elim in Ht.
    f_equal. apply IH; [exact (proj2 Hs) | exact (proj2 Ht) | exact Heq].
Qed.

(** Passwords of fewer than 72 bytes without NUL reach the hash whole:
    two of them with the same key are the same password. *)
Lemma key_injective_on_whole_keys (a b : string) :
  wholeKey a -> wholeKey b -> bcrypt.key a = bcrypt.key b -> a = b.
Proof.
  intros [Hla Hna] [Hlb Hnb]. unfold bcrypt.key. cbv zeta.
  rewrite (keyStream_prefix a _ _ 72) by lia.
  rewrite (keyStream_prefix b _ _ 72) by lia.
  replace (72 - String.length a)%nat with (S (71 - String.length a)) by lia.
  replace (72 - String.length b)%nat with (S (71 - String.length b)) by lia.
  simpl. intros Heq.
  exact (terminated_prefix_injective a b _ _ Hna Hnb Heq).
Qed.

(** X14.  After such a registration, registering the same email again is
    refused with 400 and writes nothing.  A login with the registered
    email is answered 200 with a new session when the password given has
    the registered password's 72-byte bcrypt key (the registered
    password itself, or another one that agrees with it in the bytes
    bcrypt reads), and 401 "Invalid email or password", writing nothing,
    when its key differs; among passwords of fewer than 72 bytes without
    NUL every password other than the registered one is refused. *)
Theorem register_then_login
        (cfg : Config) (env next : Env) (req again attempt : Request)
        (db : Mongo.Collection) :
  validationErrors req = [] ->
  find (fun d => String.eqb (email d) (body_email req)) db = None ->
  Mongo.validate (Mongo.mkNewUser (body_email req) (Some (body_name req))
                    (Some (body_password req)) None None None None false []) = None ->
  createRejects env = false -> signThrows env = false -> saveRejects env = false ->
  validationErrors again = [] -> body_email again = body_email req ->
  validationErrors attempt = [] -> body_email attempt = body_email req ->
  signThrows next = false -> saveRejects next = false ->
  let db1 := snd (routes.register cfg env req db) in
  routes.register cfg next again db1
  = (Ok (mkResponse 400 (Failure "User already exists with this email")), db1)
  /\ (bcrypt.key (body_password attempt) = bcrypt.key (body_password req) ->
      exists view access refresh db2,
        routes.login cfg next attempt db1
        = (Ok (mkResponse 200 (Session view access refresh 900)), db2)
        /\ jwt.verifyAccessToken cfg next access
           = Ok (jsonwebtoken.mkPayload (Mongo.freshId db) (Some Role.user) "access"
                   (now next / 1000) (now next / 1000 + 900)))
  /\ (bcrypt.key (body_password attempt) <> bcrypt.key (body_password req) ->
      routes.login cfg next attempt db1
      = (Ok (mkResponse 401 (Failure "Invalid email or password")), db1))
  /\ (wholeKey (body_password attempt) -> wholeKey (body_password req) ->
      body_password attempt <> body_password req ->
      routes.login cfg next attempt db1
      = (Ok (mkResponse 401 (Failure "Invalid email or password")), db1)).
Proof.
  intros Hvalid Hfind Hschema Hcreate Hsign Hsave Hvalid2 Hmail2 Hvalid3 Hmail3
         Hsign3 Hsave3 db1.
  pose proof (register_succeeds cfg env req db Hvalid Hfind Hschema Hcreate Hsign Hsave)
    as Hreg. cbv zeta in Hreg.
  subst db1. rewrite Hreg. cbn [snd].
  match type of Hreg with
  | _ = (_, db ++ [?s]) => set (saved := s) in *
  end.
  assert (Hstored : forall m, m = body_email req ->
            find (fun d => String.eqb (email d) m) (db ++ [saved]) = Some saved).
  { intros m ->. rewrite (find_appended _ db saved Hfind). simpl.
    rewrite String.eqb_refl. reflexivity. }
  assert (Hrefused :
            bcrypt.key (body_password attempt) <> bcrypt.key (body_password req) ->
            routes.login cfg next attempt (db ++ [saved])
            = (Ok (mkResponse 401 (Failure "Invalid email or password")),
               db ++ [saved])).
  { intros Hkey.
    unfold routes.login, Mongo.catch, Mongo.bindDB, Mongo.findOne.
    rewrite Hvalid3. cbn [negb routes.isEmpty]. rewrite (Hstored _ Hmail3).
    unfold UserMethods.comparePassword. cbn [password saved bcrypt.hash bcrypt.compare].
    apply String.eqb_neq in Hkey. rewrite Hkey. reflexivity. }
  split; [| split; [| split]].
  - unfold routes.register, Mongo.catch, Mongo.bindDB, Mongo.findOne.
    rewrite Hvalid2. cbn [negb routes.isEmpty]. rewrite (Hstored _ Hmail2). reflexivity.
  - intros Hkey.
    unfold routes.login, Mongo.catch, Mongo.bindDB, Mongo.findOne.
    rewrite Hvalid3. cbn [negb routes.isEmpty]. rewrite (Hstored _ Hmail3).
    unfold UserMethods.comparePassword. cbn [password saved bcrypt.hash bcrypt.compare].
    rewrite Hkey, String.eqb_refl. simpl.
    unfold Mongo.lift, jwt.generateAccessToken, jwt.generateRefreshToken,
      jsonwebtoken.sign, Mongo.save, Mongo.ret.
    rewrite Hsign3, Hsave3.
    eexists. eexists. eexists. eexists. split; [reflexivity |].
    apply verifyAccessToken_accepts; simpl; [| reflexivity].
    unfold jwt.ACCESS_TOKEN_EXPIRY. lia.
  - exact Hrefused.
  - intros Ha Hb Hdiff. apply Hrefused. intros Hkey. apply Hdiff.
    exact (key_injective_on_whole_keys _ _ Ha Hb Hkey).
Qed.

(** Alice registers, registers again, and logs in with a wrong
    password. *)
Lemma register_then_login_witness :
  routes.register defaultConfig (calm 1000) registerAlice registered
  = (Ok (mkResponse 400 (Failure "User already exists with this email")), registered)
  /\ routes.login defaultConfig (calm 1000) (loginAlice "WrongPassword!") registered
     = (Ok (mkResponse 401 (Failure "Invalid email or password")), registered).
Proof.
  pose proof (register_then_login defaultConfig (calm 0) (calm 1000) registerAlice
                registerAlice (loginAlice "WrongPassword!") []
                eq_refl eq_refl eq_refl eq_refl eq_refl eq_refl
                eq_refl eq_refl eq_refl eq_refl eq_refl eq_refl) as (H1 & _ & _ & H4).
  split; [exact H1 |].
  apply H4; [split; [simpl; lia | reflexivity] | split; [simpl; lia | reflexivity]
           | discriminate].
Defined.

(** *** Login, continued *)

(** X15.  A login is answered with the same 401 "Invalid email or
    password", and writes nothing, whether the email is unknown, the
    password is wrong, or the account has no password at all (an
    account created through OAuth cannot log in by password, whatever is
    typed). *)
Theorem login_failures_look_alike
        (cfg : Config) (env : Env) (req : Request) (db : Mongo.Collection) :
  validationErrors req = [] ->
  (find (fun d => String.eqb (email d) (body_email req)) db = None ->
   routes.login cfg env req db
   = (Ok (mkResponse 401 (Failure "Invalid email or password")), db))
  /\ (forall u,
        find (fun d => String.eqb (email d) (body_email req)) db = Some u ->
        UserMethods.comparePassword (body_password req) u = false ->
        routes.login cfg env req db
        = (Ok (mkResponse 401 (Failure "Invalid email or password")), db))
  /\ (forall u,
        find (fun d => String.eqb (email d) (body_email req)) db = Some u ->
        password u = None ->
        routes.login cfg env req db
        = (Ok (mkResponse 401 (Failure "Invalid email or password")), db)).
Proof.
  intros Hvalid. split; [| split].
  - intros Hfind. unfold routes.login, Mongo.catch, Mongo.bindDB, Mongo.findOne.
    rewrite Hvalid. simpl. rewrite Hfind. reflexivity.
  - intros u Hfind Hpw. exact (login_wrong_password cfg env req u db Hvalid Hfind Hpw).
  - intros u Hfind Hnone. apply (login_wrong_password cfg env req u db Hvalid Hfind).
    unfold UserMethods.comparePassword. rewrite Hnone. reflexivity.
Qed.

(** Bob has GitHub only; somebody tries a password on his email. *)
Lemma login_failures_look_alike_witness :
  routes.login defaultConfig (calm 0)
    (mkRequest None None None [] "bob@example.com" "anything" "" None) [githubOnly]
  = (Ok (mkResponse 401 (Failure "Invalid email or password")), [githubOnly]).
Proof.
  refine (proj2 (proj2 (login_failures_look_alike defaultConfig (calm 0)
                          (mkRequest None None None [] "bob@example.com" "anything"
                                     "" None)
                          [githubOnly] eq_refl)) githubOnly _ _).
  - reflexivity.
  - reflexivity.
Defined.

Lemma toJSON_without_password (u : User) :
  Serialise.toJSON (routes.set_password None u) = Serialise.toJSON u.
Proof.
  destruct u as [i em nm av pw gid ghid aid provs rl ver act rts ll pca v].
  unfold Serialise.toJSON, Serialise.toObject, routes.set_password.
  destruct pw, gid, ghid, aid, ll, pca; reflexivity.
Qed.

Lemma find_written (id : nat) (stored u : User) (db : Mongo.Collection) :
  find (fun d => Nat.eqb (_id d) id) db = Some stored ->
  _id u = id ->
  find (fun d => Nat.eqb (_id d) id) (written u db) = Some u.
Proof.
  intros Hfind Hid. subst id. unfold written.
  induction db as [| d db IH]; simpl in *; [discriminate |].
  destruct (Nat.eqb (_id d) (_id u)) eqn:Hd; simpl.
  - rewrite Nat.eqb_refl. reflexivity.
  - rewrite Hd. apply IH. exact Hfind.
Qed.

Lemma find_written_other (id : nat) (u : User) (db : Mongo.Collection) :
  id <> _id u ->
  find (fun d => Nat.eqb (_id d) id) (written u db)
  = find (fun d => Nat.eqb (_id d) id) db.
Proof.
  intros Hid. unfold written.
  induction db as [| d db IH]; simpl; [reflexivity |].
  destruct (Nat.eqb (_id d) (_id u)) eqn:Hd.
  - apply Nat.eqb_eq in Hd.
    assert (H1 : Nat.eqb (_id u) id = false) by (apply Nat.eqb_neq; congruence).
    assert (H2 : Nat.eqb (_id d) id = false) by (apply Nat.eqb_neq; congruence).
    rewrite H1, H2. exact IH.
  - destruct (Nat.eqb (_id d) id); [reflexivity | exact IH].
Qed.

Lemma stored_under_its_id (u : User) (db : Mongo.Collection) :
  In u db -> exists stored, find (fun d => Nat.eqb (_id d) (_id u)) db = Some stored.
Proof.
  intros Hin. destruct (find _ db) as [stored |] eqn:Hfind; [eexists; reflexivity |].
  apply (find_none _ _ Hfind) in Hin. rewrite Nat.eqb_refl in Hin. discriminate.
Qed.

(** What [POST /login] does for the right password of an active user
    when nothing fails. *)
Lemma login_succeeds (cfg : Config) (env : Env) (req : Request) (u : User)
      (db : Mongo.Collection) :
  validationErrors req = [] ->
  find (fun d => String.eqb (email d) (body_email req)) db = Some u ->
  UserMethods.comparePassword (body_password req) u = true ->
  isActive u = true -> signThrows env = false -> saveRejects env = false ->
  let s := now env / 1000 in
  let access :=
    jsonwebtoken.Signed
      (jsonwebtoken.mkPayload (_id u) (Some (role u)) "access" s (s + 900))
      (ACCESS_TOKEN_SECRET cfg) in
  let refresh :=
    jsonwebtoken.Signed (jsonwebtoken.mkPayload (_id u) None "refresh" s (s + 604800))
                        (REFRESH_TOKEN_SECRET cfg) in
  let stored :=
    UserMethods.cleanupExpiredTokens env
      (set_lastLogin (Some (now env))
         (UserMethods.addRefreshToken env refresh 604800 (userAgent req) (ip req) u)) in
  routes.login cfg env req db
  = (Ok (mkResponse 200 (Session (Serialise.toJSON stored) access refresh 900)),
     written stored db).
Proof.
  intros Hvalid Hfind Hpw Hactive Hsign Hsave s access refresh stored.
  unfold routes.login, Mongo.catch, Mongo.bindDB, Mongo.findOne.
  rewrite Hvalid. cbn [negb routes.isEmpty]. rewrite Hfind, Hpw, Hactive.
  cbn [negb].
  unfold Mongo.lift, jwt.generateAccessToken, jwt.generateRefreshToken,
    jsonwebtoken.sign, Mongo.save, Mongo.ret.
  rewrite Hsign, Hsave. rewrite toJSON_without_password. reflexivity.
Qed.

Lemma newest_entry_survives_cleanup (env : Env) (token : jsonwebtoken.Token)
      (device ipAddress : option string) (u : User) :
  let stored :=
    UserMethods.cleanupExpiredTokens env
      (set_lastLogin (Some (now env))
         (UserMethods.addRefreshToken env token 604800 device ipAddress u)) in
  existsb (fun rt => jsonwebtoken.Token_eqb (RefreshEntry.token rt) token)
          (refreshTokens stored) = true
  /\ In token (heldTokens stored)
  /\ (List.length (refreshTokens stored) <= 5)%nat
  /\ (forall rt, In rt (refreshTokens stored) -> now env < RefreshEntry.expiresAt rt).
Proof.
  intros stored. subst stored.
  set (new := RefreshEntry.mk token (now env) (now env + 604800 * 1000)
                              device ipAddress).
  assert (Hnew : In new (refreshTokens
                           (UserMethods.cleanupExpiredTokens env
                              (set_lastLogin (Some (now env))
                                 (UserMethods.addRefreshToken env token 604800
                                    device ipAddress u))))).
  { unfold UserMethods.cleanupExpiredTokens. simpl. apply filter_In. split.
    - unfold UserMethods.addRefreshToken. fold new.
      destruct (5 <? _)%nat; simpl.
      + unfold UserMethods.sliceLast. rewrite length_app. simpl.
        rewrite skipn_app. apply in_or_app. right.
        replace (List.length (refreshTokens u) + 1 - 5
                 - List.length (refreshTokens u))%nat with 0%nat by lia.
        left. reflexivity.
      + apply in_or_app. right. left. reflexivity.
    - apply Z.ltb_lt. simpl. lia. }
  split; [| split; [| split]].
  - apply existsb_exists. exists new. split; [exact Hnew | apply Token_eqb_refl].
  - unfold heldTokens. apply in_map_iff. exists new. split; [reflexivity | exact Hnew].
  - unfold UserMethods.cleanupExpiredTokens. simpl. apply filter_capped.
    apply addRefreshToken_capped.
  - unfold UserMethods.cleanupExpiredTokens. simpl. intros rt Hin.
    apply filter_In in Hin. destruct Hin as [_ Hlive]. apply Z.ltb_lt. exact Hlive.
Qed.

(** X16.  A successful login answers 200 with tokens for the user's id
    and role, and what it stores is the user with [lastLogin] set to the
    time of the request, holding the refresh token just issued, at most
    five entries, and none that has expired. *)
Theorem login_stores_fresh_session
        (cfg : Config) (env : Env) (req : Request) (u : User) (db : Mongo.Collection) :
  validationErrors req = [] ->
  find (fun d => String.eqb (email d) (body_email req)) db = Some u ->
  UserMethods.comparePassword (body_password req) u = true ->
  isActive u = true -> signThrows env = false -> saveRejects env = false ->
  exists stored access refresh,
    routes.login cfg env req db
    = (Ok (mkResponse 200 (Session (Serialise.toJSON stored) access refresh 900)),
       written stored db)
    /\ jwt.generateAccessToken cfg env (_id u) (role u) = Ok access
    /\ jwt.generateRefreshToken cfg env (_id u) = Ok refresh
    /\ _id stored = _id u
    /\ lastLogin stored = Some (now env)
    /\ In refresh (heldTokens stored)
    /\ (List.length (refreshTokens stored) <= 5)%nat
    /\ (forall rt, In rt (refreshTokens stored) -> now env < RefreshEntry.expiresAt rt).
Proof.
  intros Hvalid Hfind Hpw Hactive Hsign Hsave.
  pose proof (login_succeeds cfg env req u db Hvalid Hfind Hpw Hactive Hsign Hsave)
    as Hlogin. cbv zeta in Hlogin.
  eexists. eexists. eexists. split; [exact Hlogin |].
  split; [unfold jwt.generateAccessToken, jsonwebtoken.sign; rewrite Hsign; reflexivity |].
  split; [unfold jwt.generateRefreshToken, jsonwebtoken.sign; rewrite Hsign; reflexivity |].
  split; [simpl; apply addRefreshToken_fields |].
  split; [reflexivity |].
  match goal with
  | |- In ?t (heldTokens (UserMethods.cleanupExpiredTokens env
                            (set_lastLogin _ (UserMethods.addRefreshToken
                                                env _ _ ?d ?i u)))) /\ _ =>
      pose proof (newest_entry_survives_cleanup env t d i u) as (_ & H1 & H2 & H3)
  end.
  split; [exact H1 | split; [exact H2 | exact H3]].
Qed.

(** Alice logs in six seconds after her registration. *)
Lemma login_stores_fresh_session_witness :
  exists stored access refresh,
    routes.login defaultConfig (calm 6000) (loginAlice "Secret123!") registered
    = (Ok (mkResponse 200 (Session (Serialise.toJSON stored) access refresh 900)),
       written stored registered)
    /\ lastLogin stored = Some 6000
    /\ In refresh (heldTokens stored).
Proof.
  destruct (login_stores_fresh_session defaultConfig (calm 6000)
              (loginAlice "Secret123!")
              (UserMethods.addRefreshToken (calm 0) aliceRefreshToken 604800
                 (Some "jest") (Some "127.0.0.1") alice)
              registered eq_refl eq_refl eq_refl eq_refl eq_refl eq_refl)
    as (stored & access & refresh & H1 & _ & _ & _ & H2 & H3 & _).
  exists stored, access, refresh. split; [exact H1 | split; [exact H2 | exact H3]].
Defined.

(** X17.  The refresh token a login returns is taken by [POST /refresh]
    in every second before its expiry, seven days later: the answer is
    200 with a new access token for the same user and role, and the
    stored user is only pruned of expired entries. *)
Theorem login_then_refresh
        (cfg : Config) (env later : Env) (req req' : Request) (u : User)
        (db : Mongo.Collection) :
  validationErrors req = [] ->
  find (fun d => String.eqb (email d) (body_email req)) db = Some u ->
  UserMethods.comparePassword (body_password req) u = true ->
  isActive u = true -> signThrows env = false -> saveRejects env = false ->
  signThrows later = false -> saveRejects later = false ->
  now later / 1000 < now env / 1000 + 604800 ->
  let refresh :=
    jsonwebtoken.Signed
      (jsonwebtoken.mkPayload (_id u) None "refresh" (now env / 1000)
         (now env / 1000 + 604800)) (REFRESH_TOKEN_SECRET cfg) in
  let stored :=
    UserMethods.cleanupExpiredTokens env
      (set_lastLogin (Some (now env))
         (UserMethods.addRefreshToken env refresh 604800 (userAgent req) (ip req) u)) in
  body_refreshToken req' = Some refresh ->
  snd (routes.login cfg env req db) = written stored db
  /\ routes.refresh cfg later req' (written stored db)
     = (Ok (mkResponse 200
              (Access (jsonwebtoken.Signed
                         (jsonwebtoken.mkPayload (_id u) (Some (role u)) "access"
                            (now later / 1000) (now later / 1000 + 900))
                         (ACCESS_TOKEN_SECRET cfg)) 900)),
        written (UserMethods.cleanupExpiredTokens later stored) (written stored db)).
Proof.
  intros Hvalid Hfind Hpw Hactive Hsign Hsave Hsign' Hsave' Hfresh refresh stored Hbody.
  split.
  { rewrite (login_succeeds cfg env req u db Hvalid Hfind Hpw Hactive Hsign Hsave).
    reflexivity. }
  pose proof (newest_entry_survives_cleanup env refresh (userAgent req) (ip req) u)
    as (Hheld & _). fold stored in Hheld.
  assert (Hid : _id stored = _id u) by (simpl; apply addRefreshToken_fields).
  assert (Hrole : role stored = role u) by (simpl; apply addRefreshToken_fields).
  assert (Hact : isActive stored = true).
  { transitivity (isActive u); [simpl; apply addRefreshToken_fields | exact Hactive]. }
  apply find_some in Hfind. destruct Hfind as [Hin _].
  destruct (stored_under_its_id u db Hin) as [old Hold].
  pose proof (find_written (_id u) old stored db Hold Hid) as Hfound.
  assert (Hv : jwt.verifyRefreshToken cfg later refresh
               = Ok (jsonwebtoken.mkPayload (_id u) None "refresh" (now env / 1000)
                       (now env / 1000 + 604800)))
    by (apply verifyRefreshToken_accepts; [exact Hfresh | reflexivity]).
  clearbody stored. unfold refresh in *. clear refresh.
  unfold routes.refresh, Mongo.catch. rewrite Hbody. cbn [routes.given].
  unfold Mongo.bindDB at 1. unfold Mongo.lift. rewrite Hv.
  unfold Mongo.bindDB at 1. unfold Mongo.findById, Mongo.findOne.
  cbn [jsonwebtoken.userId]. rewrite Hfound, Hact, Hheld. cbn [negb].
  assert (Htoken : jwt.generateAccessToken cfg later
                     (_id (UserMethods.cleanupExpiredTokens later stored))
                     (role (UserMethods.cleanupExpiredTokens later stored))
                   = Ok (jsonwebtoken.Signed
                           (jsonwebtoken.mkPayload (_id u) (Some (role u)) "access"
                              (now later / 1000) (now later / 1000 + 900))
                           (ACCESS_TOKEN_SECRET cfg))).
  { unfold jwt.generateAccessToken, jsonwebtoken.sign. rewrite Hsign'.
    simpl. rewrite Hid, Hrole. reflexivity. }
  unfold Mongo.bindDB, Mongo.save, Mongo.lift, Mongo.ret.
  rewrite Hsave', Htoken. reflexivity.
Qed.

(** Alice logs in at 6 s and refreshes with the new token at 7 s. *)
Lemma login_then_refresh_witness :
  exists access db',
    routes.refresh defaultConfig (calm 7000)
      (mkRequest None None None [] "" "" ""
         (Some (jsonwebtoken.Signed
                  (jsonwebtoken.mkPayload 1 None "refresh" 6 604806)
                  (REFRESH_TOKEN_SECRET defaultConfig))))
      (snd (routes.login defaultConfig (calm 6000) (loginAlice "Secret123!") registered))
    = (Ok (mkResponse 200 (Access access 900)), db').
Proof.
  destruct (login_then_refresh defaultConfig (calm 6000) (calm 7000)
              (loginAlice "Secret123!")
              (mkRequest None None None [] "" "" ""
                 (Some (jsonwebtoken.Signed
                          (jsonwebtoken.mkPayload 1 None "refresh" 6 604806)
                          (REFRESH_TOKEN_SECRET defaultConfig))))
              (UserMethods.addRefreshToken (calm 0) aliceRefreshToken 604800
                 (Some "jest") (Some "127.0.0.1") alice)
              registered eq_refl eq_refl eq_refl eq_refl eq_refl eq_refl
              eq_refl eq_refl eq_refl eq_refl) as [Hdb Hrefresh].
  eexists. eexists. rewrite Hdb. exact Hrefresh.
Defined.

(** *** Refresh and logout, continued *)

Lemma Role_eqb_eq (a b : Role.t) : Role.eqb a b = true -> a = b.
Proof. destruct a, b; simpl; intros H; try reflexivity; discriminate H. Qed.

Lemma Payload_eqb_eq (p q : jsonwebtoken.Payload) :
  jsonwebtoken.Payload_eqb p q = true -> p = q.
Proof.
  destruct p as [uid r ty i e], q as [uid' r' ty' i' e'].
  unfold jsonwebtoken.Payload_eqb. simpl. intros H.
  apply andb_prop in H. destruct H as [H He].
  apply andb_prop in H. destruct H as [H Hi].
  apply andb_prop in H. destruct H as [H Hty].
  apply andb_prop in H. destruct H as [Huid Hr].
  apply Nat.eqb_eq in Huid. apply String.eqb_eq in Hty.
  apply Z.eqb_eq in Hi. apply Z.eqb_eq in He. subst.
  destruct r as [a |], r' as [b |]; try discriminate Hr.
  - apply Role_eqb_eq in Hr. subst. reflexivity.
  - reflexivity.
Qed.

Lemma Token_eqb_eq (a b : jsonwebtoken.Token) :
  jsonwebtoken.Token_eqb a b = true -> a = b.
Proof.
  destruct a as [s | p k], b as [s' | q k']; simpl; try discriminate.
  - intros H. apply String.eqb_eq in H. subst. reflexivity.
  - intros H. apply andb_prop in H. destruct H as [Hp Hk].
    apply Payload_eqb_eq in Hp. apply String.eqb_eq in Hk. subst. reflexivity.
Qed.

(** X18.  [POST /refresh] answers 200 only if a refresh token was
    given, it verifies, the user it names exists, is active and holds
    that very token string, and nothing failed.  Then the answer carries
    a new access token for the user's id and role and no refresh token,
    and the only write is the pruning of the user's expired entries: no
    token is added or rotated. *)
Theorem refresh_succeeds_only_if
        (cfg : Config) (env : Env) (req : Request) (db db' : Mongo.Collection)
        (b : Body) :
  routes.refresh cfg env req db = (Ok (mkResponse 200 b), db') ->
  exists t p u,
    routes.given (body_refreshToken req) = Some t
    /\ jwt.verifyRefreshToken cfg env t = Ok p
    /\ find (fun d => Nat.eqb (_id d) (jsonwebtoken.userId p)) db = Some u
    /\ isActive u = true
    /\ In t (heldTokens u)
    /\ signThrows env = false /\ saveRejects env = false
    /\ b = Access (jsonwebtoken.Signed
                     (jsonwebtoken.mkPayload (_id u) (Some (role u)) "access"
                        (now env / 1000) (now env / 1000 + 900))
                     (ACCESS_TOKEN_SECRET cfg)) 900
    /\ db' = written (UserMethods.cleanupExpiredTokens env u) db.
Proof.
  unfold routes.refresh, Mongo.catch.
  destruct (routes.given (body_refreshToken req)) as [t |]; [| discriminate].
  unfold Mongo.bindDB at 1. unfold Mongo.lift.
  destruct (jwt.verifyRefreshToken cfg env t) as [p | e] eqn:Hv; [| discriminate].
  unfold Mongo.bindDB at 1. unfold Mongo.findById, Mongo.findOne.
  destruct (find _ db) as [u |] eqn:Hfind; [| discriminate].
  destruct (isActive u) eqn:Hactive; cbn [negb]; [| discriminate].
  destruct (existsb _ (refreshTokens u)) eqn:Hheld; cbn [negb]; [| discriminate].
  unfold Mongo.bindDB, Mongo.save, Mongo.lift, Mongo.ret,
    jwt.generateAccessToken, jsonwebtoken.sign.
  destruct (saveRejects env) eqn:Hsave; [discriminate |].
  destruct (signThrows env) eqn:Hsign; [discriminate |].
  intros H. injection H as <- <-.
  exists t, p, u. repeat split; try assumption; try reflexivity.
  apply existsb_exists in Hheld. destruct Hheld as (rt & Hin & Heq).
  apply Token_eqb_eq in Heq. unfold heldTokens. apply in_map_iff.
  exists rt. split; assumption.
Qed.

(** Alice's refresh two seconds after her registration. *)
Lemma refresh_succeeds_only_if_witness :
  exists t p u,
    routes.given (body_refreshToken refreshAlice) = Some t
    /\ jwt.verifyRefreshToken defaultConfig (calm 2000) t = Ok p
    /\ find (fun d => Nat.eqb (_id d) (jsonwebtoken.userId p)) registered = Some u
    /\ In t (heldTokens u).
Proof.
  destruct (refresh_succeeds_only_if defaultConfig (calm 2000) refreshAlice
              registered registered
              (Access (jsonwebtoken.Signed
                         (jsonwebtoken.mkPayload 1 (Some Role.user) "access" 2 902)
                         (ACCESS_TOKEN_SECRET defaultConfig)) 900) eq_refl)
    as (t & p & u & H1 & H2 & H3 & _ & H5 & _).
  exists t, p, u. repeat split; assumption.
Defined.

(** X19.  Once the caller is authenticated, [POST /logout] answers 200
    "Logged out successfully" whatever happens.  It writes at most the
    caller's own document, with the given token string removed; when the
    save is rejected it still answers 200 and nothing is revoked; and no
    other user's document is touched, so a refresh token of somebody
    else given at logout stays good. *)
Theorem logout_is_best_effort
        (cfg : Config) (env : Env) (req : Request) (u : User) (db : Mongo.Collection) :
  middleware.authenticate cfg env (authorization req) db = (Ok u, db) ->
  routes.logout cfg env req db
  = (Ok (mkResponse 200 (Success "Logged out successfully")),
     match routes.given (body_refreshToken req) with
     | Some t =>
         if saveRejects env then db
         else written (UserMethods.removeRefreshToken t u) db
     | None => db
     end)
  /\ forall id, id <> _id u ->
       find (fun d => Nat.eqb (_id d) id) (snd (routes.logout cfg env req db))
       = find (fun d => Nat.eqb (_id d) id) db.
Proof.
  intros Hauth.
  assert (Hlogout : routes.logout cfg env req db
                    = (Ok (mkResponse 200 (Success "Logged out successfully")),
                       match routes.given (body_refreshToken req) with
                       | Some t =>
                           if saveRejects env then db
                           else written (UserMethods.removeRefreshToken t u) db
                       | None => db
                       end)).
  { unfold routes.logout, middleware.guarded. rewrite Hauth.
    unfold Mongo.catch, Mongo.bindDB, Mongo.save, Mongo.ret.
    destruct (routes.given (body_refreshToken req)) as [t |]; [| reflexivity].
    destruct (saveRejects env); reflexivity. }
  split; [exact Hlogout |].
  intros id Hid. rewrite Hlogout. cbn [snd].
  destruct (routes.given (body_refreshToken req)) as [t |]; [| reflexivity].
  destruct (saveRejects env); [reflexivity |].
  apply find_written_other. exact Hid.
Qed.

(** Alice logs out while the database rejects the write: she is told
    200, and her refresh token is still stored. *)
Lemma logout_is_best_effort_witness :
  routes.logout defaultConfig (mkEnv 1000 false false true) logoutAlice registered
  = (Ok (mkResponse 200 (Success "Logged out successfully")), registered).
Proof.
  exact (proj1 (logout_is_best_effort defaultConfig (mkEnv 1000 false false true)
                  logoutAlice
                  (UserMethods.addRefreshToken (calm 0) aliceRefreshToken 604800
                     (Some "jest") (Some "127.0.0.1") alice)
                  registered eq_refl)).
Defined.

(** *** OAuth strategies and callbacks *)


(** X21.  When the GitHub profile carries no usable email (no [emails],
    an empty list, or an empty first value) the strategy reports "Email
    not provided by GitHub" and neither reads nor writes the collection,
    even for a user whose [githubId] is already linked. *)
Theorem github_needs_email
        (env : Env) (profile : passport.OAuthProfile) (db : Mongo.Collection) :
  passport.emails profile = None
  \/ passport.emails profile = Some []
  \/ (exists flag more,
        passport.emails profile = Some (passport.mkEmailEntry "" flag :: more)) ->
  passport.githubVerify env profile db
  = (Throw (Error "Email not provided by GitHub"), db).
Proof.
  unfold passport.githubVerify.
  intros [H | [H | (flag & more & H)]]; rewrite H; reflexivity.
Qed.

Lemma github_needs_email_witness :
  passport.githubVerify (calm 5000)
    (passport.mkOAuthProfile "41" (Some "Alice") (Some "alice") None (Some []))
    [aliceWithGithub41]
  = (Throw (Error "Email not provided by GitHub"), [aliceWithGithub41]).
Proof.
  apply github_needs_email. left. reflexivity.
Defined.

(** X22.  A returning GitHub user, found by [githubId], is not linked
    again: whatever email, name and photo the profile carries, the only
    change is [lastLogin]. *)
Theorem github_returning_user
        (env : Env) (profile : passport.OAuthProfile) (mail : string) (flag : bool)
        (more : list passport.EmailEntry) (u : User) (db : Mongo.Collection) :
  passport.emails profile = Some (passport.mkEmailEntry mail flag :: more) ->
  mail <> "" ->
  find (fun d => Mongo.sameId (githubId d) (Some (passport.id profile))) db = Some u ->
  saveRejects env = false ->
  passport.githubVerify env profile db
  = (Ok (set_lastLogin (Some (now env)) u),
     written (set_lastLogin (Some (now env)) u) db).
Proof.
  intros Hmails Hmail Hfind Hsave.
  unfold passport.githubVerify. rewrite Hmails. cbn [passport.value].
  apply String.eqb_neq in Hmail. unfold truthy. rewrite Hmail. cbn [negb].
  unfold Mongo.bindDB, Mongo.findOne, Mongo.ret, Mongo.save.
  rewrite Hfind, Hsave. reflexivity.
Qed.

(** Alice, linked under 41, comes back with another email in her
    profile. *)
Lemma github_returning_user_witness :
  passport.githubVerify (calm 5000)
    (passport.mkOAuthProfile "41" (Some "Alice") (Some "alice")
       (Some [passport.mkEmailEntry "other@example.com" true]) (Some []))
    [aliceWithGithub41]
  = (Ok (set_lastLogin (Some 5000) aliceWithGithub41),
     [set_lastLogin (Some 5000) aliceWithGithub41]).
Proof.
  refine (github_returning_user (calm 5000)
            (passport.mkOAuthProfile "41" (Some "Alice") (Some "alice")
               (Some [passport.mkEmailEntry "other@example.com" true]) (Some []))
            "other@example.com" true []
            aliceWithGithub41 [aliceWithGithub41] eq_refl _ eq_refl eq_refl).
  discriminate.
Defined.

(** X23.  A GitHub profile whose id and email are both unknown, with
    an email the schema's setters leave as it is: when the name taken
    from [displayName] or else [username] is there, is left alone by
    [trim], and the profile id is not empty, one user is created, with
    no password, verified, [githubId] set, a single GitHub entry, that
    name, and [lastLogin] set.  When the profile has neither name,
    nothing is created and the strategy reports a ValidationError. *)
Theorem github_creates_user
        (env : Env) (profile : passport.OAuthProfile) (mail : string) (flag : bool)
        (more : list passport.EmailEntry) (pics : list string)
        (db : Mongo.Collection) :
  passport.emails profile = Some (passport.mkEmailEntry mail flag :: more) ->
  mail <> "" ->
  UserSchema.settledEmail mail = true ->
  passport.photos profile = Some pics ->
  find (fun d => Mongo.sameId (githubId d) (Some (passport.id profile))) db = None ->
  find (fun d => String.eqb (email d) mail) db = None ->
  createRejects env = false -> saveRejects env = false ->
  let shown := passport.orElse (passport.displayName profile)
                               (passport.username profile) in
  (truthy shown = true ->
   UserSchema.trimmedName shown = true ->
   passport.id profile <> "" ->
   let created :=
     mkUser (Mongo.freshId db) mail (Mongo.unwrap shown) (hd_error pics) None
            None (Some (passport.id profile)) None
            [OAuthEntry.mk github (passport.id profile) (Some mail) shown
                           (hd_error pics) None None (now env)]
            Role.user true true [] (Some (now env)) None 0 in
   passport.githubVerify env profile db = (Ok created, db ++ [created]))
  /\ (truthy shown = false ->
      exists e,
        passport.githubVerify env profile db = (Throw e, db)
        /\ err_name e = "ValidationError").
Proof.
  intros Hmails Hmail _ Hpics HbyId HbyEmail Hcreate Hsave shown.
  assert (Hne : String.eqb mail "" = false) by (apply String.eqb_neq; exact Hmail).
  split.
  - intros Hshown _ _ created.
    unfold passport.githubVerify. rewrite Hmails. cbn [passport.value].
    unfold truthy at 1. rewrite Hne. cbn [negb].
    unfold Mongo.bindDB, Mongo.findOne, Mongo.lift, passport.firstPhoto.
    rewrite HbyId, HbyEmail, Hpics. fold shown.
    unfold Mongo.create, Mongo.validate. cbn [Mongo.new_email Mongo.new_name
      Mongo.new_password Mongo.new_googleId Mongo.new_githubId Mongo.new_appleId].
    rewrite Hne, Hshown, Hcreate. cbn [negb].
    unfold Mongo.duplicate. cbn [Mongo.new_email Mongo.new_googleId
      Mongo.new_githubId Mongo.new_appleId].
    rewrite (find_none_existsb _ _ HbyEmail), (find_none_existsb _ _ HbyId).
    rewrite !no_provider_id_clashes.
    unfold Mongo.save, Mongo.ret. rewrite Hsave.
    f_equal.
    match goal with
    | |- map _ (db ++ [?doc]) = _ =>
        change (written created (db ++ [doc]) = db ++ [created]);
        apply (written_appended db doc created (freshId_is_new db) eq_refl)
    end.
  - intros Hshown.
    unfold passport.githubVerify. rewrite Hmails. cbn [passport.value].
    unfold truthy at 1. rewrite Hne. cbn [negb].
    unfold Mongo.bindDB, Mongo.findOne, Mongo.lift, passport.firstPhoto.
    rewrite HbyId, HbyEmail, Hpics. fold shown.
    unfold Mongo.create, Mongo.validate. cbn [Mongo.new_email Mongo.new_name].
    rewrite Hne, Hshown. cbn [negb].
    eexists. split; reflexivity.
Qed.

(** Carol is new; her GitHub profile has a username only. *)
Lemma github_creates_user_witness :
  passport.githubVerify (calm 5000)
    (passport.mkOAuthProfile "77" None (Some "carol")
       (Some [passport.mkEmailEntry "carol@example.com" true]) (Some []))
    [alice]
  = (let created :=
       mkUser 2 "carol@example.com" "carol" None None None (Some "77") None
              [OAuthEntry.mk github "77" (Some "carol@example.com") (Some "carol")
                             None None None 5000]
              Role.user true true [] (Some 5000) None 0 in
     (Ok created, [alice; created])).
Proof.
  refine (proj1 (github_creates_user (calm 5000)
                   (passport.mkOAuthProfile "77" None (Some "carol")
                      (Some [passport.mkEmailEntry "carol@example.com" true])
                      (Some []))
                   "carol@example.com" true [] [] [alice]
                   eq_refl _ eq_refl eq_refl eq_refl eq_refl eq_refl eq_refl)
                eq_refl eq_refl _).
  - discriminate.
  - discriminate.
Defined.

(** Linking where the provider is already listed: the entry is
    rewritten, the provider's id field is left as it was. *)
Lemma link_listed_provider (env : Env) (provider : Provider)
      (profile : LinkProfile.t) (u : User) (e : OAuthEntry.t) :
  find (fun e => Provider_eqb (OAuthEntry.provider e) provider) (oauthProviders u)
  = Some e ->
  let u' := UserMethods.linkOAuthProvider env provider profile u in
  _id u' = _id u
  /\ providerIdField provider u' = providerIdField provider u
  /\ isVerified u' = (LinkProfile.emailVerified profile || isVerified u)%bool.
Proof.
  intros Hsome. unfold UserMethods.linkOAuthProvider. rewrite Hsome.
  destruct provider, u as [i em nm av pw gid ghid aid provs rl ver act rts ll pca v],
    profile as [pid pem pdn pav pver]; simpl;
    destruct (negb (truthy av) && truthy pav), pver; simpl; repeat split.
Qed.

(** X24.  In the Google strategy, for a profile with a non-empty id, an
    email the schema's setters leave as it is, and an id no user has:
    linking into a user found by email leaves the user verified exactly
    when Google verified the email or the user was verified before
    (never the other way round), keeps the size of the collection, and
    sets [googleId] to the profile id when the user had no Google entry
    but leaves [googleId] as it was when the user had one.  When the
    email is unknown too and [displayName] is there and left alone by
    [trim], one user is created, verified exactly when Google verified
    the email, without a password and with [googleId] set.  A Google
    profile without [emails] makes the strategy report a TypeError and
    write nothing. *)
Theorem google_verification_follows_flag
        (env : Env) (profile : passport.OAuthProfile) (mail : string) (flag : bool)
        (more : list passport.EmailEntry) (pics : list string)
        (db : Mongo.Collection) :
  passport.emails profile = Some (passport.mkEmailEntry mail flag :: more) ->
  mail <> "" ->
  UserSchema.settledEmail mail = true ->
  passport.id profile <> "" ->
  passport.photos profile = Some pics ->
  find (fun d => Mongo.sameId (googleId d) (Some (passport.id profile))) db = None ->
  saveRejects env = false ->
  (forall u,
      find (fun d => String.eqb (email d) mail) db = Some u ->
      exists u' db',
        passportGoogle.googleVerify env profile db = (Ok u', db')
        /\ List.length db' = List.length db
        /\ isVerified u' = (flag || isVerified u)%bool
        /\ googleId u'
           = match find (fun e => Provider_eqb (OAuthEntry.provider e) google)
                        (oauthProviders u) with
             | Some _ => googleId u
             | None => Some (passport.id profile)
             end)
  /\ (find (fun d => String.eqb (email d) mail) db = None ->
      truthy (passport.displayName profile) = true ->
      UserSchema.trimmedName (passport.displayName profile) = true ->
      createRejects env = false ->
      exists created,
        passportGoogle.googleVerify env profile db = (Ok created, db ++ [created])
        /\ isVerified created = flag
        /\ password created = None
        /\ googleId created = Some (passport.id profile))
  /\ (forall noMail,
        passport.emails noMail = None \/ passport.emails noMail = Some [] ->
        exists e,
          passportGoogle.googleVerify env noMail db = (Throw e, db)
          /\ err_name e = "TypeError").
Proof.
  intros Hmails Hmail _ _ Hpics HbyId Hsave. split; [| split].
  - intros u HbyEmail.
    set (link := LinkProfile.mk (passport.id profile) mail
                                (passport.displayName profile) (hd_error pics) flag).
    assert (Hlinked :
              isVerified (UserMethods.linkOAuthProvider env google link u)
              = (flag || isVerified u)%bool
              /\ googleId (UserMethods.linkOAuthProvider env google link u)
                 = match find (fun e => Provider_eqb (OAuthEntry.provider e) google)
                              (oauthProviders u) with
                   | Some _ => googleId u
                   | None => Some (passport.id profile)
                   end).
    { destruct (find (fun e => Provider_eqb (OAuthEntry.provider e) google)
                     (oauthProviders u)) as [e |] eqn:Hentry.
      - destruct (link_listed_provider env google link u e Hentry) as (_ & Hgid & Hver).
        split; [exact Hver | exact Hgid].
      - destruct (link_new_provider env google link u Hentry) as (_ & _ & Hgid & Hver).
        split; [exact Hver | exact Hgid]. }
    destruct Hlinked as [Hver Hgid].
    unfold passportGoogle.googleVerify. rewrite Hmails. cbn [passport.value
      passport.verified].
    unfold Mongo.bindDB, Mongo.findOne, Mongo.lift, passport.firstPhoto,
      Mongo.save, Mongo.ret.
    rewrite HbyId, HbyEmail, Hpics, Hsave. fold link.
    eexists. eexists. split; [reflexivity |].
    split; [rewrite !length_map; reflexivity |].
    split; [exact Hver | exact Hgid].
  - intros HbyEmail Hname _ Hcreate.
    assert (Hne : String.eqb mail "" = false) by (apply String.eqb_neq; exact Hmail).
    unfold passportGoogle.googleVerify. rewrite Hmails. cbn [passport.value
      passport.verified].
    unfold Mongo.bindDB, Mongo.findOne, Mongo.lift, passport.firstPhoto.
    rewrite HbyId, HbyEmail, Hpics.
    unfold Mongo.create, Mongo.validate. cbn [Mongo.new_email Mongo.new_name
      Mongo.new_password Mongo.new_googleId Mongo.new_githubId Mongo.new_appleId].
    rewrite Hne, Hname, Hcreate. cbn [negb].
    unfold Mongo.duplicate. cbn [Mongo.new_email Mongo.new_googleId
      Mongo.new_githubId Mongo.new_appleId].
    rewrite (find_none_existsb _ _ HbyEmail), (find_none_existsb _ _ HbyId).
    rewrite !no_provider_id_clashes.
    unfold Mongo.save, Mongo.ret. rewrite Hsave.
    eexists. split.
    { f_equal.
      match goal with
      | |- map (fun d => if _ then ?c else d) (db ++ [?doc]) = _ =>
          transitivity (db ++ [c]);
          [exact (written_appended db doc c (freshId_is_new db) eq_refl) | reflexivity]
      end. }
    repeat split.
  - intros noMail [H | H]; unfold passportGoogle.googleVerify; rewrite H;
      eexists; split; reflexivity.
Qed.

(** Google has not verified Alice's email: linking leaves her
    unverified. *)
Lemma google_verification_follows_flag_witness :
  exists u' db',
    passportGoogle.googleVerify (calm 5000) aliceOnGoogle [alice] = (Ok u', db')
    /\ googleId u' = Some "g-7"
    /\ isVerified u' = false.
Proof.
  assert (Hmail : "alice@example.com" <> "") by discriminate.
  assert (Hid : passport.id aliceOnGoogle <> "") by discriminate.
  destruct (proj1 (google_verification_follows_flag (calm 5000) aliceOnGoogle
                     "alice@example.com" false [] [] [alice]
                     eq_refl Hmail eq_refl Hid eq_refl eq_refl eq_refl) alice eq_refl)
    as (u' & db' & H1 & _ & H3 & H4).
  exists u', db'. repeat split; assumption.
Defined.

(** X25.  An OAuth callback whose feature flag is not exactly [true]
    (off, or missing from the object) is answered 403 before the
    strategy runs, and nothing is read or written.  With the flags as
    shipped this holds for both the GitHub and the Google callback, and
    [isAnySSOEnabled] is false. *)
Theorem oauth_callbacks_gated
        (fs : list (string * bool)) (feature disabled : string)
        (verify : Env -> passport.OAuthProfile -> Mongo.DB User)
        (cfg : Config) (env : Env) (frontendURL : string) (req : Request)
        (profile : passport.OAuthProfile) (db : Mongo.Collection) :
  (features.flag fs feature <> Some true ->
   oauthRoutes.callback fs feature disabled verify cfg env frontendURL req profile db
   = (Ok (Json (mkResponse 403 (Failure disabled))), db))
  /\ oauthRoutes.githubCallback features.features cfg env frontendURL req profile db
     = (Ok (Json (mkResponse 403 (Failure "GitHub SSO is currently disabled"))), db)
  /\ oauthRoutes.googleCallback features.features cfg env frontendURL req profile db
     = (Ok (Json (mkResponse 403 (Failure "Google SSO is currently disabled"))), db)
  /\ features.isAnySSOEnabled = false.
Proof.
  split; [| repeat split].
  intros Hoff. unfold oauthRoutes.callback, features.isEnabledIn.
  destruct (features.flag fs feature) as [[|] |]; try reflexivity.
  exfalso. apply Hoff. reflexivity.
Qed.

Lemma oauth_callbacks_gated_witness :
  oauthRoutes.callback [("enableGitHubSSO", false)] "enableAppleSSO"
    "Apple SSO is currently disabled" passport.githubVerify
    defaultConfig (calm 0) "http://localhost:5173" registerAlice github42 [alice]
  = (Ok (Json (mkResponse 403 (Failure "Apple SSO is currently disabled"))), [alice]).
Proof.
  refine (proj1 (oauth_callbacks_gated [("enableGitHubSSO", false)] "enableAppleSSO"
                   "Apple SSO is currently disabled" passport.githubVerify
                   defaultConfig (calm 0) "http://localhost:5173" registerAlice
                   github42 [alice]) _).
  discriminate.
Defined.

(** X26.  The OAuth callback does not look at [isActive]: for whatever
    user the strategy returns it stores a refresh token and redirects
    with a token pair.  For a deactivated user these tokens are of no
    use: within their lifetime [authenticate] refuses the access token
    with "User not found or inactive", and [POST /refresh] answers the
    refresh token with 401. *)
Theorem oauth_callback_ignores_isActive
        (fs : list (string * bool)) (cfg : Config) (env later : Env)
        (frontendURL : string) (req req' : Request)
        (profile : passport.OAuthProfile) (u : User) (db db1 : Mongo.Collection) :
  features.flag fs "enableGitHubSSO" = Some true ->
  passport.githubVerify env profile db = (Ok u, db1) ->
  find (fun d => Nat.eqb (_id d) (_id u)) db1 = Some u ->
  signThrows env = false -> saveRejects env = false ->
  let s := now env / 1000 in
  let access :=
    jsonwebtoken.Signed
      (jsonwebtoken.mkPayload (_id u) (Some (role u)) "access" s (s + 900))
      (ACCESS_TOKEN_SECRET cfg) in
  let refresh :=
    jsonwebtoken.Signed (jsonwebtoken.mkPayload (_id u) None "refresh" s (s + 604800))
                        (REFRESH_TOKEN_SECRET cfg) in
  let db2 :=
    written (UserMethods.addRefreshToken env refresh 604800 (userAgent req) (ip req) u)
            db1 in
  oauthRoutes.githubCallback fs cfg env frontendURL req profile db
  = (Ok (RedirectWithTokens frontendURL access refresh), db2)
  /\ (isActive u = false ->
      (now later / 1000 < s + 900 ->
       middleware.authenticate cfg later (Some (Bearer access)) db2
       = (Throw (errorHandler.AuthenticationError "User not found or inactive"), db2))
      /\ (now later / 1000 < s + 604800 ->
          body_refreshToken req' = Some refresh ->
          routes.refresh cfg later req' db2
          = (Ok (mkResponse 401 (Failure "User not found or inactive")), db2))).
Proof.
  intros Hon Hverify Hstored Hsign Hsave s access refresh db2.
  set (kept := UserMethods.addRefreshToken env refresh 604800 (userAgent req) (ip req) u).
  assert (Hid : _id kept = _id u) by apply addRefreshToken_fields.
  assert (Hfound : find (fun d => Nat.eqb (_id d) (_id u)) db2 = Some kept)
    by (apply (find_written (_id u) u kept db1 Hstored Hid)).
  split.
  - unfold oauthRoutes.githubCallback, oauthRoutes.callback, features.isEnabledIn.
    rewrite Hon. cbn [negb]. rewrite Hverify.
    unfold oauthRoutes.issueAndRedirect, Mongo.catch, Mongo.bindDB, Mongo.lift,
      jwt.generateAccessToken, jwt.generateRefreshToken, jsonwebtoken.sign,
      Mongo.save, Mongo.ret.
    rewrite Hsign, Hsave. reflexivity.
  - intros Hinactive.
    assert (Hoff : isActive kept = false).
    { transitivity (isActive u); [apply addRefreshToken_fields | exact Hinactive]. }
    split.
    + intros Hfresh. unfold middleware.authenticate. run_db.
      assert (Hv : jwt.verifyAccessToken cfg later access
                   = Ok (jsonwebtoken.mkPayload (_id u) (Some (role u)) "access"
                           s (s + 900)))
        by (apply verifyAccessToken_accepts; [exact Hfresh | reflexivity]).
      rewrite Hv. unfold Mongo.findById, Mongo.findOne.
      cbn [jsonwebtoken.userId]. rewrite Hfound, Hoff. reflexivity.
    + intros Hfresh Hbody.
      assert (Hv : jwt.verifyRefreshToken cfg later refresh
                   = Ok (jsonwebtoken.mkPayload (_id u) None "refresh" s (s + 604800)))
        by (apply verifyRefreshToken_accepts; [exact Hfresh | reflexivity]).
      clearbody kept db2. unfold refresh in *. clear refresh.
      unfold routes.refresh, Mongo.catch. rewrite Hbody. cbn [routes.given].
      run_db. rewrite Hv. unfold Mongo.findById, Mongo.findOne.
      cbn [jsonwebtoken.userId]. rewrite Hfound, Hoff. reflexivity.
Qed.

(** Bob was deactivated; GitHub SSO is switched on and he comes back
    through it. *)
Lemma oauth_callback_ignores_isActive_witness :
  exists access refresh db2,
    oauthRoutes.githubCallback [("enableGitHubSSO", true)] defaultConfig (calm 5000)
      "http://localhost:5173" registerAlice bobOnGithub [inactiveBob]
    = (Ok (RedirectWithTokens "http://localhost:5173" access refresh), db2)
    /\ middleware.authenticate defaultConfig (calm 6000) (Some (Bearer access)) db2
       = (Throw (errorHandler.AuthenticationError "User not found or inactive"), db2).
Proof.
  destruct (oauth_callback_ignores_isActive [("enableGitHubSSO", true)] defaultConfig
              (calm 5000) (calm 6000) "http://localhost:5173" registerAlice
              registerAlice bobOnGithub
              (set_lastLogin (Some 5000) inactiveBob) [inactiveBob]
              [set_lastLogin (Some 5000) inactiveBob]
              eq_refl eq_refl eq_refl eq_refl eq_refl) as [Hcb Hlater].
  eexists. eexists. eexists. split; [exact Hcb |].
  apply (proj1 (Hlater eq_refl)). reflexivity.
Defined.
